(** * ARM simulator: decoder and executor

    A shallow embedding of [arm_simulator/arm_decoder.py] (class
    [ARMInstruction], method [decode]) and [arm_simulator/arm_executor.py]
    (class [ARMCpu], methods [_update_flags], [_get_operand2] and
    [execute_instruction]), followed by the properties of the pair.

    Python integers are unbounded, so every integer is a [Z] and every
    32-bit wrap-around is the [& 0xFFFFFFFF] the source writes.  The
    [operands] dictionary is a [gmap string Z]; the register file is a
    [list Z] indexed the way a Python list is; the memory is a list of
    bytes.  Python exceptions are the [Raise] results of a small error
    monad, and what the executor prints is returned as a [report]. *)

From Stdlib Require Import ZArith Lia List.
From Stdlib.Strings Require Import Byte.
From stdpp Require Import base option list gmap strings.

Local Open Scope Z_scope.

(* ================================================================= *)
(** ** Python exceptions as an error monad *)

Module Py.

Inductive exn : Type :=
  | KeyError (key : string)   (* d[key] on a missing key *)
  | IndexError                (* list index out of range *)
  | StructError               (* struct.pack / struct.unpack *)
  | ValueError.               (* negative shift count *)

Inductive result (A : Type) : Type :=
  | Ok (a : A)
  | Raise (e : exn).
Arguments Ok {A} a.
Arguments Raise {A} e.

Definition bind {A B} (r : result A) (k : A -> result B) : result B :=
  match r with
  | Ok a => k a
  | Raise e => Raise e
  end.

(** [d[key]] *)
Definition getitem (d : gmap string Z) (key : string) : result Z :=
  match d !! key with
  | Some v => Ok v
  | None => Raise (KeyError key)
  end.

(** [l[i]] on a list: a negative index counts from the end. *)
Definition index {A} (l : list A) (i : Z) : result A :=
  let n := Z.of_nat (length l) in
  let j := if i <? 0 then i + n else i in
  if (0 <=? j) && (j <? n)
  then match l !! Z.to_nat j with
       | Some x => Ok x
       | None => Raise IndexError
       end
  else Raise IndexError.

(** [l[i] = x] on a list. *)
Definition setitem {A} (l : list A) (i : Z) (x : A) : result (list A) :=
  let n := Z.of_nat (length l) in
  let j := if i <? 0 then i + n else i in
  if (0 <=? j) && (j <? n)
  then Ok (<[Z.to_nat j := x]> l)
  else Raise IndexError.

(** [a << n] and [a >> n]: a negative count raises [ValueError]. *)
Definition lshift (a n : Z) : result Z :=
  if n <? 0 then Raise ValueError else Ok (Z.shiftl a n).

Definition rshift (a n : Z) : result Z :=
  if n <? 0 then Raise ValueError else Ok (Z.shiftr a n).

(** Truth value of an integer. *)
Definition truthy (a : Z) : bool := negb (a =? 0).

End Py.

Export Py (exn (..), result (..)).

Notation "x <- e ;; k" := (Py.bind e (fun x => k))
  (at level 61, e at next level, k at level 200, right associativity).

(* ================================================================= *)
(** ** The decoder: [arm_decoder.py] *)

(** The fields [ARMInstruction.__init__] creates.  [decode] also stores
    [rd], [rn], [rm], [rs], [operand2], [l_bit] and [offset] as attributes
    of the object; the executor reads none of them (it reads [operands]),
    so they are local values here. *)
Record ARMInstruction : Type := {
  binary_word : Z;
  instruction_type : option string;
  opcode : option Z;
  operands : gmap string Z;
  condition_code : option Z;
  set_flags : bool
}.

(** [ARMInstruction(binary_word)] *)
Definition new_instruction (w : Z) : ARMInstruction :=
  {| binary_word := w; instruction_type := None; opcode := None;
     operands := ∅; condition_code := None; set_flags := false |}.

(** [(w >> lo) & mask] *)
Definition field (w lo mask : Z) : Z := Z.land (Z.shiftr w lo) mask.

(** Line 42:
    [(imm8 >> (2 * rotate_imm)) | (imm8 << (32 - (2 * rotate_imm))) & 0xFFFFFFFF].
    In Python [&] binds tighter than [|], so only the left-shifted part is
    masked. *)
Definition rotate_immediate (imm8 rotate_imm : Z) : result Z :=
  lo <- Py.rshift imm8 (2 * rotate_imm) ;;
  hi <- Py.lshift imm8 (32 - 2 * rotate_imm) ;;
  Ok (Z.lor lo (Z.land hi 0xFFFFFFFF)).

(** The opcode table of lines 46-60 and 115-129; [unknown] is the name of
    the fallback kind.  The result is the kind and whether [set_flags] is
    forced to [True]. *)
Definition map_opcode (opc : Z) (unknown : string) : string * bool :=
  if opc =? 4 then ("ADD"%string, false)
  else if opc =? 2 then ("SUB"%string, false)
  else if opc =? 13 then ("MOV"%string, false)
  else if opc =? 10 then ("CMP"%string, true)
  else if opc =? 0 then ("AND"%string, false)
  else if opc =? 12 then ("ORR"%string, false)
  else (unknown, false).

(** Lines 80-87 and 100-107: an [if]/[elif] chain without [else], so the
    kind keeps its previous value ([None]) when no branch is taken. *)
Definition shift_kind (shift_type_bits : Z) : option string :=
  if shift_type_bits =? 0 then Some "LSL"%string
  else if shift_type_bits =? 1 then Some "LSR"%string
  else if shift_type_bits =? 2 then Some "ASR"%string
  else if shift_type_bits =? 3 then Some "ROR"%string
  else None.

(** Lines 132-135. *)
Definition rename_conditional (cc : Z) (kind : string) : string :=
  if (cc =? 1) && String.eqb kind "SUB" then "SUBNE"%string
  else if (cc =? 0) && String.eqb kind "ADD" then "ADDEQ"%string
  else kind.

Definition decode (w : Z) : result ARMInstruction :=
  let cc := field w 28 0xF in
  if (field w 24 0xF =? 0) && (field w 4 0xF =? 9) then
    (* Multiply *)
    let rd := field w 16 0xF in
    let rm := field w 0 0xF in
    let rs := field w 8 0xF in
    Ok {| binary_word := w; instruction_type := Some "MUL"%string;
          opcode := None;
          operands := <["rs" := rs]> (<["rm" := rm]> (<["rd" := rd]> ∅));
          condition_code := Some cc;
          set_flags := Py.truthy (field w 20 1) |}
  else if field w 26 3 =? 0 then
    (* Data processing *)
    let s := Py.truthy (field w 20 1) in
    let opc := field w 21 0xF in
    let rn := field w 16 0xF in
    let rd := field w 12 0xF in
    if Py.truthy (field w 25 1) then
      let rotate_imm := field w 8 0xF in
      let imm8 := field w 0 0xFF in
      operand2 <- rotate_immediate imm8 rotate_imm ;;
      let '(kind, force) := map_opcode opc "UNKNOWN_DATA_PROCESSING_IMM" in
      Ok {| binary_word := w;
            instruction_type := Some (rename_conditional cc kind);
            opcode := Some opc;
            operands :=
              <["operand2" := operand2]> (<["rn" := rn]> (<["rd" := rd]> ∅));
            condition_code := Some cc;
            set_flags := s || force |}
    else
      let rm := field w 0 0xF in
      let shift_type_bits := field w 5 3 in
      if negb (Py.truthy (field w 4 1)) then
        (* Immediate shift amount *)
        let shift_amount := field w 7 31 in
        let alias_ops : gmap string Z :=
          <["rn" := 0]> (<["shift_type" := shift_type_bits]>
            (<["shift_amount" := shift_amount]>
              (<["rm" := rm]> (<["rd" := rd]> ∅)))) in
        if (opc =? 13) && (shift_type_bits =? 3) && (rn =? 0) && (rm =? rd)
        then
          Ok {| binary_word := w; instruction_type := Some "ROR"%string;
                opcode := Some opc; operands := alias_ops;
                condition_code := Some cc; set_flags := s |}
        else if (rn =? 0) && (opc =? 13) then
          Ok {| binary_word := w;
                instruction_type := shift_kind shift_type_bits;
                opcode := Some opc; operands := alias_ops;
                condition_code := Some cc; set_flags := s |}
        else
          let '(kind, force) := map_opcode opc "UNKNOWN_DATA_PROCESSING_REG" in
          Ok {| binary_word := w;
                instruction_type := Some (rename_conditional cc kind);
                opcode := Some opc;
                operands :=
                  <["shift_type" := shift_type_bits]>
                    (<["shift_amount" := shift_amount]>
                      (<["rm" := rm]> (<["rn" := rn]> (<["rd" := rd]> ∅))));
                condition_code := Some cc;
                set_flags := s || force |}
      else
        (* Register-specified shift amount *)
        let rs := field w 8 0xF in
        if (rn =? 0) && (opc =? 13) then
          Ok {| binary_word := w;
                instruction_type := shift_kind shift_type_bits;
                opcode := Some opc;
                operands :=
                  <["rn" := 0]> (<["shift_type" := shift_type_bits]>
                    (<["rs" := rs]> (<["rm" := rm]> (<["rd" := rd]> ∅))));
                condition_code := Some cc; set_flags := s |}
        else
          let '(kind, force) := map_opcode opc "UNKNOWN_DATA_PROCESSING_REG" in
          Ok {| binary_word := w;
                instruction_type := Some (rename_conditional cc kind);
                opcode := Some opc;
                operands :=
                  <["shift_type" := shift_type_bits]>
                    (<["rs" := rs]>
                      (<["rm" := rm]> (<["rn" := rn]> (<["rd" := rd]> ∅))));
                condition_code := Some cc;
                set_flags := s || force |}
  else if field w 26 3 =? 1 then
    (* Load / store *)
    let l_bit := field w 20 1 in
    let rn := field w 16 0xF in
    let rd := field w 12 0xF in
    let offset := field w 0 0xFFF in
    Ok {| binary_word := w;
          instruction_type :=
            Some (if l_bit =? 1 then "LDR"%string else "STR"%string);
          opcode := None;
          operands := <["offset" := offset]> (<["rn" := rn]> (<["rd" := rd]> ∅));
          condition_code := Some cc; set_flags := false |}
  else if field w 25 7 =? 5 then
    (* Branch *)
    let l_bit := field w 24 1 in
    let offset := field w 0 0xFFFFFF in
    Ok {| binary_word := w;
          instruction_type :=
            Some (if l_bit =? 1 then "BL"%string else "B"%string);
          opcode := None;
          operands := <["offset" := offset]> ∅;
          condition_code := Some cc; set_flags := false |}
  else
    Ok {| binary_word := w; instruction_type := Some "UNKNOWN"%string;
          opcode := None; operands := ∅;
          condition_code := Some cc; set_flags := false |}.

(* ================================================================= *)
(** ** [struct] and byte buffers *)

Module Struct.

Definition byte_of_Z (z : Z) : byte := default x00 (Byte.of_N (Z.to_N z)).
Definition Z_of_byte (b : byte) : Z := Z.of_N (Byte.to_N b).

(** [struct.pack('<I', v)]: four little-endian bytes; a value outside
    [0, 2^32) raises [struct.error]. *)
Definition pack_le_u32 (v : Z) : result (list byte) :=
  if (0 <=? v) && (v <? 2 ^ 32)
  then Ok [byte_of_Z (Z.land v 255);
           byte_of_Z (Z.land (Z.shiftr v 8) 255);
           byte_of_Z (Z.land (Z.shiftr v 16) 255);
           byte_of_Z (Z.land (Z.shiftr v 24) 255)]
  else Raise StructError.

(** [struct.unpack('<I', bs)[0]]: the buffer must hold exactly four bytes. *)
Definition unpack_le_u32 (bs : list byte) : result Z :=
  match bs with
  | [b0; b1; b2; b3] =>
      Ok (Z_of_byte b0 + 2 ^ 8 * Z_of_byte b1
          + 2 ^ 16 * Z_of_byte b2 + 2 ^ 24 * Z_of_byte b3)
  | _ => Raise StructError
  end.

(** [struct.unpack('<i', bs)[0]]: the same four bytes read as a signed
    two's-complement value. *)
Definition unpack_le_i32 (bs : list byte) : result Z :=
  u <- unpack_le_u32 bs ;;
  Ok (if u <? 2 ^ 31 then u else u - 2 ^ 32).

End Struct.

Module Slice.

(** How Python clamps one bound of [l[a:b]] for a sequence of length [n]. *)
Definition clamp (n i : Z) : Z :=
  if i <? 0 then Z.max 0 (i + n) else Z.min i n.

(** [l[a:b]] *)
Definition get {A} (l : list A) (a b : Z) : list A :=
  let n := Z.of_nat (length l) in
  let lo := clamp n a in
  let hi := clamp n b in
  take (Z.to_nat (hi - lo)) (drop (Z.to_nat lo) l).

(** [l[a:b] = xs] on a bytearray. *)
Definition set {A} (l : list A) (a b : Z) (xs : list A) : list A :=
  let n := Z.of_nat (length l) in
  let lo := clamp n a in
  let hi := Z.max lo (clamp n b) in
  take (Z.to_nat lo) l ++ xs ++ drop (Z.to_nat hi) l.

End Slice.

(* ================================================================= *)
(** ** The executor: [arm_executor.py] *)

(** The [cpsr] dictionary: its four keys ['N'], ['Z'], ['C'] and ['V'] are
    created by [__init__] and are the only ones ever assigned.  The field
    of ['Z'] is [Z_], since [Z] is the type of integers. *)
Record Flags : Type := { N : Z; Z_ : Z; C : Z; V : Z }.

Record ARMCpu : Type := {
  registers : list Z;
  cpsr : Flags;
  memory : list byte
}.

(** [ARMCpu()] *)
Definition new_cpu : ARMCpu :=
  {| registers := replicate 16 0;
     cpsr := {| N := 0; Z_ := 0; C := 0; V := 0 |};
     memory := replicate 1024 x00 |}.

(** The lines [execute_instruction] prints. *)
Inductive report : Type :=
  | Skipped (kind : option string)
  | OutOfBoundsLDR (address : Z)
  | OutOfBoundsSTR (address : Z)
  | Branch (kind : option string) (offset : Z)
  | UnknownType (kind : option string).

Definition flag_of_bool (b : bool) : Z := if b then 1 else 0.

(** [_update_flags(result, carry_out=None, overflow=None)] *)
Definition update_flags (f : Flags) (res : Z)
    (carry_out overflow : option bool) : Flags :=
  let result_32bit := Z.land res 0xFFFFFFFF in
  {| N := flag_of_bool (Py.truthy (Z.land (Z.shiftr result_32bit 31) 1));
     Z_ := flag_of_bool (result_32bit =? 0);
     C := match carry_out with Some c => flag_of_bool c | None => C f end;
     V := match overflow with Some v => flag_of_bool v | None => V f end |}.

(** Lines 35-43: the shift amount after [actual_shift_amount &= 0x1F]. *)
Definition actual_shift_amount (ops : gmap string Z) (regs : list Z)
    : result Z :=
  amount <- match ops !! "shift_amount" with
            | Some a => Ok a
            | None =>
                match ops !! "rs" with
                | Some rs => Py.index regs rs
                | None => Ok 0
                end
            end ;;
  Ok (Z.land amount 0x1F).

(** Lines 45-65: the shift applied to [rm_value]. *)
Definition apply_shift (shift_type rm_value amount : Z) : result Z :=
  if shift_type =? 0 then Py.lshift rm_value amount
  else if shift_type =? 1 then Py.rshift rm_value amount
  else if shift_type =? 2 then
    if Py.truthy (Z.land rm_value 0x80000000) then
      bs <- Struct.pack_le_u32 (Z.land rm_value 0xFFFFFFFF) ;;
      signed_rm_value <- Struct.unpack_le_i32 bs ;;
      sh <- Py.rshift signed_rm_value amount ;;
      Ok (Z.land sh 0xFFFFFFFF)
    else Py.rshift rm_value amount
  else if shift_type =? 3 then
    lo <- Py.rshift rm_value amount ;;
    hi <- Py.lshift rm_value (32 - amount) ;;
    Ok (Z.land (Z.lor lo hi) 0xFFFFFFFF)
  else Ok rm_value.

(** [_get_operand2(instruction)] *)
Definition get_operand2 (i : ARMInstruction) (regs : list Z) : result Z :=
  let ops := operands i in
  match ops !! "operand2" with
  | Some v => Ok v
  | None =>
      match ops !! "rm" with
      | Some rm =>
          rm_value <- Py.index regs rm ;;
          match ops !! "shift_type" with
          | Some shift_type =>
              amount <- actual_shift_amount ops regs ;;
              apply_shift shift_type rm_value amount
          | None => Ok rm_value
          end
      | None => Ok 0
      end
  end.

Definition with_registers (s : ARMCpu) (regs : list Z) : ARMCpu :=
  {| registers := regs; cpsr := cpsr s; memory := memory s |}.
Definition with_cpsr (s : ARMCpu) (f : Flags) : ARMCpu :=
  {| registers := registers s; cpsr := f; memory := memory s |}.
Definition with_memory (s : ARMCpu) (m : list byte) : ARMCpu :=
  {| registers := registers s; cpsr := cpsr s; memory := m |}.

Definition sign_bit (v : Z) : Z := Z.land (Z.shiftr v 31) 1.

(** The body shared by the [MOV], [LSL], [LSR], [ASR] and [ROR] branches. *)
Definition exec_move (i : ARMInstruction) (s : ARMCpu) : result ARMCpu :=
  rd <- Py.getitem (operands i) "rd" ;;
  operand2 <- get_operand2 i (registers s) ;;
  regs <- Py.setitem (registers s) rd (Z.land operand2 0xFFFFFFFF) ;;
  let s1 := with_registers s regs in
  Ok (if set_flags i
      then with_cpsr s1 (update_flags (cpsr s1) operand2 None None)
      else s1).

(** The body shared by the [ADD] and [ADDEQ] branches. *)
Definition exec_add (i : ARMInstruction) (s : ARMCpu) : result ARMCpu :=
  rd <- Py.getitem (operands i) "rd" ;;
  rn <- Py.getitem (operands i) "rn" ;;
  operand2 <- get_operand2 i (registers s) ;;
  val_rn <- Py.index (registers s) rn ;;
  let res := val_rn + operand2 in
  regs <- Py.setitem (registers s) rd (Z.land res 0xFFFFFFFF) ;;
  let s1 := with_registers s regs in
  Ok (if set_flags i then
        let carry_out := 0xFFFFFFFF <? res in
        let rn_sign := sign_bit val_rn in
        let op2_sign := sign_bit operand2 in
        let result_sign := sign_bit res in
        let overflow :=
          (rn_sign =? op2_sign) && negb (rn_sign =? result_sign) in
        with_cpsr s1
          (update_flags (cpsr s1) res (Some carry_out) (Some overflow))
      else s1).

(** The flags of a subtraction: lines 136-143, 173-180 and 189-194. *)
Definition sub_flags (f : Flags) (val_rn operand2 res : Z) : Flags :=
  let carry_out := operand2 <=? val_rn in
  let rn_sign := sign_bit val_rn in
  let op2_sign := sign_bit operand2 in
  let result_sign := sign_bit res in
  let overflow :=
    negb (rn_sign =? op2_sign) && negb (rn_sign =? result_sign) in
  update_flags f res (Some carry_out) (Some overflow).

(** The body shared by the [SUB] and [SUBNE] branches. *)
Definition exec_sub (i : ARMInstruction) (s : ARMCpu) : result ARMCpu :=
  rd <- Py.getitem (operands i) "rd" ;;
  rn <- Py.getitem (operands i) "rn" ;;
  operand2 <- get_operand2 i (registers s) ;;
  val_rn <- Py.index (registers s) rn ;;
  let res := val_rn - operand2 in
  regs <- Py.setitem (registers s) rd (Z.land res 0xFFFFFFFF) ;;
  let s1 := with_registers s regs in
  Ok (if set_flags i
      then with_cpsr s1 (sub_flags (cpsr s1) val_rn operand2 res)
      else s1).

Definition exec_cmp (i : ARMInstruction) (s : ARMCpu) : result ARMCpu :=
  rn <- Py.getitem (operands i) "rn" ;;
  operand2 <- get_operand2 i (registers s) ;;
  val_rn <- Py.index (registers s) rn ;;
  let res := val_rn - operand2 in
  Ok (with_cpsr s (sub_flags (cpsr s) val_rn operand2 res)).

Definition exec_mul (i : ARMInstruction) (s : ARMCpu) : result ARMCpu :=
  rd <- Py.getitem (operands i) "rd" ;;
  rm <- Py.getitem (operands i) "rm" ;;
  rs <- Py.getitem (operands i) "rs" ;;
  val_rm <- Py.index (registers s) rm ;;
  val_rs <- Py.index (registers s) rs ;;
  let res := val_rm * val_rs in
  regs <- Py.setitem (registers s) rd (Z.land res 0xFFFFFFFF) ;;
  let s1 := with_registers s regs in
  Ok (if set_flags i
      then with_cpsr s1 (update_flags (cpsr s1) res None None)
      else s1).

(** The body shared by the [AND] ([op] is [&]) and [ORR] ([op] is [|])
    branches. *)
Definition exec_logic (op : Z -> Z -> Z) (i : ARMInstruction) (s : ARMCpu)
    : result ARMCpu :=
  rd <- Py.getitem (operands i) "rd" ;;
  rn <- Py.getitem (operands i) "rn" ;;
  operand2 <- get_operand2 i (registers s) ;;
  val_rn <- Py.index (registers s) rn ;;
  let res := op val_rn operand2 in
  regs <- Py.setitem (registers s) rd (Z.land res 0xFFFFFFFF) ;;
  let s1 := with_registers s regs in
  Ok (if set_flags i
      then with_cpsr s1 (update_flags (cpsr s1) res None None)
      else s1).

(** [0 <= address < len(self.memory) - 3] *)
Definition in_bounds (s : ARMCpu) (address : Z) : bool :=
  (0 <=? address) && (address <? Z.of_nat (length (memory s)) - 3).

Definition exec_ldr (i : ARMInstruction) (s : ARMCpu)
    : result (ARMCpu * option report) :=
  rd <- Py.getitem (operands i) "rd" ;;
  rn <- Py.getitem (operands i) "rn" ;;
  offset <- Py.getitem (operands i) "offset" ;;
  val_rn <- Py.index (registers s) rn ;;
  let address := val_rn + offset in
  if in_bounds s address then
    value <- Struct.unpack_le_u32
               (Slice.get (memory s) address (address + 4)) ;;
    regs <- Py.setitem (registers s) rd value ;;
    Ok (with_registers s regs, None)
  else Ok (s, Some (OutOfBoundsLDR address)).

Definition exec_str (i : ARMInstruction) (s : ARMCpu)
    : result (ARMCpu * option report) :=
  rd <- Py.getitem (operands i) "rd" ;;
  rn <- Py.getitem (operands i) "rn" ;;
  offset <- Py.getitem (operands i) "offset" ;;
  val_rn <- Py.index (registers s) rn ;;
  let address := val_rn + offset in
  value <- Py.index (registers s) rd ;;
  if in_bounds s address then
    bs <- Struct.pack_le_u32 value ;;
    Ok (with_memory s (Slice.set (memory s) address (address + 4) bs), None)
  else Ok (s, Some (OutOfBoundsSTR address)).

(** [instruction.instruction_type == name] *)
Definition is_type (i : ARMInstruction) (name : string) : bool :=
  match instruction_type i with
  | Some k => String.eqb k name
  | None => false
  end.

(** [instruction.condition_code == c] *)
Definition is_cond (i : ARMInstruction) (c : Z) : bool :=
  match condition_code i with
  | Some k => k =? c
  | None => false
  end.

(** Lines 73-79: the value of [execute_conditionally]. *)
Definition execute_conditionally (i : ARMInstruction) (s : ARMCpu) : bool :=
  if is_cond i 1 then negb (Z_ (cpsr s) =? 1)
  else if is_cond i 0 then negb (Z_ (cpsr s) =? 0)
  else true.

Definition silent (r : result ARMCpu) : result (ARMCpu * option report) :=
  s <- r ;; Ok (s, None).

(** [execute_instruction(instruction)]: the state after the call and the
    line it printed, or the exception it raised. *)
Definition execute_instruction (i : ARMInstruction) (s : ARMCpu)
    : result (ARMCpu * option report) :=
  if negb (execute_conditionally i s) then
    Ok (s, Some (Skipped (instruction_type i)))
  else if is_type i "MOV" then silent (exec_move i s)
  else if is_type i "LDR" then exec_ldr i s
  else if is_type i "STR" then exec_str i s
  else if is_type i "ADD" then silent (exec_add i s)
  else if is_type i "SUB" then silent (exec_sub i s)
  else if is_type i "MUL" then silent (exec_mul i s)
  else if is_type i "AND" then silent (exec_logic Z.land i s)
  else if is_type i "ORR" then silent (exec_logic Z.lor i s)
  else if is_type i "CMP" then silent (exec_cmp i s)
  else if is_type i "SUBNE" then silent (exec_sub i s)
  else if is_type i "ADDEQ" then silent (exec_add i s)
  else if is_type i "LSL" then silent (exec_move i s)
  else if is_type i "LSR" then silent (exec_move i s)
  else if is_type i "ASR" then silent (exec_move i s)
  else if is_type i "ROR" then silent (exec_move i s)
  else if is_type i "B" || is_type i "BL" then
    offset <- Py.getitem (operands i) "offset" ;;
    Ok (s, Some (Branch (instruction_type i) offset))
  else Ok (s, Some (UnknownType (instruction_type i))).

(* ================================================================= *)
(** ** Vocabulary of the properties *)

(** The kinds of section 3 of the design. *)
Definition kinds : list string :=
  ["MOV"; "ADD"; "SUB"; "ADDEQ"; "SUBNE"; "CMP"; "AND"; "ORR"; "MUL";
   "LDR"; "STR"; "B"; "BL"; "LSL"; "LSR"; "ASR"; "ROR"; "UNKNOWN";
   "UNKNOWN_DATA_PROCESSING_IMM"; "UNKNOWN_DATA_PROCESSING_REG"]%string.

(** [k in l] *)
Definition one_of (k : string) (l : list string) : bool :=
  existsb (String.eqb k) l.

(** The operand keys the executor subscripts ([operands['key']]) in the
    branch of each kind. *)
Definition subscripted (k : string) : list string :=
  (if one_of k ["MOV"; "LSL"; "LSR"; "ASR"; "ROR"] then ["rd"]
   else if one_of k ["LDR"; "STR"] then ["rd"; "rn"; "offset"]
   else if one_of k ["ADD"; "SUB"; "AND"; "ORR"; "SUBNE"; "ADDEQ"]
        then ["rd"; "rn"]
   else if one_of k ["CMP"] then ["rn"]
   else if one_of k ["MUL"] then ["rd"; "rm"; "rs"]
   else if one_of k ["B"; "BL"] then ["offset"]
   else [])%string.

(** The operand keys whose values index the register file. *)
Definition register_keys : list string := ["rd"; "rn"; "rm"; "rs"]%string.

(** What the executor relies on in a record: a kind of the design, the
    keys its branch subscripts, register numbers in 0..15, and [set_flags]
    on every [CMP]. *)
Record well_formed (i : ARMInstruction) : Prop := {
  wf_kind : exists k, instruction_type i = Some k /\ In k kinds;
  wf_keys : forall k, instruction_type i = Some k ->
            Forall (fun key => is_Some (operands i !! key)) (subscripted k);
  wf_regs : forall key r, In key register_keys ->
            operands i !! key = Some r -> 0 <= r < 16;
  wf_cmp : instruction_type i = Some "CMP"%string -> set_flags i = true
}.

(** [r] is a value, not an exception, and the value satisfies [P]. *)
Definition holds {A} (P : A -> Prop) (r : result A) : Prop :=
  match r with
  | Ok a => P a
  | Raise _ => False
  end.

(** A 32-bit unsigned value. *)
Definition in_range32 (v : Z) : Prop := 0 <= v < 2 ^ 32.

(** The register file of a running simulation: sixteen registers, each a
    32-bit unsigned value. *)
Record valid_state (s : ARMCpu) : Prop := {
  vs_length : length (registers s) = 16%nat;
  vs_range : Forall in_range32 (registers s)
}.

(** The register numbers of a record are in 0..15. *)
Definition register_operands (i : ARMInstruction) : Prop :=
  forall key r, In key register_keys ->
                operands i !! key = Some r -> 0 <= r < 16.

(** Kinds whose branch assigns [self.registers[rd]]. *)
Definition writes_rd (k : string) : bool :=
  one_of k ["MOV"; "LDR"; "ADD"; "SUB"; "MUL"; "AND"; "ORR"; "SUBNE";
            "ADDEQ"; "LSL"; "LSR"; "ASR"; "ROR"]%string.

(** [s'] is [s] after [registers[rd] = v] for a 32-bit [v], and possibly a
    flag update that the record asked for. *)
Definition reg_write (i : ARMInstruction) (s s' : ARMCpu) : Prop :=
  exists rd v,
    operands i !! "rd"%string = Some rd /\ in_range32 v /\
    Py.setitem (registers s) rd v = Ok (registers s') /\
    memory s' = memory s /\
    (cpsr s' = cpsr s \/ set_flags i = true).

(** The four ways [execute_instruction] can leave the machine. *)
Inductive effect (i : ARMInstruction) (s s' : ARMCpu) : Prop :=
  | eff_none : s' = s -> effect i s s'
  | eff_reg k :
      instruction_type i = Some k -> writes_rd k = true ->
      reg_write i s s' -> effect i s s'
  | eff_cmp :
      instruction_type i = Some "CMP"%string ->
      registers s' = registers s -> memory s' = memory s -> effect i s s'
  | eff_str :
      instruction_type i = Some "STR"%string ->
      registers s' = registers s -> cpsr s' = cpsr s -> effect i s s'.


(** The addresses at which four bytes fit: [0 .. memory_size - 4]. *)
Definition fits (s : ARMCpu) (address : Z) : Prop :=
  0 <= address <= Z.of_nat (length (memory s)) - 4.

(** The address [Rn + offset] an [LDR] or [STR] record computes. *)
Definition effective_address (i : ARMInstruction) (s : ARMCpu) : option Z :=
  match operands i !! "rn"%string, operands i !! "offset"%string with
  | Some rn, Some offset =>
      match registers s !! Z.to_nat rn with
      | Some base => Some (base + offset)
      | None => None
      end
  | _, _ => None
  end.

(** [s'] is [s] after the four bytes at [address] were loaded into [Rd]. *)
Definition loaded (i : ARMInstruction) (s : ARMCpu) (address : Z)
    (s' : ARMCpu) : Prop :=
  exists rd value,
    operands i !! "rd"%string = Some rd /\
    Struct.unpack_le_u32 (Slice.get (memory s) address (address + 4))
      = Ok value /\
    s' = with_registers s (<[Z.to_nat rd := value]> (registers s)).

(** [s'] is [s] after [Rd] was stored in the four bytes at [address]. *)
Definition stored (i : ARMInstruction) (s : ARMCpu) (address : Z)
    (s' : ARMCpu) : Prop :=
  exists rd value bs,
    operands i !! "rd"%string = Some rd /\
    registers s !! Z.to_nat rd = Some value /\
    Struct.pack_le_u32 value = Ok bs /\
    s' = with_memory s (Slice.set (memory s) address (address + 4) bs).

(** The access was performed: nothing is printed and [s'] is the state
    after the load or the store. *)
Definition access_performed (i : ARMInstruction) (s : ARMCpu) (address : Z)
    : Prop :=
  exists s',
    execute_instruction i s = Ok (s', None) /\
    ((instruction_type i = Some "LDR"%string /\ loaded i s address s') \/
     (instruction_type i = Some "STR"%string /\ stored i s address s')).

(** The access was rejected: the out-of-bounds line is printed and the
    state returned is the state given. *)
Definition access_rejected (i : ARMInstruction) (s : ARMCpu) (address : Z)
    : Prop :=
  exists rep,
    execute_instruction i s = Ok (s, Some rep) /\
    (rep = OutOfBoundsLDR address \/ rep = OutOfBoundsSTR address).

(** Reference 32-bit rotate right by [n]: the upper [32 - n] bits of [v]
    move down by [n] places, and the [n] bits rotated out at the bottom
    re-enter at the top. *)
Definition ror32 (v n : Z) : Z := v / 2 ^ n + (v mod 2 ^ n) * 2 ^ (32 - n).

(** [decode_instructions(binary_data)]: the stream is cut into 4-byte
    big-endian words; trailing bytes that do not make a word are dropped. *)
Fixpoint decode_instructions (binary_data : list byte)
    : result (list ARMInstruction) :=
  match binary_data with
  | b0 :: b1 :: b2 :: b3 :: rest =>
      i <- decode (2 ^ 24 * Struct.Z_of_byte b0 + 2 ^ 16 * Struct.Z_of_byte b1
                   + 2 ^ 8 * Struct.Z_of_byte b2 + Struct.Z_of_byte b3) ;;
      instructions <- decode_instructions rest ;;
      Ok (i :: instructions)
  | _ => Ok []
  end.

(** The loop of [run_simulation]: the records are executed in order. *)
Fixpoint execute_all (instructions : list ARMInstruction) (s : ARMCpu)
    : result ARMCpu :=
  match instructions with
  | [] => Ok s
  | i :: rest =>
      sr <- execute_instruction i s ;;
      execute_all rest (fst sr)
  end.

(** A register file for the examples: [R0 = r0], the others zero. *)
Definition with_r0 (r0 : Z) : ARMCpu :=
  with_registers new_cpu (r0 :: replicate 15 0).

(** No record carries two descriptions of its second operand: a resolved
    immediate excludes the register form, and a shifted register has its
    amount either as an immediate or in a register, never both. *)
Definition shift_descriptors_exclusive (i : ARMInstruction) : Prop :=
  let ops := operands i in
  (is_Some (ops !! "operand2"%string) ->
   ops !! "rm"%string = None /\ ops !! "shift_type"%string = None /\
   ops !! "shift_amount"%string = None /\ ops !! "rs"%string = None) /\
  (is_Some (ops !! "shift_type"%string) ->
   is_Some (ops !! "rm"%string) /\
   (is_Some (ops !! "shift_amount"%string) <-> ops !! "rs"%string = None)) /\
  (is_Some (ops !! "shift_amount"%string) ->
   is_Some (ops !! "shift_type"%string)).

(** The ranges of the fields the decoder extracts. *)
Definition fields_in_range (i : ARMInstruction) : Prop :=
  (exists c, condition_code i = Some c /\ 0 <= c < 16) /\
  (forall v, operands i !! "offset"%string = Some v -> 0 <= v < 2 ^ 24) /\
  (forall v, operands i !! "shift_amount"%string = Some v -> 0 <= v < 32) /\
  (forall v, operands i !! "shift_type"%string = Some v -> 0 <= v < 4) /\
  (forall v, operands i !! "operand2"%string = Some v -> in_range32 v).

(** How the kind and the condition code of a record go together. *)
Definition conditional_kinds_consistent (i : ARMInstruction) : Prop :=
  (instruction_type i = Some "SUBNE"%string -> condition_code i = Some 1) /\
  (instruction_type i = Some "ADDEQ"%string -> condition_code i = Some 0) /\
  (instruction_type i = Some "SUB"%string -> condition_code i <> Some 1) /\
  (instruction_type i = Some "ADD"%string -> condition_code i <> Some 0).

(** A [MOV] record in register form has a base register other than R0. *)
Definition mov_register_form_has_rn (i : ARMInstruction) : Prop :=
  instruction_type i = Some "MOV"%string ->
  is_Some (operands i !! "rm"%string) ->
  exists rn, operands i !! "rn"%string = Some rn /\ rn <> 0.

(* ================================================================= *)
(** ** The generator of the test binary: [generate_test_binary.py] *)

Module Generator.

(** [struct.pack(">I", word)]: four big-endian bytes; a value outside
    [0, 2^32) raises [struct.error]. *)
Definition pack_be_u32 (v : Z) : result (list byte) :=
  if (0 <=? v) && (v <? 2 ^ 32)
  then Ok [Struct.byte_of_Z (Z.land (Z.shiftr v 24) 255);
           Struct.byte_of_Z (Z.land (Z.shiftr v 16) 255);
           Struct.byte_of_Z (Z.land (Z.shiftr v 8) 255);
           Struct.byte_of_Z (Z.land v 255)]
  else Raise StructError.

(** The fifteen words of [binary_words].  [hex_to_bin_word] is
    [int(hex_str, 16)] applied to an eight-digit literal; each word is
    written here as the number it returns. *)
Definition binary_words : list Z :=
  [0xE3A00010; 0xE5901100; 0xE5812000; 0xE0813002; 0xE0424003;
   0xE0050194; 0xE1500005; 0xE0006005; 0xE1807005; 0x10400005;
   0x00876008; 0xE1A01100; 0xE1A02120; 0xE1A14260; 0xE1A003E0].

(** The loop [for word in binary_words: f.write(struct.pack(">I", word))]
    on the file opened for writing, [file] being what it holds so far:
    the bytes it holds when the loop ends, and the exception that ended
    the loop, if any.  A word whose packing raises writes nothing; the
    words written before it stay in the file. *)
Fixpoint write_words (words : list Z) (file : list byte)
    : list byte * option exn :=
  match words with
  | [] => (file, None)
  | word :: rest =>
      match pack_be_u32 word with
      | Ok bs => write_words rest (file ++ bs)
      | Raise e => (file, Some e)
      end
  end.

(** The contents of the file [generate_test_binary] writes, the file being
    created empty by [open(output_file, "wb")]. *)
Definition generate_test_binary : list byte * option exn :=
  write_words binary_words [].

End Generator.

(* ================================================================= *)
(** ** Vocabulary of the flag properties *)

(** The signed reading of a 32-bit pattern. *)
Definition signed32 (v : Z) : Z := if v <? 2 ^ 31 then v else v - 2 ^ 32.

(** Each of N, Z, C and V is a single bit. *)
Definition flags_are_bits (f : Flags) : Prop :=
  (N f = 0 \/ N f = 1) /\ (Z_ f = 0 \/ Z_ f = 1) /\
  (C f = 0 \/ C f = 1) /\ (V f = 0 \/ V f = 1).

(** The flags are the old ones or come out of one [_update_flags] call. *)
Definition flag_step (f f' : Flags) : Prop :=
  f' = f \/ exists res carry_out overflow,
              f' = update_flags f res carry_out overflow.

(** The kinds whose flag update passes neither [carry_out] nor
    [overflow]. *)
Definition logical_kinds : list string :=
  ["MOV"; "MUL"; "AND"; "ORR"; "LSL"; "LSR"; "ASR"; "ROR"]%string.

(** Bits, and never "negative" and "zero" at once. *)
Definition flags_consistent (f : Flags) : Prop :=
  flags_are_bits f /\ ~ (N f = 1 /\ Z_ f = 1).

(** What the flags say after adding the 32-bit values [a] and [b]: carry
    out of bit 31, signed overflow, zero and sign of the 32-bit result. *)
Definition add_flags_spec (f : Flags) (a b : Z) : Prop :=
  (C f = 1 <-> 2 ^ 32 <= a + b) /\
  (V f = 1 <-> ~ (- 2 ^ 31 <= signed32 a + signed32 b < 2 ^ 31)) /\
  (Z_ f = 1 <-> (a + b) mod 2 ^ 32 = 0) /\
  (N f = 1 <-> 2 ^ 31 <= (a + b) mod 2 ^ 32).

(** What the flags say after subtracting [b] from [a]: no borrow, signed
    overflow, equality and sign of the 32-bit result. *)
Definition sub_flags_spec (f : Flags) (a b : Z) : Prop :=
  (C f = 1 <-> b <= a) /\
  (V f = 1 <-> ~ (- 2 ^ 31 <= signed32 a - signed32 b < 2 ^ 31)) /\
  (Z_ f = 1 <-> a = b) /\
  (N f = 1 <-> 2 ^ 31 <= (a - b) mod 2 ^ 32).

(** The kinds whose branch of [execute_instruction] only prints. *)
Definition inert_kinds : list string :=
  ["B"; "BL"; "UNKNOWN"; "UNKNOWN_DATA_PROCESSING_IMM";
   "UNKNOWN_DATA_PROCESSING_REG"]%string.

(** What the flags [f'] say after a move, a logical operation or a
    multiplication with result [res], starting from [f]: zero and sign of
    the 32-bit result; carry and overflow are those of [f]. *)
Definition logic_flags_spec (f f' : Flags) (res : Z) : Prop :=
  (Z_ f' = 1 <-> res mod 2 ^ 32 = 0) /\
  (N f' = 1 <-> 2 ^ 31 <= res mod 2 ^ 32) /\
  C f' = C f /\ V f' = V f.

(** The operator of a logical kind: [&] for [AND], [|] for [ORR]. *)
Definition logic_op (k : string) : Z -> Z -> Z :=
  if String.eqb k "AND" then Z.land else Z.lor.

(** Two states with the same registers, the same memory and the same Z
    flag: they may differ in N, C and V. *)
Definition agree_up_to_ncv (s1 s2 : ARMCpu) : Prop :=
  registers s1 = registers s2 /\ memory s1 = memory s2 /\
  Z_ (cpsr s1) = Z_ (cpsr s2).

(** Two calls end alike: both return, with results related by [R], or both
    raise the same exception. *)
Definition same_outcome {A} (R : A -> A -> Prop) (r1 r2 : result A) : Prop :=
  match r1, r2 with
  | Ok a1, Ok a2 => R a1 a2
  | Raise e1, Raise e2 => e1 = e2
  | _, _ => False
  end.

(** Two results of [execute_instruction] that agree: states that agree up
    to N, C and V, and the same printed line. *)
Definition agree_results (x y : ARMCpu * option report) : Prop :=
  agree_up_to_ncv (fst x) (fst y) /\ snd x = snd y.

(* ================================================================= *)
(** ** The Thumb records: [ThumbInstruction] *)

(** [ThumbInstruction(binary_word)]: the constructor of the base class,
    then [self.binary_word = binary_word & 0xFFFF]. *)
Definition new_thumb_instruction (w : Z) : ARMInstruction :=
  let i := new_instruction w in
  {| binary_word := Z.land w 0xFFFF;
     instruction_type := instruction_type i; opcode := opcode i;
     operands := operands i; condition_code := condition_code i;
     set_flags := set_flags i |}.

(** [ThumbInstruction.decode()] *)
Definition thumb_decode (i : ARMInstruction) : ARMInstruction :=
  {| binary_word := binary_word i;
     instruction_type := Some "UNKNOWN_THUMB"%string;
     opcode := opcode i;
     operands := {[ "binary_word"%string := binary_word i ]};
     condition_code := condition_code i;
     set_flags := set_flags i |}.

(* ================================================================= *)
(** ** The driver: [main_simulator.py] *)

(** Lines 6-16 of [run_simulation]: [ARMCpu()] followed by the eight
    register assignments. *)
Definition initial_cpu : result ARMCpu :=
  let cpu := new_cpu in
  regs <- Py.setitem (registers cpu) 0 0x10 ;;
  regs <- Py.setitem regs 1 0x20 ;;
  regs <- Py.setitem regs 2 0x05 ;;
  regs <- Py.setitem regs 3 0x02 ;;
  regs <- Py.setitem regs 4 0x0A ;;
  regs <- Py.setitem regs 5 0x03 ;;
  regs <- Py.setitem regs 7 0x0F ;;
  regs <- Py.setitem regs 8 0x0F ;;
  Ok (with_registers cpu regs).

(** [run_simulation(binary_file_path)].  The file is given by its
    contents, [None] when it does not exist ([FileNotFoundError] is
    caught and the function returns).  The printed lines are left out, and
    the machine state the function ends with is returned, so that it can be
    observed: [None] when the function returned before the loop. *)
Definition run_simulation (file : option (list byte))
    : result (option ARMCpu) :=
  cpu <- initial_cpu ;;
  match file with
  | None => Ok None
  | Some binary_data =>
      instructions <- decode_instructions binary_data ;;
      cpu' <- execute_all instructions cpu ;;
      Ok (Some cpu')
  end.

(* ================================================================= *)
(** ** Bit fields *)

Lemma field_ones w lo k : 0 <= k -> 0 <= field w lo (Z.ones k) < 2 ^ k.
Proof.
  intros Hk. unfold field. rewrite Z.land_ones by exact Hk.
  apply Z.mod_pos_bound. apply Z.pow_pos_nonneg; lia.
Qed.

Lemma field_1 w lo : 0 <= field w lo 1 < 2.
Proof. exact (field_ones w lo 1 ltac:(lia)). Qed.
Lemma field_3 w lo : 0 <= field w lo 3 < 4.
Proof. exact (field_ones w lo 2 ltac:(lia)). Qed.
Lemma field_15 w lo : 0 <= field w lo 15 < 16.
Proof. exact (field_ones w lo 4 ltac:(lia)). Qed.
Lemma field_31 w lo : 0 <= field w lo 31 < 32.
Proof. exact (field_ones w lo 5 ltac:(lia)). Qed.
Lemma field_255 w lo : 0 <= field w lo 255 < 256.
Proof. exact (field_ones w lo 8 ltac:(lia)). Qed.

(* ================================================================= *)
(** ** What the decoder produces *)

Lemma rotate_immediate_eq imm8 r :
  0 <= r <= 16 ->
  rotate_immediate imm8 r =
    Ok (Z.lor (Z.shiftr imm8 (2 * r))
              (Z.land (Z.shiftl imm8 (32 - 2 * r)) 0xFFFFFFFF)).
Proof.
  intros Hr. unfold rotate_immediate, Py.rshift, Py.lshift.
  destruct (Z.ltb_spec (2 * r) 0); [lia|].
  destruct (Z.ltb_spec (32 - 2 * r) 0); [lia|]. reflexivity.
Qed.

Lemma shift_kind_total w :
  exists k, shift_kind (field w 5 3) = Some k /\
            In k ["LSL"; "LSR"; "ASR"; "ROR"]%string.
Proof.
  pose proof (field_3 w 5) as H. unfold shift_kind.
  assert (field w 5 3 = 0 \/ field w 5 3 = 1 \/ field w 5 3 = 2 \/
          field w 5 3 = 3) as [-> | [-> | [-> | ->]]] by lia;
    simpl; eexists; (split; [reflexivity | simpl; tauto]).
Qed.

Lemma map_opcode_cases opc unknown :
  (exists k, map_opcode opc unknown = (k, false) /\
             In k ["ADD"; "SUB"; "MOV"; "AND"; "ORR"; unknown]%string) \/
  map_opcode opc unknown = ("CMP"%string, true).
Proof.
  unfold map_opcode.
  repeat (case_match; [first [by right | left; eexists; split; [reflexivity | simpl; tauto]] | ]).
  left; eexists; split; [reflexivity | simpl; tauto].
Qed.

Lemma rename_conditional_cases cc k :
  rename_conditional cc k = k \/
  (k = "SUB"%string /\ rename_conditional cc k = "SUBNE"%string) \/
  (k = "ADD"%string /\ rename_conditional cc k = "ADDEQ"%string).
Proof.
  unfold rename_conditional.
  destruct (cc =? 1); simpl.
  - destruct (String.eqb_spec k "SUB"); [tauto|].
    destruct (cc =? 0); simpl; [|tauto].
    destruct (String.eqb_spec k "ADD"); tauto.
  - destruct (cc =? 0); simpl; [|tauto].
    destruct (String.eqb_spec k "ADD"); tauto.
Qed.

Ltac field_bounds w :=
  pose proof (field_15 w 16); pose proof (field_15 w 12);
  pose proof (field_15 w 8); pose proof (field_15 w 0).

Ltac solve_in := simpl; tauto.

Arguments field : simpl never.

Ltac lookup_ops :=
  repeat first [ rewrite lookup_insert_eq
               | rewrite lookup_insert_ne by discriminate
               | rewrite lookup_empty ].

Ltac expose_kind :=
  cbv zeta;
  repeat match goal with
  | |- context [map_opcode ?o ?u] =>
      destruct (map_opcode_cases o u) as [(? & -> & ?) | ->]
  | |- context [shift_kind (field ?w 5 3)] =>
      destruct (shift_kind_total w) as (? & -> & ?)
  end.

Ltac split_in :=
  repeat match goal with
  | H : In _ (_ :: _) |- _ => destruct H as [<- | H]
  | H : In _ [] |- _ => destruct H
  end.

Ltac rename_cases :=
  repeat match goal with
  | |- context [rename_conditional ?c ?k] =>
      destruct (rename_conditional_cases c k) as [-> | [[? ->] | [? ->]]];
      try discriminate
  end.

Ltac wf_fields :=
  split; cbn [instruction_type operands set_flags];
  [ eexists; split; [reflexivity | solve_in]
  | intros ? [= <-];
    match goal with
    | |- Forall _ (subscripted ?k) =>
        let l := eval vm_compute in (subscripted k) in
        change (subscripted k) with l
    end;
    repeat constructor; lookup_ops; eauto
  | intros key r Hin;
    destruct Hin as [<- | [<- | [<- | [<- | []]]]];
    lookup_ops; intros [= <-]; lia
  | first [discriminate | reflexivity | intros _; apply orb_true_r] ].

Lemma holds_Ok {A} (P : A -> Prop) r :
  holds P r <-> exists a, r = Ok a /\ P a.
Proof.
  destruct r; simpl; split.
  - eauto.
  - intros (? & [= <-] & ?); assumption.
  - tauto.
  - intros (? & [=] & _).
Qed.

Ltac leaf := cbv beta iota delta [holds]; cbv zeta.

Ltac case_if :=
  match goal with
  | |- holds _ (if ?b then _ else _) => destruct b eqn:?
  end.

Lemma decode_holds_wf w : holds well_formed (decode w).
Proof.
  unfold decode. field_bounds w.
  rewrite rotate_immediate_eq by lia. cbv beta iota delta [Py.bind].
  cbv zeta.
  case_if. { leaf. wf_fields. }
  case_if.
  { case_if.
    { expose_kind; leaf; split_in; rename_cases; wf_fields. }
    case_if.
    { case_if. { leaf. wf_fields. }
      case_if. { expose_kind; leaf; split_in; wf_fields. }
      expose_kind; leaf; split_in; rename_cases; wf_fields. }
    case_if. { expose_kind; leaf; split_in; wf_fields. }
    expose_kind; leaf; split_in; rename_cases; wf_fields. }
  case_if. { destruct (field w 20 1 =? 1); leaf; wf_fields. }
  case_if. { destruct (field w 24 1 =? 1); leaf; wf_fields. }
  leaf; wf_fields.
Qed.

Lemma decode_total w : exists i, decode w = Ok i.
Proof.
  destruct (proj1 (holds_Ok _ _) (decode_holds_wf w)) as (i & Hi & _).
  exists i; exact Hi.
Qed.

Lemma decode_wf w i : decode w = Ok i -> well_formed i.
Proof.
  intros Hi. pose proof (decode_holds_wf w) as H.
  rewrite Hi in H. exact H.
Qed.

(* ================================================================= *)
(** ** Register files and the error monad *)

Lemma new_cpu_valid : valid_state new_cpu.
Proof.
  split; [reflexivity|].
  apply Forall_forall. intros v Hv. apply elem_of_replicate in Hv as [-> _].
  unfold in_range32. lia.
Qed.

Lemma bind_Ok {A B} (r : result A) (k : A -> result B) b :
  Py.bind r k = Ok b -> exists a, r = Ok a /\ k a = Ok b.
Proof. destruct r as [a|e]; simpl; [eauto | discriminate]. Qed.

Lemma Ok_inj {A} (a b : A) : Ok a = Ok b -> a = b.
Proof. intros [= ->]. reflexivity. Qed.

Lemma getitem_Ok d key v : Py.getitem d key = Ok v <-> d !! key = Some v.
Proof.
  unfold Py.getitem. destruct (d !! key); split; intros [= ->]; reflexivity.
Qed.

Section Indexing.
Context {A : Type}.
Implicit Types (l : list A) (i : Z) (x : A).

Lemma index_in_range l i :
  0 <= i < Z.of_nat (length l) ->
  exists x, Py.index l i = Ok x /\ l !! Z.to_nat i = Some x.
Proof.
  intros Hi. unfold Py.index.
  destruct (Z.ltb_spec i 0); [lia|].
  destruct (Z.leb_spec 0 i); [|lia].
  destruct (Z.ltb_spec i (Z.of_nat (length l))); [|lia]. simpl.
  destruct (lookup_lt_is_Some_2 l (Z.to_nat i) ltac:(lia)) as [x Hx].
  rewrite Hx. eauto.
Qed.

Lemma index_Ok l i x : Py.index l i = Ok x -> x ∈ l.
Proof.
  unfold Py.index. destruct (_ && _); [|discriminate].
  destruct (l !! _) eqn:E; [|discriminate].
  intros [= <-]. eapply list_elem_of_lookup_2, E.
Qed.

Lemma setitem_in_range l i x :
  0 <= i < Z.of_nat (length l) ->
  Py.setitem l i x = Ok (<[Z.to_nat i := x]> l).
Proof.
  intros Hi. unfold Py.setitem.
  destruct (Z.ltb_spec i 0); [lia|].
  destruct (Z.leb_spec 0 i); [|lia].
  destruct (Z.ltb_spec i (Z.of_nat (length l))); [|lia]. reflexivity.
Qed.

Lemma setitem_Ok l i x l' :
  Py.setitem l i x = Ok l' ->
  exists n, l' = <[n := x]> l /\
            Z.of_nat n = (if i <? 0 then i + Z.of_nat (length l) else i).
Proof.
  unfold Py.setitem.
  set (j := if i <? 0 then i + Z.of_nat (length l) else i).
  destruct (Z.leb_spec 0 j); [|discriminate].
  destruct (Z.ltb_spec j (Z.of_nat (length l))); [|discriminate]. simpl.
  intros Heq%Ok_inj. subst l'. exists (Z.to_nat j). split; [reflexivity|lia].
Qed.

Lemma setitem_length l i x l' :
  Py.setitem l i x = Ok l' -> length l' = length l.
Proof.
  intros (n & -> & _)%setitem_Ok. apply length_insert.
Qed.

Lemma setitem_Forall (P : A -> Prop) l i x l' :
  Py.setitem l i x = Ok l' -> Forall P l -> P x -> Forall P l'.
Proof.
  intros (n & -> & _)%setitem_Ok Hl Hx. apply Forall_insert; assumption.
Qed.
End Indexing.

Lemma land_mask_range v : in_range32 (Z.land v 0xFFFFFFFF).
Proof.
  unfold in_range32. change 0xFFFFFFFF with (Z.ones 32).
  rewrite Z.land_ones by lia. apply Z.mod_pos_bound. lia.
Qed.

Lemma land_mask_id v : in_range32 v -> Z.land v 0xFFFFFFFF = v.
Proof.
  unfold in_range32. intros Hv. change 0xFFFFFFFF with (Z.ones 32).
  rewrite Z.land_ones by lia. apply Z.mod_small. exact Hv.
Qed.

(* ================================================================= *)
(** ** [struct.pack] and [struct.unpack] *)

Lemma byte_roundtrip z :
  0 <= z < 256 -> Struct.Z_of_byte (Struct.byte_of_Z z) = z.
Proof.
  intros Hz. unfold Struct.Z_of_byte, Struct.byte_of_Z.
  destruct (Byte.of_N (Z.to_N z)) as [b|] eqn:E.
  - simpl. apply Byte.to_of_N in E. rewrite E. lia.
  - apply Byte.of_N_None_iff in E. lia.
Qed.

Lemma Z_of_byte_range b : 0 <= Struct.Z_of_byte b < 256.
Proof.
  unfold Struct.Z_of_byte. pose proof (Byte.to_N_bounded b). lia.
Qed.

Lemma pack_le_u32_Ok v :
  in_range32 v ->
  exists b0 b1 b2 b3, Struct.pack_le_u32 v = Ok [b0; b1; b2; b3].
Proof.
  unfold in_range32, Struct.pack_le_u32. intros Hv.
  destruct (Z.leb_spec 0 v); [|lia].
  destruct (Z.ltb_spec v (2 ^ 32)); [|lia]. simpl. eauto.
Qed.

Lemma unpack_le_u32_range bs v :
  Struct.unpack_le_u32 bs = Ok v -> in_range32 v.
Proof.
  destruct bs as [|b0 [|b1 [|b2 [|b3 [|]]]]]; try discriminate.
  intros <-%Ok_inj. unfold in_range32.
  pose proof (Z_of_byte_range b0). pose proof (Z_of_byte_range b1).
  pose proof (Z_of_byte_range b2). pose proof (Z_of_byte_range b3). lia.
Qed.

(** Packing then unpacking a 32-bit value gives it back. *)
Lemma unpack_pack_le_u32 v bs :
  Struct.pack_le_u32 v = Ok bs -> Struct.unpack_le_u32 bs = Ok v.
Proof.
  unfold Struct.pack_le_u32.
  destruct (Z.leb_spec 0 v); [|discriminate].
  destruct (Z.ltb_spec v (2 ^ 32)); [|discriminate]. simpl.
  intros <-%Ok_inj. unfold Struct.unpack_le_u32. f_equal.
  change 255 with (Z.ones 8). rewrite !Z.land_ones, !Z.shiftr_div_pow2 by lia.
  rewrite !byte_roundtrip by (apply Z.mod_pos_bound; lia).
  change (2 ^ 8) with 256. change (2 ^ 16) with 65536.
  change (2 ^ 24) with 16777216. change (2 ^ 32) with 4294967296 in *.
  Z.div_mod_to_equations. lia.
Qed.

(* ================================================================= *)
(** ** The operand2 resolver never raises on decoded operands *)

Lemma actual_shift_amount_total ops (regs : list Z) :
  (forall rs, ops !! "rs"%string = Some rs ->
              0 <= rs < Z.of_nat (length regs)) ->
  exists a, actual_shift_amount ops regs = Ok a /\ 0 <= a < 32.
Proof.
  intros Hrs. unfold actual_shift_amount.
  assert (forall x, 0 <= Z.land x 31 < 32) as Hland.
  { intros x. change 31 with (Z.ones 5). rewrite Z.land_ones by lia.
    apply Z.mod_pos_bound. lia. }
  destruct (ops !! "shift_amount"%string) as [a|]; simpl; [eauto|].
  destruct (ops !! "rs"%string) as [rs|]; simpl; [|eauto].
  destruct (index_in_range regs rs (Hrs rs eq_refl)) as (x & -> & _).
  simpl. eauto.
Qed.

Lemma apply_shift_total shift_type rm_value amount :
  0 <= amount <= 32 ->
  exists v, apply_shift shift_type rm_value amount = Ok v.
Proof.
  intros Ha. unfold apply_shift, Py.lshift, Py.rshift.
  destruct (Z.ltb_spec amount 0); [lia|].
  destruct (Z.ltb_spec (32 - amount) 0); [lia|].
  destruct (shift_type =? 0); [eauto|].
  destruct (shift_type =? 1); [eauto|].
  destruct (shift_type =? 2).
  { destruct (Py.truthy _); [|eauto].
    destruct (pack_le_u32_Ok _ (land_mask_range rm_value))
      as (b0 & b1 & b2 & b3 & ->).
    simpl. eauto. }
  destruct (shift_type =? 3); simpl; eauto.
Qed.

Lemma get_operand2_total i (regs : list Z) :
  register_operands i -> length regs = 16%nat ->
  exists v, get_operand2 i regs = Ok v.
Proof.
  intros Hregs Hlen. unfold get_operand2.
  destruct (operands i !! "operand2"%string); [eauto|].
  destruct (operands i !! "rm"%string) as [rm|] eqn:Hrm; [|eauto].
  destruct (index_in_range regs rm) as (x & -> & _).
  { rewrite Hlen. apply (Hregs "rm"%string); [solve_in | exact Hrm]. }
  simpl.
  destruct (operands i !! "shift_type"%string) as [st|]; [|eauto].
  destruct (actual_shift_amount_total (operands i) regs) as (a & -> & Ha).
  { intros rs Hrs. rewrite Hlen.
    apply (Hregs "rs"%string); [solve_in | exact Hrs]. }
  simpl. apply apply_shift_total. lia.
Qed.

(* ================================================================= *)
(** ** What one executed instruction changes *)

Ltac inv_bind H :=
  lazymatch type of H with
  | Py.bind _ _ = Ok _ =>
      let a := fresh "a" in
      let E := fresh "E" in
      apply bind_Ok in H as (a & E & H)
  end.

Ltac inv_exec H :=
  repeat inv_bind H;
  repeat match goal with
  | E : Py.getitem _ _ = Ok _ |- _ => apply getitem_Ok in E
  end;
  apply Ok_inj in H; subst.

Ltac reg_write_done :=
  unfold reg_write;
  lazymatch goal with
  | Erd : operands ?i !! "rd"%string = Some ?rd,
    Eset : Py.setitem _ ?rd ?v = Ok _ |- _ =>
      exists rd, v; destruct (set_flags i);
      cbn [registers memory cpsr with_cpsr with_registers];
      (split; [exact Erd|]; split; [apply land_mask_range|];
       split; [exact Eset|]; split; [reflexivity | auto])
  end.

Lemma exec_move_effect i s s' : exec_move i s = Ok s' -> reg_write i s s'.
Proof. unfold exec_move. intros H. inv_exec H. reg_write_done. Qed.

Lemma exec_add_effect i s s' : exec_add i s = Ok s' -> reg_write i s s'.
Proof. unfold exec_add. intros H. inv_exec H. reg_write_done. Qed.

Lemma exec_sub_effect i s s' : exec_sub i s = Ok s' -> reg_write i s s'.
Proof. unfold exec_sub. intros H. inv_exec H. reg_write_done. Qed.

Lemma exec_mul_effect i s s' : exec_mul i s = Ok s' -> reg_write i s s'.
Proof. unfold exec_mul. intros H. inv_exec H. reg_write_done. Qed.

Lemma exec_logic_effect op i s s' :
  exec_logic op i s = Ok s' -> reg_write i s s'.
Proof. unfold exec_logic. intros H. inv_exec H. reg_write_done. Qed.

Lemma exec_cmp_effect i s s' :
  exec_cmp i s = Ok s' -> registers s' = registers s /\ memory s' = memory s.
Proof. unfold exec_cmp. intros H. inv_exec H. simpl. auto. Qed.

Lemma Ok_pair_inj {A B} (a a' : A) (b b' : B) :
  Ok (a, b) = Ok (a', b') -> a = a' /\ b = b'.
Proof. intros [= -> ->]. auto. Qed.

Ltac case_if_in H :=
  lazymatch type of H with
  | (if ?b then _ else _) = _ => destruct b eqn:?
  end.

Lemma exec_ldr_effect i s s' r :
  exec_ldr i s = Ok (s', r) ->
  s' = s \/ (reg_write i s s' /\ cpsr s' = cpsr s).
Proof.
  unfold exec_ldr. intros H. repeat inv_bind H. case_if_in H.
  - repeat inv_bind H. apply Ok_pair_inj in H as [<- <-].
    right. split; [|reflexivity].
    apply getitem_Ok in E.
    match goal with
    | Eu : Struct.unpack_le_u32 _ = Ok ?v,
      Eset : Py.setitem _ _ ?v = Ok _ |- _ =>
        apply unpack_le_u32_range in Eu;
        exists a, v; cbn [registers memory cpsr with_registers];
        (split; [exact E|]; split; [exact Eu|]; split; [exact Eset|];
         split; [reflexivity | left; reflexivity])
    end.
  - apply Ok_pair_inj in H as [<- <-]. left; reflexivity.
Qed.

Lemma exec_str_effect i s s' r :
  exec_str i s = Ok (s', r) ->
  registers s' = registers s /\ cpsr s' = cpsr s.
Proof.
  unfold exec_str. intros H. repeat inv_bind H. case_if_in H.
  - repeat inv_bind H. apply Ok_pair_inj in H as [<- <-]. auto.
  - apply Ok_pair_inj in H as [<- <-]. auto.
Qed.

Lemma is_type_true i name :
  is_type i name = true <-> instruction_type i = Some name.
Proof.
  unfold is_type. destruct (instruction_type i) as [k|].
  - rewrite String.eqb_eq. split; [intros ->; reflexivity | intros [= ->]; reflexivity].
  - split; discriminate.
Qed.

Lemma silent_Ok r s' rep :
  silent r = Ok (s', rep) -> r = Ok s' /\ rep = None.
Proof.
  unfold silent. intros H. inv_bind H.
  apply Ok_pair_inj in H as [<- <-]. auto.
Qed.

Lemma execute_effect i s s' r :
  execute_instruction i s = Ok (s', r) -> effect i s s'.
Proof.
  unfold execute_instruction.
  destruct (negb (execute_conditionally i s)).
  { intros [<- _]%Ok_pair_inj. by apply eff_none. }
  repeat match goal with
  | |- (if is_type i ?n then _ else _) = _ -> _ =>
      destruct (is_type i n) eqn:?
  end.
  all: repeat match goal with
  | H : is_type _ _ = true |- _ => apply is_type_true in H
  | H : is_type _ _ = false |- _ => clear H
  end.
  all: try (intros [H ->]%silent_Ok).
  all: try (eapply eff_reg;
            [eassumption | reflexivity
            | first [ by apply exec_move_effect
                    | by apply exec_add_effect
                    | by apply exec_sub_effect
                    | by apply exec_mul_effect
                    | by eapply exec_logic_effect ]]).
  - intros [-> | [H _]]%exec_ldr_effect; [by apply eff_none|].
    by eapply eff_reg.
  - intros []%exec_str_effect. by apply eff_str.
  - apply exec_cmp_effect in H as []. by apply eff_cmp.
  - destruct (_ || _).
    + intros H. inv_bind H. apply Ok_pair_inj in H as [<- _].
      by apply eff_none.
    + intros [<- _]%Ok_pair_inj. by apply eff_none.
Qed.

(* ================================================================= *)
(** ** Memory accesses *)

Lemma in_bounds_fits s address : in_bounds s address = true <-> fits s address.
Proof.
  unfold in_bounds, fits. rewrite andb_true_iff, Z.leb_le, Z.ltb_lt. lia.
Qed.

Lemma in_bounds_not_fits s address :
  in_bounds s address = false <-> ~ fits s address.
Proof.
  rewrite <- in_bounds_fits. destruct (in_bounds s address); split;
    congruence.
Qed.

Lemma slice_get_word {A} (l : list A) a :
  0 <= a <= Z.of_nat (length l) - 4 ->
  exists b0 b1 b2 b3, Slice.get l a (a + 4) = [b0; b1; b2; b3].
Proof.
  intros Ha. unfold Slice.get, Slice.clamp.
  destruct (Z.ltb_spec a 0); [lia|].
  destruct (Z.ltb_spec (a + 4) 0); [lia|].
  rewrite !Z.min_l by lia.
  replace (Z.to_nat (a + 4 - a)) with 4%nat by lia.
  assert (4 <= length (drop (Z.to_nat a) l))%nat as Hlen
    by (rewrite length_drop; lia).
  destruct (drop (Z.to_nat a) l) as [|b0 [|b1 [|b2 [|b3 ?]]]];
    simpl in Hlen; try lia.
  simpl. eauto.
Qed.

Lemma slice_set_length {A} (l : list A) a (xs : list A) :
  0 <= a <= Z.of_nat (length l) - 4 -> length xs = 4%nat ->
  length (Slice.set l a (a + 4) xs) = length l.
Proof.
  intros Ha Hxs. unfold Slice.set, Slice.clamp.
  destruct (Z.ltb_spec a 0); [lia|].
  destruct (Z.ltb_spec (a + 4) 0); [lia|].
  rewrite !Z.min_l by lia. rewrite Z.max_r by lia.
  rewrite !length_app, length_take, length_drop. lia.
Qed.

(* ================================================================= *)
(** ** Execution of decoded records never raises *)

Section Total.
Variables (i : ARMInstruction) (s : ARMCpu).
Hypothesis Hregs : register_operands i.
Hypothesis Hs : valid_state s.

Lemma register_index key r :
  In key register_keys -> operands i !! key = Some r ->
  0 <= r < Z.of_nat (length (registers s)).
Proof.
  intros Hkey Hr. rewrite (vs_length s Hs). exact (Hregs key r Hkey Hr).
Qed.

Ltac use_key H :=
  rewrite (proj2 (getitem_Ok _ _ _) H); cbn [Py.bind].
Ltac use_operand2 :=
  let v := fresh "operand2" in
  destruct (get_operand2_total i (registers s) Hregs (vs_length s Hs))
    as [v ->]; cbn [Py.bind].
Ltac use_index key H :=
  let x := fresh "val" in
  let E := fresh "Eval" in
  let L := fresh "Lval" in
  destruct (index_in_range (registers s) _
              (register_index key _ ltac:(solve_in) H)) as (x & E & L);
  rewrite E; cbn [Py.bind].
Ltac use_setitem H :=
  rewrite (setitem_in_range (registers s) _ _
             (register_index "rd"%string _ ltac:(solve_in) H));
  cbn [Py.bind].

Lemma exec_move_total :
  is_Some (operands i !! "rd"%string) -> exists s', exec_move i s = Ok s'.
Proof.
  intros [rd Hrd]. unfold exec_move.
  use_key Hrd. use_operand2. use_setitem Hrd. eauto.
Qed.

Lemma exec_add_total :
  is_Some (operands i !! "rd"%string) ->
  is_Some (operands i !! "rn"%string) -> exists s', exec_add i s = Ok s'.
Proof.
  intros [rd Hrd] [rn Hrn]. unfold exec_add.
  use_key Hrd. use_key Hrn. use_operand2. use_index "rn"%string Hrn.
  use_setitem Hrd. eauto.
Qed.

Lemma exec_sub_total :
  is_Some (operands i !! "rd"%string) ->
  is_Some (operands i !! "rn"%string) -> exists s', exec_sub i s = Ok s'.
Proof.
  intros [rd Hrd] [rn Hrn]. unfold exec_sub.
  use_key Hrd. use_key Hrn. use_operand2. use_index "rn"%string Hrn.
  use_setitem Hrd. eauto.
Qed.

Lemma exec_logic_total op :
  is_Some (operands i !! "rd"%string) ->
  is_Some (operands i !! "rn"%string) ->
  exists s', exec_logic op i s = Ok s'.
Proof.
  intros [rd Hrd] [rn Hrn]. unfold exec_logic.
  use_key Hrd. use_key Hrn. use_operand2. use_index "rn"%string Hrn.
  use_setitem Hrd. eauto.
Qed.

Lemma exec_cmp_total :
  is_Some (operands i !! "rn"%string) -> exists s', exec_cmp i s = Ok s'.
Proof.
  intros [rn Hrn]. unfold exec_cmp.
  use_key Hrn. use_operand2. use_index "rn"%string Hrn. eauto.
Qed.

Lemma exec_mul_total :
  is_Some (operands i !! "rd"%string) ->
  is_Some (operands i !! "rm"%string) ->
  is_Some (operands i !! "rs"%string) -> exists s', exec_mul i s = Ok s'.
Proof.
  intros [rd Hrd] [rm Hrm] [rs Hrs]. unfold exec_mul.
  use_key Hrd. use_key Hrm. use_key Hrs.
  use_index "rm"%string Hrm. use_index "rs"%string Hrs.
  use_setitem Hrd. eauto.
Qed.

(** [LDR]: the load is performed exactly at the addresses where four
    bytes fit, and is otherwise rejected with the state untouched. *)
Lemma exec_ldr_spec rd rn offset base :
  operands i !! "rd"%string = Some rd ->
  operands i !! "rn"%string = Some rn ->
  operands i !! "offset"%string = Some offset ->
  registers s !! Z.to_nat rn = Some base ->
  (fits s (base + offset) /\
   exists value,
     Struct.unpack_le_u32
       (Slice.get (memory s) (base + offset) (base + offset + 4))
       = Ok value /\
     exec_ldr i s =
       Ok (with_registers s (<[Z.to_nat rd := value]> (registers s)), None))
  \/ (~ fits s (base + offset) /\
      exec_ldr i s = Ok (s, Some (OutOfBoundsLDR (base + offset)))).
Proof.
  intros Hrd Hrn Hoff Hbase. unfold exec_ldr.
  use_key Hrd. use_key Hrn. use_key Hoff. use_index "rn"%string Hrn.
  assert (val = base) as -> by congruence.
  destruct (in_bounds s (base + offset)) eqn:Hb.
  - apply in_bounds_fits in Hb. left. split; [exact Hb|].
    destruct (slice_get_word (memory s) _ Hb) as (b0 & b1 & b2 & b3 & ->).
    eexists. split; [reflexivity|]. cbn [Struct.unpack_le_u32 Py.bind].
    use_setitem Hrd. reflexivity.
  - apply in_bounds_not_fits in Hb. right. split; [exact Hb|reflexivity].
Qed.

(** [STR]: likewise for the store. *)
Lemma exec_str_spec rd rn offset base :
  operands i !! "rd"%string = Some rd ->
  operands i !! "rn"%string = Some rn ->
  operands i !! "offset"%string = Some offset ->
  registers s !! Z.to_nat rn = Some base ->
  (fits s (base + offset) /\
   exists value bs,
     registers s !! Z.to_nat rd = Some value /\
     Struct.pack_le_u32 value = Ok bs /\
     exec_str i s =
       Ok (with_memory s
             (Slice.set (memory s) (base + offset) (base + offset + 4) bs),
           None))
  \/ (~ fits s (base + offset) /\
      exec_str i s = Ok (s, Some (OutOfBoundsSTR (base + offset)))).
Proof.
  intros Hrd Hrn Hoff Hbase. unfold exec_str.
  use_key Hrd. use_key Hrn. use_key Hoff. use_index "rn"%string Hrn.
  assert (val = base) as -> by congruence.
  use_index "rd"%string Hrd.
  destruct (in_bounds s (base + offset)) eqn:Hb.
  - apply in_bounds_fits in Hb. left. split; [exact Hb|].
    assert (in_range32 val) as Hval.
    { eapply Forall_forall; [exact (vs_range s Hs)|].
      eapply list_elem_of_lookup_2; eassumption. }
    destruct (pack_le_u32_Ok val Hval) as (b0 & b1 & b2 & b3 & Hp).
    exists val, [b0; b1; b2; b3]. rewrite Hp. cbn [Py.bind]. auto.
  - apply in_bounds_not_fits in Hb. right. split; [exact Hb|reflexivity].
Qed.

Lemma exec_ldr_total :
  is_Some (operands i !! "rd"%string) ->
  is_Some (operands i !! "rn"%string) ->
  is_Some (operands i !! "offset"%string) ->
  exists s' r, exec_ldr i s = Ok (s', r).
Proof.
  intros [rd Hrd] [rn Hrn] [off Hoff].
  destruct (index_in_range (registers s) _
              (register_index "rn"%string _ ltac:(solve_in) Hrn))
    as (base & _ & Hbase).
  destruct (exec_ldr_spec rd rn off base Hrd Hrn Hoff Hbase)
    as [(_ & v & _ & ->) | (_ & ->)]; eauto.
Qed.

Lemma exec_str_total :
  is_Some (operands i !! "rd"%string) ->
  is_Some (operands i !! "rn"%string) ->
  is_Some (operands i !! "offset"%string) ->
  exists s' r, exec_str i s = Ok (s', r).
Proof.
  intros [rd Hrd] [rn Hrn] [off Hoff].
  destruct (index_in_range (registers s) _
              (register_index "rn"%string _ ltac:(solve_in) Hrn))
    as (base & _ & Hbase).
  destruct (exec_str_spec rd rn off base Hrd Hrn Hoff Hbase)
    as [(_ & v & bs & _ & _ & ->) | (_ & ->)]; eauto.
Qed.
End Total.

Lemma is_type_Some i k name :
  instruction_type i = Some k -> is_type i name = String.eqb k name.
Proof. unfold is_type. intros ->. reflexivity. Qed.

Ltac eval_eqb :=
  repeat match goal with
  | |- context [String.eqb ?a ?b] =>
      let v := eval vm_compute in (String.eqb a b) in
      change (String.eqb a b) with v
  end;
  cbn [orb].

Ltac eval_subscripted H :=
  match type of H with
  | Forall _ (subscripted ?k) =>
      let l := eval vm_compute in (subscripted k) in
      change (subscripted k) with l in H
  end;
  repeat match type of H with
  | Forall _ (_ :: _) =>
      let Hkey := fresh "Hkey" in
      apply Forall_cons_1 in H as [Hkey H]
  end.

Lemma silent_total r :
  (exists s', r = Ok s') -> exists s' rep, silent r = Ok (s', rep).
Proof. intros [s' ->]. exists s', None. reflexivity. Qed.

Lemma execute_total i s :
  well_formed i -> valid_state s ->
  exists s' r, execute_instruction i s = Ok (s', r).
Proof.
  intros [(k & Hk & Hin) Hkeys Hregs _] Hs. specialize (Hkeys k Hk).
  unfold execute_instruction.
  destruct (negb (execute_conditionally i s)); [eauto|].
  rewrite !(is_type_Some i k _ Hk).
  unfold kinds in Hin. split_in; eval_subscripted Hkeys; eval_eqb.
  all: try (apply silent_total).
  all: first
    [ by apply exec_move_total
    | by apply exec_add_total
    | by apply exec_sub_total
    | by apply exec_cmp_total
    | by apply exec_logic_total
    | by apply exec_mul_total
    | by apply exec_ldr_total
    | by apply exec_str_total
    | idtac ].
  all: try (destruct Hkey as [o Ho];
            rewrite (proj2 (getitem_Ok _ _ _) Ho); cbn [Py.bind]).
  all: eauto.
Qed.

(** Decoding a word and executing the record never raises. *)
Lemma decode_execute_total w s :
  valid_state s ->
  exists i s' r, decode w = Ok i /\ execute_instruction i s = Ok (s', r).
Proof.
  intros Hs. destruct (decode_total w) as [i Hi].
  destruct (execute_total i s (decode_wf w i Hi) Hs) as (s' & r & He).
  eauto.
Qed.

Lemma effect_valid i s s' :
  effect i s s' -> valid_state s -> valid_state s'.
Proof.
  intros [-> | k _ _ (rd & v & _ & Hv & Hset & _) | _ Hr _ | _ Hr _] [Hl Hf];
    [by split | | by split; rewrite Hr ..].
  split.
  - by rewrite (setitem_length _ _ _ _ Hset).
  - exact (setitem_Forall _ _ _ _ _ Hset Hf Hv).
Qed.

Lemma effect_range i s s' :
  effect i s s' -> Forall in_range32 (registers s) ->
  Forall in_range32 (registers s').
Proof.
  intros [-> | k _ _ (rd & v & _ & Hv & Hset & _) | _ Hr _ | _ Hr _] Hf;
    [done | | by rewrite Hr ..].
  exact (setitem_Forall _ _ _ _ _ Hset Hf Hv).
Qed.

Lemma effect_flags i s s' :
  effect i s s' ->
  cpsr s' = cpsr s \/ set_flags i = true \/
  instruction_type i = Some "CMP"%string.
Proof.
  intros [-> | k _ _ (rd & v & _ & _ & _ & _ & [Hc | Hc]) | Hk _ _ | _ _ Hc];
    auto.
Qed.

(* ================================================================= *)
(** ** Properties of the decoder and of the executor *)

Ltac eval_valid :=
  split;
  [ reflexivity
  | repeat first [ apply List.Forall_nil
                 | apply List.Forall_cons; [unfold in_range32; lia|] ] ].

(** C8: [decode] is total.  For every word [w] (a 32-bit word or any
    other integer) [decode w] returns a record, never an exception, and
    the record carries exactly one kind, taken from the twenty kinds of
    the design. *)
Theorem decode_total_kind w :
  exists i k,
    decode w = Ok i /\ instruction_type i = Some k /\ In k kinds /\
    forall k', instruction_type i = Some k' -> k' = k.
Proof.
  destruct (decode_total w) as [i Hi].
  destruct (wf_kind i (decode_wf w i Hi)) as (k & Hk & Hin).
  exists i, k. repeat split; try assumption.
  intros k' Hk'. congruence.
Qed.

(** C10: if the sixteen registers hold values in [0, 2^32) before a
    decoded record is executed, the execution returns and they hold values
    in [0, 2^32) afterwards: every register write is masked to 32 bits or
    is a 32-bit memory load. *)
Theorem registers_stay_32bit w i s :
  decode w = Ok i ->
  length (registers s) = 16%nat -> Forall in_range32 (registers s) ->
  exists s' r,
    execute_instruction i s = Ok (s', r) /\
    length (registers s') = 16%nat /\ Forall in_range32 (registers s').
Proof.
  intros Hi Hlen Hrange.
  assert (valid_state s) as Hs by (split; assumption).
  destruct (execute_total i s (decode_wf w i Hi) Hs) as (s' & r & He).
  exists s', r. split; [exact He|].
  destruct (effect_valid i s s' (execute_effect i s s' r He) Hs).
  split; assumption.
Qed.

Lemma registers_stay_32bit_witness :
  exists i,
    decode 0xE0400001 = Ok i /\
    length (registers new_cpu) = 16%nat /\
    Forall in_range32 (registers new_cpu) /\
    exists s' r,
      execute_instruction i new_cpu = Ok (s', r) /\
      length (registers s') = 16%nat /\ Forall in_range32 (registers s').
Proof.
  eexists. split; [vm_compute; reflexivity|].
  assert (valid_state new_cpu) as [Hl Hr] by eval_valid.
  split; [exact Hl|]. split; [exact Hr|].
  apply (registers_stay_32bit 0xE0400001); [vm_compute; reflexivity|exact Hl|exact Hr].
Defined.

(** The same invariant along a whole run: every record of a decoded
    stream is well formed, and executing them in order, from [ARMCpu()] or
    from any state with sixteen 32-bit registers, never raises and ends in
    such a state. *)
Lemma decode_instructions_wf binary_data :
  exists instructions,
    decode_instructions binary_data = Ok instructions /\
    Forall well_formed instructions.
Proof.
  induction binary_data as [binary_data IH] using (induction_ltof1 _ length).
  unfold ltof in IH.
  destruct binary_data as [|b0 [|b1 [|b2 [|b3 rest]]]];
    try (exists []; split; [reflexivity | constructor]).
  cbn [decode_instructions].
  match goal with
  | |- context [decode ?w] =>
      destruct (decode_total w) as [i Hi]; rewrite Hi;
      pose proof (decode_wf w i Hi) as Hwf
  end.
  cbn [Py.bind].
  destruct (IH rest) as (instructions & -> & Hall); [simpl; lia|].
  cbn [Py.bind]. eexists. split; [reflexivity|].
  constructor; assumption.
Qed.

Lemma execute_all_valid instructions s :
  Forall well_formed instructions -> valid_state s ->
  exists s', execute_all instructions s = Ok s' /\ valid_state s'.
Proof.
  intros Hall. revert s.
  induction Hall as [|i rest Hwf _ IH]; intros s Hs; cbn [execute_all];
    [eauto|].
  destruct (execute_total i s Hwf Hs) as (s1 & r & He).
  rewrite He. cbn [Py.bind fst].
  apply IH. exact (effect_valid i s s1 (execute_effect i s s1 r He) Hs).
Qed.

Lemma run_valid binary_data :
  exists instructions s',
    decode_instructions binary_data = Ok instructions /\
    execute_all instructions new_cpu = Ok s' /\ valid_state s'.
Proof.
  destruct (decode_instructions_wf binary_data) as (instructions & Hd & Hall).
  destruct (execute_all_valid instructions new_cpu Hall new_cpu_valid)
    as (s' & He & Hs).
  eauto.
Qed.

(** C5: flags change only on request.  Executing a decoded record returns,
    and the flags after it differ from the flags before it only if the
    record's [set_flags] is true or its kind is [CMP]; the decoder sets
    [set_flags] on every [CMP] record; so a record with [set_flags] false
    and a kind other than [CMP] leaves N, Z, C and V as they were. *)
Theorem flags_change_only_on_request w i s :
  decode w = Ok i -> valid_state s ->
  exists s' r,
    execute_instruction i s = Ok (s', r) /\
    (cpsr s' <> cpsr s ->
     set_flags i = true \/ instruction_type i = Some "CMP"%string) /\
    (instruction_type i = Some "CMP"%string -> set_flags i = true) /\
    (set_flags i = false -> instruction_type i <> Some "CMP"%string ->
     cpsr s' = cpsr s).
Proof.
  intros Hi Hs. pose proof (decode_wf w i Hi) as Hwf.
  destruct (execute_total i s Hwf Hs) as (s' & r & He).
  exists s', r. split; [exact He|].
  pose proof (effect_flags i s s' (execute_effect i s s' r He)) as Hf.
  split; [|split].
  - intros Hne. destruct Hf as [Hf | Hf]; [contradiction | exact Hf].
  - exact (wf_cmp i Hwf).
  - intros Hsf Hk. destruct Hf as [Hf | [Hf | Hf]];
      [exact Hf | congruence | contradiction].
Qed.

Lemma flags_change_only_on_request_witness :
  exists i,
    decode 0xE1500005 = Ok i /\ valid_state new_cpu /\
    exists s' r,
      execute_instruction i new_cpu = Ok (s', r) /\
      (cpsr s' <> cpsr new_cpu ->
       set_flags i = true \/ instruction_type i = Some "CMP"%string) /\
      (instruction_type i = Some "CMP"%string -> set_flags i = true) /\
      (set_flags i = false -> instruction_type i <> Some "CMP"%string ->
       cpsr s' = cpsr new_cpu).
Proof.
  eexists. split; [vm_compute; reflexivity|].
  split; [eval_valid|].
  apply (flags_change_only_on_request 0xE1500005);
    [vm_compute; reflexivity|eval_valid].
Defined.

(** C2, as stated, fails: [MOV R15, #16] (word [0xE3A0F010]) executed from
    the initial state writes 16 into register 15. *)
Lemma mov_writes_register_15 :
  exists i s',
    decode 0xE3A0F010 = Ok i /\
    execute_instruction i new_cpu = Ok (s', None) /\
    registers new_cpu !! 15%nat = Some 0 /\
    registers s' !! 15%nat = Some 16 /\
    registers s' !! 15%nat <> registers new_cpu !! 15%nat.
Proof.
  eexists. eexists.
  split; [vm_compute; reflexivity|].
  split; [vm_compute; reflexivity|].
  split; [reflexivity|]. split; [reflexivity|]. discriminate.
Qed.

(** C2, amended: executing a decoded record leaves register 15 unchanged
    unless the record's kind is one that writes its destination register
    (MOV, LDR, ADD, SUB, MUL, AND, ORR, SUBNE, ADDEQ, LSL, LSR, ASR, ROR)
    and its [rd] is 15.  In particular B, BL, CMP, STR and the UNKNOWN
    kinds never write it. *)
Theorem register_15_unchanged w i s :
  decode w = Ok i -> valid_state s ->
  (forall k, instruction_type i = Some k -> writes_rd k = true ->
             operands i !! "rd"%string <> Some 15) ->
  exists s' r,
    execute_instruction i s = Ok (s', r) /\
    registers s' !! 15%nat = registers s !! 15%nat.
Proof.
  intros Hi Hs Hrd. pose proof (decode_wf w i Hi) as Hwf.
  destruct (execute_total i s Hwf Hs) as (s' & r & He).
  exists s', r. split; [exact He|].
  destruct (execute_effect i s s' r He)
    as [-> | k Hk Hw (rd & v & Hrd' & _ & Hset & _) | _ -> _ | _ -> _];
    try reflexivity.
  pose proof (wf_regs i Hwf "rd"%string rd ltac:(solve_in) Hrd') as Hrange.
  rewrite setitem_in_range in Hset by (rewrite (vs_length s Hs); lia).
  apply Ok_inj in Hset. rewrite <- Hset.
  apply list_lookup_insert_ne.
  intros Heq. apply (Hrd k Hk Hw). rewrite Hrd'. f_equal. lia.
Qed.

Lemma register_15_unchanged_witness :
  exists i,
    decode 0xE3A00010 = Ok i /\ valid_state new_cpu /\
    (forall k, instruction_type i = Some k -> writes_rd k = true ->
               operands i !! "rd"%string <> Some 15) /\
    exists s' r,
      execute_instruction i new_cpu = Ok (s', r) /\
      registers s' !! 15%nat = registers new_cpu !! 15%nat.
Proof.
  eexists. split; [vm_compute; reflexivity|].
  split; [eval_valid|].
  split.
  - intros k _ _ Heq. vm_compute in Heq. discriminate.
  - apply (register_15_unchanged 0xE3A00010);
      [vm_compute; reflexivity | eval_valid |].
    intros k _ _ Heq. vm_compute in Heq. discriminate.
Defined.

(** A branch never writes register 15. *)
Lemma branch_keeps_register_15 :
  exists i s',
    decode 0xEA000010 = Ok i /\ instruction_type i = Some "B"%string /\
    execute_instruction i new_cpu = Ok (s', Some (Branch (Some "B"%string) 16)) /\
    registers s' = registers new_cpu.
Proof.
  eexists. eexists.
  split; [vm_compute; reflexivity|].
  split; [reflexivity|].
  split; [vm_compute; reflexivity | reflexivity].
Qed.

(* ----------------------------------------------------------------- *)



(** The gate of lines 73-79 in terms of the condition code and Z. *)
Lemma execute_conditionally_false i s :
  execute_conditionally i s = false <->
  (condition_code i = Some 0 /\ Z_ (cpsr s) = 0) \/
  (condition_code i = Some 1 /\ Z_ (cpsr s) = 1).
Proof.
  unfold execute_conditionally, is_cond.
  destruct (condition_code i) as [c|].
  - destruct (Z.eqb_spec c 1) as [-> | Hc1].
    + rewrite negb_false_iff, Z.eqb_eq. split.
      * intros Hz. right. auto.
      * intros [[[= ] _] | [_ Hz]]; exact Hz.
    + destruct (Z.eqb_spec c 0) as [-> | Hc0].
      * rewrite negb_false_iff, Z.eqb_eq. split.
        -- intros Hz. left. auto.
        -- intros [[_ Hz] | [[= ] _]]; exact Hz.
      * split; [discriminate|].
        intros [[[= ->] _] | [[= ->] _]]; contradiction.
  - split; [discriminate|]. intros [[[= ] _] | [[= ] _]].
Qed.

Lemma execute_skipped i s :
  execute_conditionally i s = false ->
  execute_instruction i s = Ok (s, Some (Skipped (instruction_type i))).
Proof. intros Hc. unfold execute_instruction. rewrite Hc. reflexivity. Qed.




(* ----------------------------------------------------------------- *)

Lemma execute_ldr i s :
  execute_conditionally i s = true ->
  instruction_type i = Some "LDR"%string ->
  execute_instruction i s = exec_ldr i s.
Proof.
  intros Hc Hk. unfold execute_instruction.
  rewrite Hc, !(is_type_Some i _ _ Hk). eval_eqb. reflexivity.
Qed.

Lemma execute_str i s :
  execute_conditionally i s = true ->
  instruction_type i = Some "STR"%string ->
  execute_instruction i s = exec_str i s.
Proof.
  intros Hc Hk. unfold execute_instruction.
  rewrite Hc, !(is_type_Some i _ _ Hk). eval_eqb. reflexivity.
Qed.

Lemma load_store_outcome i s :
  well_formed i -> valid_state s ->
  execute_conditionally i s = true ->
  instruction_type i = Some "LDR"%string \/
  instruction_type i = Some "STR"%string ->
  exists address,
    effective_address i s = Some address /\
    ((fits s address /\ access_performed i s address) \/
     (~ fits s address /\ access_rejected i s address)).
Proof.
  intros Hwf Hs Hc Hk.
  assert (Forall (fun key => is_Some (operands i !! key))
                 ["rd"; "rn"; "offset"]%string) as Hkeys
    by (destruct Hk as [Hk | Hk]; exact (wf_keys i Hwf _ Hk)).
  apply Forall_cons_1 in Hkeys as [[rd Hrd] Hkeys].
  apply Forall_cons_1 in Hkeys as [[rn Hrn] Hkeys].
  apply Forall_cons_1 in Hkeys as [[off Hoff] _].
  destruct (index_in_range (registers s) rn) as (base & _ & Hbase).
  { rewrite (vs_length s Hs).
    exact (wf_regs i Hwf "rn"%string rn ltac:(solve_in) Hrn). }
  exists (base + off). unfold effective_address.
  rewrite Hrn, Hoff, Hbase. split; [reflexivity|].
  unfold access_performed, access_rejected.
  destruct Hk as [Hk | Hk].
  - rewrite (execute_ldr i s Hc Hk).
    destruct (exec_ldr_spec i s (wf_regs i Hwf) Hs rd rn off base
                Hrd Hrn Hoff Hbase)
      as [(Hfit & v & Hv & ->) | (Hfit & ->)]; [left | right];
      (split; [exact Hfit|]).
    + eexists. split; [reflexivity|]. left. split; [exact Hk|].
      exists rd, v. auto.
    + eexists. split; [reflexivity|]. auto.
  - rewrite (execute_str i s Hc Hk).
    destruct (exec_str_spec i s (wf_regs i Hwf) Hs rd rn off base
                Hrd Hrn Hoff Hbase)
      as [(Hfit & v & bs & Hv & Hbs & ->) | (Hfit & ->)]; [left | right];
      (split; [exact Hfit|]).
    + eexists. split; [reflexivity|]. right. split; [exact Hk|].
      exists rd, v, bs. auto.
    + eexists. split; [reflexivity|]. auto.
Qed.

Lemma performed_not_rejected i s address :
  access_performed i s address -> access_rejected i s address -> False.
Proof.
  intros (s' & He & _) (rep & He' & _). congruence.
Qed.




(** The two boundary addresses of a 1024-byte memory: [LDR R1, [R0]] and
    [STR R1, [R0]] at 1020 are performed, at 1021 they are rejected. *)
Lemma ldr_boundary :
  (exists i s', decode 0xE5901000 = Ok i /\
     execute_instruction i (with_r0 1020) = Ok (s', None)) /\
  (exists i, decode 0xE5901000 = Ok i /\
     execute_instruction i (with_r0 1021)
       = Ok (with_r0 1021, Some (OutOfBoundsLDR 1021))).
Proof.
  split; repeat eexists; vm_compute; reflexivity.
Qed.

Lemma str_boundary :
  (exists i s', decode 0xE5801000 = Ok i /\
     execute_instruction i (with_r0 1020) = Ok (s', None)) /\
  (exists i, decode 0xE5801000 = Ok i /\
     execute_instruction i (with_r0 1021)
       = Ok (with_r0 1021, Some (OutOfBoundsSTR 1021))).
Proof.
  split; repeat eexists; vm_compute; reflexivity.
Qed.

(* ================================================================= *)
(** ** Rotation *)

Lemma testbit_high a k n :
  0 <= a < 2 ^ k -> k <= n -> Z.testbit a n = false.
Proof.
  intros [Ha0 Hak] Hkn.
  destruct (Z.eq_dec a 0) as [-> | Hnz]; [apply Z.bits_0|].
  apply Z.bits_above_log2; [exact Ha0|].
  assert (0 <= k) by (destruct (Z.le_gt_cases 0 k) as [|Hneg];
                      [assumption | rewrite Z.pow_neg_r in Hak; lia]).
  assert (Z.log2 a < k) by (apply Z.log2_lt_pow2; lia). lia.
Qed.

Lemma lor_disjoint a b k :
  0 <= k -> 0 <= a < 2 ^ k -> Z.lor a (b * 2 ^ k) = a + b * 2 ^ k.
Proof.
  intros Hk Ha.
  assert (Z.land a (b * 2 ^ k) = 0) as Hdisj.
  { apply Z.bits_inj'. intros n Hn.
    rewrite Z.land_spec, Z.bits_0, <- Z.shiftl_mul_pow2 by exact Hk.
    destruct (Z.lt_ge_cases n k) as [Hlt | Hge].
    - rewrite Z.shiftl_spec_low by exact Hlt. apply andb_false_r.
    - rewrite (testbit_high a k n Ha Hge). reflexivity. }
  rewrite Z.add_nocarry_lxor, Z.lxor_lor by exact Hdisj. reflexivity.
Qed.

(** The expression of the source, [(v >> n) | ((v << (32 - n)) & 0xFFFFFFFF)],
    is the reference rotation. *)
Lemma rotate_is_ror32 v n :
  0 <= v < 2 ^ 32 -> 0 <= n <= 32 ->
  Z.lor (Z.shiftr v n) (Z.land (Z.shiftl v (32 - n)) 0xFFFFFFFF) = ror32 v n.
Proof.
  intros Hv Hn. unfold ror32. change 0xFFFFFFFF with (Z.ones 32).
  rewrite Z.land_ones, Z.shiftr_div_pow2, Z.shiftl_mul_pow2 by lia.
  assert (0 < 2 ^ n) by (apply Z.pow_pos_nonneg; lia).
  assert (0 < 2 ^ (32 - n)) by (apply Z.pow_pos_nonneg; lia).
  assert (2 ^ 32 = 2 ^ n * 2 ^ (32 - n)) as Hsplit
    by (rewrite <- Z.pow_add_r by lia; f_equal; lia).
  rewrite Hsplit at 1.
  rewrite Z.mul_mod_distr_r by lia.
  apply lor_disjoint; [lia|]. split.
  - apply Z.div_pos; lia.
  - apply Z.div_lt_upper_bound; [lia|]. rewrite <- Hsplit. lia.
Qed.

Lemma ror32_range v n :
  0 <= v < 2 ^ 32 -> 0 <= n <= 32 -> 0 <= ror32 v n < 2 ^ 32.
Proof.
  intros Hv Hn. unfold ror32.
  assert (0 < 2 ^ n) by (apply Z.pow_pos_nonneg; lia).
  assert (0 < 2 ^ (32 - n)) by (apply Z.pow_pos_nonneg; lia).
  assert (2 ^ 32 = 2 ^ n * 2 ^ (32 - n)) as Hsplit
    by (rewrite <- Z.pow_add_r by lia; f_equal; lia).
  assert (0 <= v / 2 ^ n < 2 ^ (32 - n)).
  { split; [apply Z.div_pos; lia|].
    apply Z.div_lt_upper_bound; [lia|]. rewrite <- Hsplit. lia. }
  pose proof (Z.mod_pos_bound v (2 ^ n) ltac:(lia)). nia.
Qed.

(** Bit [j] of the rotation is bit [(j + n) mod 32] of [v]. *)
Lemma ror32_testbit v n j :
  0 <= v < 2 ^ 32 -> 0 <= n < 32 -> 0 <= j < 32 ->
  Z.testbit (ror32 v n) j = Z.testbit v ((j + n) mod 32).
Proof.
  intros Hv Hn Hj. unfold ror32.
  assert (0 < 2 ^ n) by (apply Z.pow_pos_nonneg; lia).
  assert (2 ^ 32 = 2 ^ n * 2 ^ (32 - n)) as Hsplit
    by (rewrite <- Z.pow_add_r by lia; f_equal; lia).
  rewrite <- lor_disjoint.
  2: lia.
  2: { split; [apply Z.div_pos; lia|].
       apply Z.div_lt_upper_bound; [lia|]. rewrite <- Hsplit. lia. }
  rewrite Z.lor_spec, <- Z.shiftr_div_pow2, <- Z.shiftl_mul_pow2 by lia.
  rewrite Z.shiftr_spec, Z.shiftl_spec by lia.
  destruct (Z.lt_ge_cases (j + n) 32) as [Hlt | Hge].
  - rewrite (Z.mod_small (j + n)) by lia.
    rewrite (Z.testbit_neg_r _ (j - (32 - n))) by lia.
    apply orb_false_r.
  - replace ((j + n) mod 32) with (j + n - 32)
      by (apply Z.mod_unique with 1; lia).
    rewrite (testbit_high v 32 (j + n) Hv Hge).
    rewrite Z.mod_pow2_bits_low by lia.
    cbn [orb]. f_equal. lia.
Qed.

(* ----------------------------------------------------------------- *)

(** A word with bit 25 set does not match the multiply pattern. *)
Lemma immediate_not_multiply w : field w 25 1 = 1 -> field w 24 15 <> 0.
Proof.
  unfold field. change 1 with (Z.ones 1) at 1. change 15 with (Z.ones 4).
  rewrite !Z.land_ones, !Z.shiftr_div_pow2 by lia.
  change (2 ^ 25) with (2 ^ 24 * 2). rewrite <- Z.div_div by lia.
  generalize (w / 2 ^ 24). intros x. change (2 ^ 1) with 2.
  change (2 ^ 4) with 16. Z.div_mod_to_equations. lia.
Qed.

Lemma decode_immediate_holds w :
  field w 26 3 = 0 -> field w 25 1 = 1 ->
  holds (fun i => operands i !! "operand2"%string
                  = Some (ror32 (field w 0 255) (2 * field w 8 15)))
        (decode w).
Proof.
  intros Hdp Himm. pose proof (immediate_not_multiply w Himm) as Hmul.
  pose proof (field_15 w 8). pose proof (field_255 w 0).
  unfold decode. rewrite rotate_immediate_eq by lia.
  cbv beta iota delta [Py.bind]. cbv zeta.
  apply Z.eqb_neq in Hmul. rewrite Hmul, Hdp, Himm.
  cbn [andb]. change (0 =? 0) with true. change (Py.truthy 1) with true.
  cbv iota.
  destruct (map_opcode (field w 21 15) "UNKNOWN_DATA_PROCESSING_IMM")
    as [kind force].
  leaf. cbn [operands]. rewrite lookup_insert_eq. f_equal.
  apply rotate_is_ror32; lia.
Qed.

(** C6: for every data-processing word (bits 27-26 are 00) with bit 25
    set, the decoded [operand2] is the 32-bit rotate-right of the 8-bit
    immediate (bits 7-0) by twice the rotate field (bits 11-8), the bits
    rotated out re-entering at the top; with a rotate field of 0 it is the
    immediate itself.  The rotate field ranges over 0..15, so this covers
    every rotation, 1, 8 and 15 included. *)
Theorem decode_immediate_rotation w i :
  decode w = Ok i -> field w 26 3 = 0 -> field w 25 1 = 1 ->
  operands i !! "operand2"%string
    = Some (ror32 (field w 0 255) (2 * field w 8 15)) /\
  (field w 8 15 = 0 ->
   operands i !! "operand2"%string = Some (field w 0 255)).
Proof.
  intros Hi Hdp Himm.
  pose proof (decode_immediate_holds w Hdp Himm) as H.
  rewrite Hi in H. cbv beta iota delta [holds] in H.
  split; [exact H|]. intros Hrot. rewrite H, Hrot. f_equal.
  unfold ror32. change (2 * 0) with 0. change (2 ^ 0) with 1.
  rewrite Z.div_1_r, Z.mod_1_r. lia.
Qed.

Lemma decode_immediate_rotation_witness :
  exists i,
    decode 0xE3A004FF = Ok i /\
    field 0xE3A004FF 26 3 = 0 /\ field 0xE3A004FF 25 1 = 1 /\
    (operands i !! "operand2"%string
       = Some (ror32 (field 0xE3A004FF 0 255) (2 * field 0xE3A004FF 8 15)) /\
     (field 0xE3A004FF 8 15 = 0 ->
      operands i !! "operand2"%string = Some (field 0xE3A004FF 0 255))).
Proof.
  eexists. split; [vm_compute; reflexivity|].
  split; [reflexivity|]. split; [reflexivity|].
  apply (decode_immediate_rotation 0xE3A004FF);
    [vm_compute; reflexivity | reflexivity | reflexivity].
Defined.

(** The rotations the design singles out, on the immediate [0xFF]. *)
Lemma rotate_immediate_examples :
  rotate_immediate 0xFF 0 = Ok 0x000000FF /\
  rotate_immediate 0xFF 1 = Ok 0xC000003F /\
  rotate_immediate 0xFF 8 = Ok 0x00FF0000 /\
  rotate_immediate 0xFF 15 = Ok 0x000003FC.
Proof. repeat split; reflexivity. Qed.

(* ================================================================= *)
(** ** The operand2 resolver *)

Lemma actual_shift_amount_range ops (regs : list Z) n :
  actual_shift_amount ops regs = Ok n -> 0 <= n < 32.
Proof.
  unfold actual_shift_amount. intros H. inv_bind H.
  apply Ok_inj in H. subst n. change 31 with (Z.ones 5).
  rewrite Z.land_ones by lia. apply Z.mod_pos_bound. lia.
Qed.

(** The register-operand path of [_get_operand2], once the operand keys
    and the shift amount are known. *)
Lemma get_operand2_shifted i (regs : list Z) rm v shift_type n :
  operands i !! "operand2"%string = None ->
  operands i !! "rm"%string = Some rm ->
  Py.index regs rm = Ok v ->
  operands i !! "shift_type"%string = Some shift_type ->
  actual_shift_amount (operands i) regs = Ok n ->
  get_operand2 i regs = apply_shift shift_type v n.
Proof.
  intros Hop Hrm Hv Hst Hn. unfold get_operand2.
  rewrite Hop, Hrm, Hv. cbn [Py.bind]. rewrite Hst, Hn. reflexivity.
Qed.

(** [ROR] is the reference rotation. *)
Lemma apply_shift_ror v n :
  in_range32 v -> 0 <= n < 32 -> apply_shift 3 v n = Ok (ror32 v n).
Proof.
  intros Hv Hn. unfold apply_shift, Py.rshift, Py.lshift.
  change (3 =? 0) with false. change (3 =? 1) with false.
  change (3 =? 2) with false. change (3 =? 3) with true. cbv iota.
  destruct (Z.ltb_spec n 0); [lia|].
  destruct (Z.ltb_spec (32 - n) 0); [lia|]. cbn [Py.bind]. f_equal.
  rewrite Z.land_lor_distr_l.
  rewrite (land_mask_id (Z.shiftr v n)).
  - apply rotate_is_ror32; [exact Hv | lia].
  - unfold in_range32 in *. rewrite Z.shiftr_div_pow2 by lia.
    assert (0 < 2 ^ n) by (apply Z.pow_pos_nonneg; lia). split.
    + apply Z.div_pos; lia.
    + apply Z.div_lt_upper_bound; nia.
Qed.

Lemma ror32_0 v : ror32 v 0 = v.
Proof.
  unfold ror32. change (2 ^ 0) with 1. rewrite Z.div_1_r, Z.mod_1_r. lia.
Qed.

(** C7: for every 32-bit register value [v], the operand2 resolver applied
    to a [ROR] operand (shift_type 0b11) whose resolved shift amount is 0
    returns [v]: the rotation by zero is the identity, and nothing is
    raised. *)
Theorem ror_by_zero_is_identity i (regs : list Z) rm v :
  operands i !! "operand2"%string = None ->
  operands i !! "rm"%string = Some rm ->
  Py.index regs rm = Ok v -> in_range32 v ->
  operands i !! "shift_type"%string = Some 3 ->
  actual_shift_amount (operands i) regs = Ok 0 ->
  get_operand2 i regs = Ok v.
Proof.
  intros Hop Hrm Hv Hrange Hst Hn.
  rewrite (get_operand2_shifted i regs rm v 3 0 Hop Hrm Hv Hst Hn).
  rewrite apply_shift_ror by (assumption || lia).
  rewrite ror32_0. reflexivity.
Qed.

Lemma ror_by_zero_is_identity_witness :
  exists i,
    decode 0xE1A00060 = Ok i /\
    operands i !! "operand2"%string = None /\
    operands i !! "rm"%string = Some 0 /\
    Py.index (registers (with_r0 0xDEADBEEF)) 0 = Ok 0xDEADBEEF /\
    in_range32 0xDEADBEEF /\
    operands i !! "shift_type"%string = Some 3 /\
    actual_shift_amount (operands i) (registers (with_r0 0xDEADBEEF)) = Ok 0 /\
    get_operand2 i (registers (with_r0 0xDEADBEEF)) = Ok 0xDEADBEEF.
Proof.
  eexists. split; [vm_compute; reflexivity|].
  split; [reflexivity|]. split; [reflexivity|]. split; [reflexivity|].
  split; [unfold in_range32; lia|]. split; [reflexivity|].
  split; [reflexivity|].
  apply (ror_by_zero_is_identity _ _ 0 0xDEADBEEF);
    [reflexivity | reflexivity | reflexivity | unfold in_range32; lia
    | reflexivity | reflexivity].
Defined.

(** [LSL]: the resolver returns the left shift of the register value by
    the resolved amount, as an unbounded integer: line 46 applies no
    mask. *)
Lemma get_operand2_lsl i (regs : list Z) rm v n :
  operands i !! "operand2"%string = None ->
  operands i !! "rm"%string = Some rm ->
  Py.index regs rm = Ok v ->
  operands i !! "shift_type"%string = Some 0 ->
  actual_shift_amount (operands i) regs = Ok n ->
  get_operand2 i regs = Ok (Z.shiftl v n).
Proof.
  intros Hop Hrm Hv Hst Hn.
  rewrite (get_operand2_shifted i regs rm v 0 n Hop Hrm Hv Hst Hn).
  pose proof (actual_shift_amount_range _ _ _ Hn).
  unfold apply_shift, Py.lshift. change (0 =? 0) with true. cbv iota.
  destruct (Z.ltb_spec n 0); [lia | reflexivity].
Qed.

(** C1 fails on the code: [LSL R1, R0, #4] (word [0xE1A01200]) with
    [R0 = 0xFFFFFFFF] resolves to [0xFFFFFFFF0], which is not below
    2^32. *)
Theorem lsl_operand_exceeds_32_bits :
  exists i,
    decode 0xE1A01200 = Ok i /\
    instruction_type i = Some "LSL"%string /\
    operands i !! "shift_type"%string = Some 0 /\
    get_operand2 i (registers (with_r0 0xFFFFFFFF)) = Ok 0xFFFFFFFF0 /\
    ~ 0xFFFFFFFF0 < 2 ^ 32.
Proof.
  eexists. split; [vm_compute; reflexivity|].
  split; [reflexivity|]. split; [reflexivity|].
  split; [reflexivity | lia].
Qed.

(** The unmasked operand reaches the flags: [ADDS R2, R1, R0, LSL #4]
    (word [0xE0912200]) with [R0 = 0x10000000] and [R1 = 0] adds
    [0x100000000], so it writes 0 to [R2] and sets the carry flag, where a
    32-bit operand2 would be 0 and leave the carry clear. *)
Lemma adds_lsl_sets_carry :
  exists i s',
    decode 0xE0912200 = Ok i /\
    get_operand2 i (registers (with_r0 0x10000000)) = Ok 0x100000000 /\
    execute_instruction i (with_r0 0x10000000) = Ok (s', None) /\
    registers s' !! 2%nat = Some 0 /\
    cpsr s' = {| N := 0; Z_ := 1; C := 1; V := 0 |}.
Proof.
  eexists. eexists. split; [vm_compute; reflexivity|].
  split; [reflexivity|]. split; [vm_compute; reflexivity|].
  split; reflexivity.
Qed.

(** The design's own examples. *)
Lemma asr_sign_extends : apply_shift 2 0x80000000 4 = Ok 0xF8000000.
Proof. reflexivity. Qed.

Lemma mov_immediate_example :
  exists i s',
    decode 0xE3A00010 = Ok i /\ instruction_type i = Some "MOV"%string /\
    execute_instruction i new_cpu = Ok (s', None) /\
    registers s' !! 0%nat = Some 16 /\ cpsr s' = cpsr new_cpu.
Proof.
  eexists. eexists. split; [vm_compute; reflexivity|].
  split; [reflexivity|]. split; [vm_compute; reflexivity|].
  split; reflexivity.
Qed.

Lemma subne_example :
  exists i,
    decode 0x10400005 = Ok i /\ instruction_type i = Some "SUBNE"%string /\
    forall s, Z_ (cpsr s) = 1 ->
      execute_instruction i s = Ok (s, Some (Skipped (Some "SUBNE"%string))).
Proof.
  eexists. split; [vm_compute; reflexivity|].
  split; [reflexivity|]. intros s Hz.
  rewrite execute_skipped; [reflexivity|].
  apply execute_conditionally_false.
  right. split; [reflexivity | exact Hz].
Qed.

Lemma holds_elim {A} (P : A -> Prop) (r : result A) a :
  holds P r -> r = Ok a -> P a.
Proof. intros H ->. exact H. Qed.

Ltac solve_some :=
  repeat match goal with
  | |- _ /\ _ => split
  | |- _ <-> _ => split
  | |- _ -> _ => intro
  | H : is_Some None |- _ => destruct H as [? H]; discriminate H
  | H : Some _ = None |- _ => discriminate H
  | H : None = Some _ |- _ => discriminate H
  | |- is_Some (Some _) => eexists; reflexivity
  | |- None = None => reflexivity
  end.

Ltac exclusive_leaf :=
  unfold shift_descriptors_exclusive; cbn [operands]; cbv zeta;
  lookup_ops; solve_some.

Lemma decode_holds_exclusive w : holds shift_descriptors_exclusive (decode w).
Proof.
  unfold decode. pose proof (field_15 w 8).
  rewrite rotate_immediate_eq by lia. cbv beta iota delta [Py.bind].
  cbv zeta.
  case_if. { leaf. exclusive_leaf. }
  case_if.
  { case_if.
    { destruct (map_opcode _ _). leaf. exclusive_leaf. }
    case_if.
    { case_if. { leaf. exclusive_leaf. }
      case_if. { leaf. exclusive_leaf. }
      destruct (map_opcode _ _). leaf. exclusive_leaf. }
    case_if. { leaf. exclusive_leaf. }
    destruct (map_opcode _ _). leaf. exclusive_leaf. }
  case_if. { leaf. exclusive_leaf. }
  case_if. { leaf. exclusive_leaf. }
  leaf. exclusive_leaf.
Qed.

(** X1: the operand set of a decoded record never holds two descriptions
    of the second operand: with a resolved immediate [operand2] there is
    no [rm], [shift_type], [shift_amount] or [rs]; with a [shift_type]
    there is an [rm] and exactly one of [shift_amount] and [rs]; and a
    [shift_amount] never comes without a [shift_type]. *)
Theorem decoded_shift_descriptors_exclusive w i :
  decode w = Ok i -> shift_descriptors_exclusive i.
Proof. intros Hi. exact (holds_elim _ _ _ (decode_holds_exclusive w) Hi). Qed.

Lemma decoded_shift_descriptors_exclusive_witness :
  exists i, decode 0xE0813112 = Ok i /\ shift_descriptors_exclusive i.
Proof.
  eexists. split; [vm_compute; reflexivity|].
  apply (decoded_shift_descriptors_exclusive 0xE0813112).
  vm_compute; reflexivity.
Defined.


Ltac range_leaf :=
  unfold fields_in_range; cbn [condition_code operands];
  split; [eexists; split; [reflexivity | apply field_15] |];
  (split; [|split; [|split]]); intros v; lookup_ops; intros [= <-];
  first [ lia
        | unfold in_range32; rewrite rotate_is_ror32 by lia;
          apply ror32_range; lia ].

Lemma decode_holds_ranges w : holds fields_in_range (decode w).
Proof.
  unfold decode. pose proof (field_15 w 8). pose proof (field_255 w 0).
  pose proof (field_ones w 0 12 ltac:(lia)) as H12.
  pose proof (field_ones w 0 24 ltac:(lia)) as H24.
  change (Z.ones 12) with 4095 in H12. change (Z.ones 24) with 16777215 in H24.
  pose proof (field_31 w 7). pose proof (field_3 w 5).
  rewrite rotate_immediate_eq by lia. cbv beta iota delta [Py.bind].
  cbv zeta.
  case_if. { leaf. range_leaf. }
  case_if.
  { case_if.
    { destruct (map_opcode _ _). leaf. range_leaf. }
    case_if.
    { case_if. { leaf. range_leaf. }
      case_if. { leaf. range_leaf. }
      destruct (map_opcode _ _). leaf. range_leaf. }
    case_if. { leaf. range_leaf. }
    destruct (map_opcode _ _). leaf. range_leaf. }
  case_if. { leaf. range_leaf. }
  case_if. { leaf. range_leaf. }
  leaf. range_leaf.
Qed.

(** X2: the fields of a decoded record are in range: the condition code
    is a 4-bit value, an [offset] is below 2^24, a [shift_amount] is in
    0..31, a [shift_type] is in 0..3, and a resolved immediate [operand2]
    is a 32-bit value. *)
Theorem decoded_fields_in_range w i : decode w = Ok i -> fields_in_range i.
Proof. intros Hi. exact (holds_elim _ _ _ (decode_holds_ranges w) Hi). Qed.

Lemma decoded_fields_in_range_witness :
  exists i, decode 0xE3A004FF = Ok i /\ fields_in_range i.
Proof.
  eexists. split; [vm_compute; reflexivity|].
  apply (decoded_fields_in_range 0xE3A004FF). vm_compute; reflexivity.
Defined.

Ltac kinds_leaf :=
  unfold conditional_kinds_consistent, rename_conditional;
  cbn [instruction_type condition_code];
  eval_eqb;
  repeat match goal with
  | |- context [?c =? 1] => destruct (Z.eqb_spec c 1)
  | |- context [?c =? 0] => destruct (Z.eqb_spec c 0)
  end;
  cbn [andb]; cbv iota;
  (split; [|split; [|split]]); intros Hk; try discriminate Hk; congruence.

Lemma decode_holds_kinds w : holds conditional_kinds_consistent (decode w).
Proof.
  unfold decode. pose proof (field_15 w 8).
  rewrite rotate_immediate_eq by lia. cbv beta iota delta [Py.bind].
  cbv zeta.
  case_if. { leaf. kinds_leaf. }
  case_if.
  { case_if.
    { expose_kind; leaf; split_in; kinds_leaf. }
    case_if.
    { case_if. { leaf. kinds_leaf. }
      case_if. { expose_kind; leaf; split_in; kinds_leaf. }
      expose_kind; leaf; split_in; kinds_leaf. }
    case_if. { expose_kind; leaf; split_in; kinds_leaf. }
    expose_kind; leaf; split_in; kinds_leaf. }
  case_if. { destruct (field w 20 1 =? 1); leaf; kinds_leaf. }
  case_if. { destruct (field w 24 1 =? 1); leaf; kinds_leaf. }
  leaf; kinds_leaf.
Qed.

(** X3: the renamed kinds agree with the condition code.  A decoded record
    of kind [SUBNE] has condition code 0b0001 and one of kind [ADDEQ] has
    condition code 0b0000; a record left with the kind [SUB] never has
    condition code 0b0001, and one left with [ADD] never has 0b0000. *)
Theorem decoded_conditional_kinds w i :
  decode w = Ok i -> conditional_kinds_consistent i.
Proof. intros Hi. exact (holds_elim _ _ _ (decode_holds_kinds w) Hi). Qed.

Lemma decoded_conditional_kinds_witness :
  exists i, decode 0x10400005 = Ok i /\ conditional_kinds_consistent i.
Proof.
  eexists. split; [vm_compute; reflexivity|].
  apply (decoded_conditional_kinds 0x10400005). vm_compute; reflexivity.
Defined.

Lemma map_opcode_mov cc opc unknown k f :
  unknown <> "MOV"%string ->
  map_opcode opc unknown = (k, f) ->
  rename_conditional cc k = "MOV"%string -> opc = 13.
Proof.
  intros Hu Hmap Hk.
  destruct (rename_conditional_cases cc k) as [Heq | [[_ Heq] | [_ Heq]]];
    rewrite Heq in Hk; try discriminate Hk. subst k.
  unfold map_opcode in Hmap.
  destruct (Z.eqb_spec opc 4); [discriminate Hmap|].
  destruct (Z.eqb_spec opc 2); [discriminate Hmap|].
  destruct (Z.eqb_spec opc 13); [assumption|].
  destruct (Z.eqb_spec opc 10); [discriminate Hmap|].
  destruct (Z.eqb_spec opc 0); [discriminate Hmap|].
  destruct (Z.eqb_spec opc 12); [discriminate Hmap|].
  injection Hmap as Hmap _. contradiction.
Qed.

Ltac no_mov_leaf :=
  unfold mov_register_form_has_rn; cbn [instruction_type operands];
  lookup_ops; intros Hk Hrm;
  first [ discriminate Hk
        | destruct Hrm as [? Hrm]; discriminate Hrm ].

Ltac shift_alias_leaf :=
  expose_kind; leaf; split_in; no_mov_leaf.

Ltac mov_leaf :=
  match goal with
  | Hnot : (field ?w 16 15 =? 0) && (field ?w 21 15 =? 13) = false
    |- context [map_opcode ?opc ?u] =>
      let k := fresh "k" in
      let f := fresh "f" in
      let Hmap := fresh "Hmap" in
      destruct (map_opcode opc u) as [k f] eqn:Hmap; leaf;
      unfold mov_register_form_has_rn; cbn [instruction_type operands];
      lookup_ops; intros Hk _; apply (inj Some) in Hk;
      assert (u <> "MOV"%string) as Hu by discriminate;
      apply (map_opcode_mov _ _ _ _ _ Hu Hmap) in Hk;
      rewrite Hk in Hnot; change (13 =? 13) with true in Hnot;
      rewrite andb_true_r in Hnot; apply Z.eqb_neq in Hnot;
      eexists; split; [reflexivity | exact Hnot]
  end.

Lemma decode_holds_mov w : holds mov_register_form_has_rn (decode w).
Proof.
  unfold decode. pose proof (field_15 w 8).
  rewrite rotate_immediate_eq by lia. cbv beta iota delta [Py.bind].
  cbv zeta.
  case_if. { leaf. no_mov_leaf. }
  case_if.
  { case_if.
    { destruct (map_opcode _ _). leaf. no_mov_leaf. }
    case_if.
    { case_if. { leaf. no_mov_leaf. }
      case_if. { shift_alias_leaf. }
      mov_leaf. }
    case_if. { shift_alias_leaf. }
    mov_leaf. }
  case_if. { destruct (field w 20 1 =? 1); leaf; no_mov_leaf. }
  case_if. { destruct (field w 24 1 =? 1); leaf; no_mov_leaf. }
  leaf; no_mov_leaf.
Qed.

(** X4: a register-form [MOV] with base register field 0 is never
    decoded as [MOV]: it becomes [LSL], [LSR], [ASR] or [ROR].  So every
    decoded record of kind [MOV] that has an [rm] operand has an [rn]
    operand other than 0. *)
Theorem decoded_mov_register_form w i :
  decode w = Ok i -> mov_register_form_has_rn i.
Proof. intros Hi. exact (holds_elim _ _ _ (decode_holds_mov w) Hi). Qed.

Lemma decoded_mov_register_form_witness :
  exists i, decode 0xE1A31002 = Ok i /\ mov_register_form_has_rn i.
Proof.
  eexists. split; [vm_compute; reflexivity|].
  apply (decoded_mov_register_form 0xE1A31002). vm_compute; reflexivity.
Defined.

(* ================================================================= *)
(** ** The instruction stream *)

Lemma decode_instructions_short (data : list byte) :
  (length data < 4)%nat -> decode_instructions data = Ok [].
Proof.
  destruct data as [|b0 [|b1 [|b2 [|b3 rest]]]]; simpl length; intros Hlen;
    try reflexivity. lia.
Qed.

Lemma decode_instructions_cons b0 b1 b2 b3 rest :
  decode_instructions (b0 :: b1 :: b2 :: b3 :: rest) =
  (i <- decode (2 ^ 24 * Struct.Z_of_byte b0 + 2 ^ 16 * Struct.Z_of_byte b1
                + 2 ^ 8 * Struct.Z_of_byte b2 + Struct.Z_of_byte b3) ;;
   instructions <- decode_instructions rest ;;
   Ok (i :: instructions)).
Proof. reflexivity. Qed.

(** X5: [decode_instructions] never raises, returns one record per
    complete 4-byte word, [len(binary_data) // 4] records in all (none for
    an empty stream), and every record is well formed. *)
Theorem decode_instructions_count binary_data :
  exists instructions,
    decode_instructions binary_data = Ok instructions /\
    length instructions = (length binary_data / 4)%nat /\
    Forall well_formed instructions.
Proof.
  induction binary_data as [binary_data IH] using (induction_ltof1 _ length).
  unfold ltof in IH.
  destruct (Nat.lt_ge_cases (length binary_data) 4) as [Hlt | Hge].
  - exists []. rewrite decode_instructions_short by exact Hlt.
    split; [reflexivity|]. split; [|constructor].
    rewrite Nat.div_small by exact Hlt. reflexivity.
  - destruct binary_data as [|b0 [|b1 [|b2 [|b3 rest]]]];
      simpl length in Hge; try lia.
    rewrite decode_instructions_cons.
    match goal with
    | |- context [decode ?w] =>
        destruct (decode_total w) as [i Hi]; rewrite Hi;
        pose proof (decode_wf w i Hi) as Hwf
    end.
    cbn [Py.bind].
    destruct (IH rest) as (instructions & -> & Hlen & Hall); [simpl; lia|].
    cbn [Py.bind]. eexists. split; [reflexivity|].
    split; [|constructor; assumption].
    cbn [length]. rewrite Hlen.
    change (S (S (S (S (length rest))))) with (1 * 4 + length rest)%nat.
    rewrite Nat.div_add_l by lia. reflexivity.
Qed.

(** X6: trailing bytes that do not complete a word are dropped: a stream
    of whole words followed by one, two or three more bytes decodes to the
    same records as the whole words alone. *)
Theorem decode_instructions_trailing (data tail : list byte) :
  (length data mod 4 = 0)%nat -> (length tail < 4)%nat ->
  decode_instructions (data ++ tail) = decode_instructions data.
Proof.
  intros Hmod Htail.
  induction data as [data IH] using (induction_ltof1 _ length).
  unfold ltof in IH.
  destruct data as [|b0 rest0].
  { rewrite app_nil_l. apply decode_instructions_short. exact Htail. }
  destruct rest0 as [|b1 [|b2 [|b3 rest]]];
    try (simpl in Hmod; discriminate Hmod).
  cbn [app]. rewrite !decode_instructions_cons.
  rewrite IH; [reflexivity | simpl; lia |].
  cbn [length] in Hmod.
  replace (S (S (S (S (length rest))))) with (length rest + 1 * 4)%nat in Hmod
    by lia.
  rewrite Nat.Div0.mod_add in Hmod. exact Hmod.
Qed.

Lemma decode_instructions_trailing_witness :
  decode_instructions ([xe3; xa0; x00; x10] ++ [xe5; x90])
  = decode_instructions [xe3; xa0; x00; x10].
Proof.
  apply (decode_instructions_trailing [xe3; xa0; x00; x10] [xe5; x90]);
    [reflexivity | simpl; lia].
Defined.

Lemma pack_be_u32_Ok v :
  in_range32 v ->
  exists b0 b1 b2 b3,
    Generator.pack_be_u32 v = Ok [b0; b1; b2; b3] /\
    2 ^ 24 * Struct.Z_of_byte b0 + 2 ^ 16 * Struct.Z_of_byte b1
    + 2 ^ 8 * Struct.Z_of_byte b2 + Struct.Z_of_byte b3 = v.
Proof.
  unfold in_range32, Generator.pack_be_u32. intros Hv.
  destruct (Z.leb_spec 0 v); [|lia].
  destruct (Z.ltb_spec v (2 ^ 32)); [|lia]. cbn [andb].
  do 4 eexists. split; [reflexivity|].
  change 255 with (Z.ones 8). rewrite !Z.land_ones, !Z.shiftr_div_pow2 by lia.
  rewrite !byte_roundtrip by (apply Z.mod_pos_bound; lia).
  change (2 ^ 8) with 256. change (2 ^ 16) with 65536.
  change (2 ^ 24) with 16777216. change (2 ^ 32) with 4294967296 in *.
  Z.div_mod_to_equations. lia.
Qed.


(** The write loop on 32-bit words: it appends four bytes per word and
    does not raise, and the bytes appended decode to the words' records. *)
Lemma write_words_in_range words file :
  Forall in_range32 words ->
  exists data instructions,
    Generator.write_words words file = (file ++ data, None) /\
    length data = (4 * length words)%nat /\
    decode_instructions data = Ok instructions /\
    Forall2 (fun w i => decode w = Ok i) words instructions.
Proof.
  intros Hall. revert file.
  induction Hall as [|w words Hw _ IH]; intros file.
  - exists [], []. rewrite app_nil_r. repeat split. constructor.
  - destruct (pack_be_u32_Ok w Hw) as (b0 & b1 & b2 & b3 & Hpack & Hval).
    destruct (IH (file ++ [b0; b1; b2; b3]))
      as (data & instructions & Hwrite & Hlen & Hdec & Hrec).
    destruct (decode_total w) as [i Hi].
    exists ([b0; b1; b2; b3] ++ data), (i :: instructions).
    cbn [Generator.write_words]. rewrite Hpack, Hwrite, <- app_assoc.
    split; [reflexivity|]. split; [cbn [length app]; lia|].
    split; [|constructor; assumption].
    cbn [app]. rewrite decode_instructions_cons, Hval, Hi, Hdec.
    reflexivity.
Qed.


(** X7: what the generator writes is what the decoder reads.  For every
    list of 32-bit words, the loop of [generate_test_binary] writes four
    bytes per word without raising, and [decode_instructions] applied to
    those bytes returns, in order, exactly the records [decode] gives for
    the words: the big-endian packing and unpacking cancel. *)
Theorem generated_stream_decodes words :
  Forall in_range32 words ->
  exists data instructions,
    Generator.write_words words [] = (data, None) /\
    length data = (4 * length words)%nat /\
    decode_instructions data = Ok instructions /\
    Forall2 (fun w i => decode w = Ok i) words instructions.
Proof.
  intros Hall. exact (write_words_in_range words [] Hall).
Qed.

Lemma generated_stream_decodes_witness :
  Forall in_range32 Generator.binary_words /\
  exists data instructions,
    Generator.write_words Generator.binary_words [] = (data, None) /\
    length data = (4 * length Generator.binary_words)%nat /\
    decode_instructions data = Ok instructions /\
    Forall2 (fun w i => decode w = Ok i) Generator.binary_words instructions.
Proof.
  assert (Forall in_range32 Generator.binary_words) as Hwords
    by (repeat first [ apply List.Forall_nil
                     | apply List.Forall_cons; [unfold in_range32; lia|] ]).
  split; [exact Hwords|].
  apply (generated_stream_decodes Generator.binary_words Hwords).
Defined.



(** The kinds the decoder gives to the fifteen generated words. *)
Lemma generated_kinds :
  exists data instructions,
    Generator.generate_test_binary = (data, None) /\
    decode_instructions data = Ok instructions /\
    map instruction_type instructions =
      map Some ["MOV"; "LDR"; "STR"; "ADD"; "SUB"; "MUL"; "CMP"; "AND";
                "ORR"; "SUBNE"; "ADDEQ"; "LSL"; "LSR"; "MOV"; "ROR"]%string.
Proof.
  eexists. eexists. split; [vm_compute; reflexivity|].
  split; [vm_compute; reflexivity|]. vm_compute. reflexivity.
Qed.

(* ================================================================= *)
(** ** Memory *)

Lemma slice_set_word {A} (l : list A) a (xs : list A) :
  0 <= a <= Z.of_nat (length l) - 4 ->
  Slice.set l a (a + 4) xs
  = take (Z.to_nat a) l ++ xs ++ drop (Z.to_nat a + 4) l.
Proof.
  intros Ha. unfold Slice.set, Slice.clamp.
  destruct (Z.ltb_spec a 0); [lia|].
  destruct (Z.ltb_spec (a + 4) 0); [lia|].
  rewrite !Z.min_l by lia. rewrite Z.max_r by lia.
  replace (Z.to_nat (a + 4)) with (Z.to_nat a + 4)%nat by lia. reflexivity.
Qed.

Lemma slice_get_take_drop {A} (l : list A) a :
  0 <= a <= Z.of_nat (length l) - 4 ->
  Slice.get l a (a + 4) = take 4 (drop (Z.to_nat a) l).
Proof.
  intros Ha. unfold Slice.get, Slice.clamp.
  destruct (Z.ltb_spec a 0); [lia|].
  destruct (Z.ltb_spec (a + 4) 0); [lia|].
  rewrite !Z.min_l by lia.
  replace (Z.to_nat (a + 4 - a)) with 4%nat by lia. reflexivity.
Qed.

(** Reading back the slice that was just assigned. *)
Lemma slice_get_set {A} (l : list A) a (xs : list A) :
  0 <= a <= Z.of_nat (length l) - 4 -> length xs = 4%nat ->
  Slice.get (Slice.set l a (a + 4) xs) a (a + 4) = xs.
Proof.
  intros Ha Hxs.
  rewrite slice_get_take_drop
    by (rewrite slice_set_length by assumption; exact Ha).
  rewrite slice_set_word by exact Ha.
  rewrite drop_app_length' by (rewrite length_take; lia).
  rewrite take_app_length' by (symmetry; exact Hxs). reflexivity.
Qed.

(** The bytes outside the assigned slice are the old ones. *)
Lemma slice_set_other {A} (l : list A) a (xs : list A) (j : nat) :
  0 <= a <= Z.of_nat (length l) - 4 -> length xs = 4%nat ->
  (j < Z.to_nat a \/ Z.to_nat a + 4 <= j)%nat ->
  Slice.set l a (a + 4) xs !! j = l !! j.
Proof.
  intros Ha Hxs Hj. rewrite slice_set_word by exact Ha.
  destruct Hj as [Hlow | Hhigh].
  - rewrite lookup_app_l by (rewrite length_take; lia).
    apply lookup_take_lt. exact Hlow.
  - rewrite lookup_app_r by (rewrite length_take; lia).
    rewrite length_take, Nat.min_l by lia.
    rewrite lookup_app_r by lia. rewrite Hxs, lookup_drop. f_equal. lia.
Qed.

Lemma pack_le_u32_length v bs :
  Struct.pack_le_u32 v = Ok bs -> length bs = 4%nat.
Proof.
  unfold Struct.pack_le_u32. destruct (_ && _); [|discriminate].
  intros <-%Ok_inj. reflexivity.
Qed.

Lemma exec_str_memory i s s' r :
  exec_str i s = Ok (s', r) ->
  s' = s \/
  exists address value bs,
    fits s address /\ Struct.pack_le_u32 value = Ok bs /\
    memory s' = Slice.set (memory s) address (address + 4) bs.
Proof.
  unfold exec_str. intros H. repeat inv_bind H. case_if_in H.
  - repeat inv_bind H. apply Ok_pair_inj in H as [<- _]. right.
    match goal with
    | Hb : in_bounds s ?a = true, Hp : Struct.pack_le_u32 ?v = Ok ?bs |- _ =>
        exists a, v, bs; apply in_bounds_fits in Hb; auto
    end.
  - apply Ok_pair_inj in H as [<- _]. left; reflexivity.
Qed.

Lemma execute_str_inv i s s' r :
  instruction_type i = Some "STR"%string ->
  execute_instruction i s = Ok (s', r) ->
  s' = s \/ exec_str i s = Ok (s', r).
Proof.
  intros Hk He. destruct (execute_conditionally i s) eqn:Hc.
  - right. rewrite <- (execute_str i s Hc Hk). exact He.
  - rewrite (execute_skipped i s Hc) in He.
    apply Ok_pair_inj in He as [<- _]. left; reflexivity.
Qed.

(** No branch of [execute_instruction] changes the length of the memory. *)
Lemma execute_memory_length i s s' r :
  execute_instruction i s = Ok (s', r) ->
  length (memory s') = length (memory s).
Proof.
  intros He.
  destruct (execute_effect i s s' r He)
    as [-> | k _ _ (rd & v & _ & _ & _ & -> & _) | _ _ -> | Hk _ _];
    try reflexivity.
  destruct (execute_str_inv i s s' r Hk He) as [-> | Hs]; [reflexivity|].
  destruct (exec_str_memory i s s' r Hs)
    as [-> | (a & v & bs & Hfit & Hp & ->)]; [reflexivity|].
  apply slice_set_length; [exact Hfit | exact (pack_le_u32_length v bs Hp)].
Qed.

(** C9: executing a decoded record in a state whose sixteen registers
    hold 32-bit values never raises.  The operand keys the executor
    subscripts are present and the register indices are in 0..15 (both
    are [well_formed]), so no [KeyError], [IndexError], [struct.error] or
    [ValueError] comes out of [execute_instruction]: it returns a state
    and at most a report, and the memory has the size it had.  Every
    memory slice it touches is in bounds: a load or store is performed
    only at an address [Rn + offset] such that the four bytes from it lie
    within the memory, and at any other address the access is rejected,
    which prints the out-of-bounds line and leaves the state as it was. *)
Theorem execute_never_raises w i s :
  decode w = Ok i -> valid_state s ->
  well_formed i /\
  (exists s' r, execute_instruction i s = Ok (s', r) /\
                length (memory s') = length (memory s)) /\
  (forall address,
     effective_address i s = Some address ->
     access_performed i s address ->
     0 <= address /\ address + 4 <= Z.of_nat (length (memory s))) /\
  (forall address,
     effective_address i s = Some address ->
     execute_conditionally i s = true ->
     instruction_type i = Some "LDR"%string \/
     instruction_type i = Some "STR"%string ->
     ~ (0 <= address /\ address + 4 <= Z.of_nat (length (memory s))) ->
     access_rejected i s address).
Proof.
  intros Hi Hs. pose proof (decode_wf w i Hi) as Hwf.
  split; [exact Hwf|]. split; [|split].
  - destruct (execute_total i s Hwf Hs) as (s' & r & He).
    exists s', r. split; [exact He|].
    exact (execute_memory_length i s s' r He).
  - intros address Ha Hp.
    assert (execute_conditionally i s = true) as Hc.
    { destruct (execute_conditionally i s) eqn:Hc; [reflexivity|].
      destruct Hp as (s' & He & _).
      rewrite (execute_skipped i s Hc) in He. discriminate He. }
    assert (instruction_type i = Some "LDR"%string \/
            instruction_type i = Some "STR"%string) as Hk
      by (destruct Hp as (s' & _ & [[Hk _] | [Hk _]]); auto).
    destruct (load_store_outcome i s Hwf Hs Hc Hk)
      as (address' & Ha' & [[Hfit _] | [_ Hr]]);
      rewrite Ha in Ha'; apply (inj Some) in Ha'; subst address'.
    + unfold fits in Hfit. lia.
    + destruct (performed_not_rejected i s address Hp Hr).
  - intros address Ha Hc Hk Hout.
    destruct (load_store_outcome i s Hwf Hs Hc Hk)
      as (address' & Ha' & [[Hfit _] | [_ Hr]]);
      rewrite Ha in Ha'; apply (inj Some) in Ha'; subst address'.
    + unfold fits in Hfit. exfalso. apply Hout. lia.
    + exact Hr.
Qed.

Lemma execute_never_raises_witness :
  exists i,
    decode 0xE5801000 = Ok i /\ valid_state (with_r0 1021) /\
    (well_formed i /\
     (exists s' r, execute_instruction i (with_r0 1021) = Ok (s', r) /\
                   length (memory s') = length (memory (with_r0 1021))) /\
     (forall address,
        effective_address i (with_r0 1021) = Some address ->
        access_performed i (with_r0 1021) address ->
        0 <= address /\
        address + 4 <= Z.of_nat (length (memory (with_r0 1021)))) /\
     (forall address,
        effective_address i (with_r0 1021) = Some address ->
        execute_conditionally i (with_r0 1021) = true ->
        instruction_type i = Some "LDR"%string \/
        instruction_type i = Some "STR"%string ->
        ~ (0 <= address /\
           address + 4 <= Z.of_nat (length (memory (with_r0 1021)))) ->
        access_rejected i (with_r0 1021) address)).
Proof.
  eexists. split; [vm_compute; reflexivity|].
  split; [eval_valid|].
  apply (execute_never_raises 0xE5801000);
    [vm_compute; reflexivity | eval_valid].
Defined.

(** X9: the memory never changes size.  Whatever record is executed in
    whatever state, if [execute_instruction] returns, the byte buffer has
    the length it had: a store replaces four bytes by four bytes and no
    other instruction touches the buffer. *)
Theorem memory_size_preserved i s s' r :
  execute_instruction i s = Ok (s', r) ->
  length (memory s') = length (memory s).
Proof. exact (execute_memory_length i s s' r). Qed.

Lemma memory_size_preserved_witness :
  exists i s',
    decode 0xE5801000 = Ok i /\
    execute_instruction i (with_r0 1020) = Ok (s', None) /\
    length (memory s') = length (memory (with_r0 1020)).
Proof.
  eexists. eexists. split; [vm_compute; reflexivity|].
  assert (forall i s', execute_instruction i (with_r0 1020) = Ok (s', None) ->
            execute_instruction i (with_r0 1020) = Ok (s', None) /\
            length (memory s') = length (memory (with_r0 1020))) as Hw.
  { intros i s' He. split; [exact He|].
    exact (memory_size_preserved i (with_r0 1020) s' None He). }
  apply Hw. vm_compute; reflexivity.
Defined.

(** X10: a store touches four bytes only.  If executing a decoded record
    changes the byte at some index of the memory, the record is a [STR]
    and the index is one of the four starting at its address
    [Rn + offset], which lies in [0, memory_size - 4]. *)
Theorem store_changes_four_bytes w i s s' r (j : nat) :
  decode w = Ok i -> valid_state s ->
  execute_instruction i s = Ok (s', r) ->
  memory s' !! j <> memory s !! j ->
  instruction_type i = Some "STR"%string /\
  exists address,
    effective_address i s = Some address /\ fits s address /\
    (Z.to_nat address <= j < Z.to_nat address + 4)%nat.
Proof.
  intros Hi Hs He Hj.
  destruct (execute_effect i s s' r He)
    as [-> | k _ _ (rd & v & _ & _ & _ & Hm & _) | _ _ Hm | Hk _ _];
    try (rewrite Hm in Hj); try contradiction.
  split; [exact Hk|].
  destruct (execute_conditionally i s) eqn:Hc.
  2: { rewrite (execute_skipped i s Hc) in He.
       apply Ok_pair_inj in He as [<- _]. contradiction. }
  destruct (load_store_outcome i s (decode_wf w i Hi) Hs Hc (or_intror Hk))
    as (address & Ha & [[Hfit (s1 & He1 & Hacc)] | [_ (rep & He1 & _)]]).
  2: { rewrite He in He1. apply Ok_pair_inj in He1 as [-> _]. contradiction. }
  rewrite He in He1. apply Ok_pair_inj in He1 as [<- _].
  destruct Hacc as [[Hl _] | [_ (rd & v & bs & _ & _ & Hp & ->)]];
    [congruence|].
  exists address. split; [exact Ha|]. split; [exact Hfit|].
  destruct (Nat.lt_ge_cases j (Z.to_nat address)) as [Hlow | Hge].
  - exfalso. apply Hj. cbn [memory with_memory].
    apply slice_set_other;
      [exact Hfit | exact (pack_le_u32_length v bs Hp) | left; exact Hlow].
  - destruct (Nat.lt_ge_cases j (Z.to_nat address + 4)) as [Hlt | Hhigh];
      [lia|].
    exfalso. apply Hj. cbn [memory with_memory].
    apply slice_set_other;
      [exact Hfit | exact (pack_le_u32_length v bs Hp) | right; exact Hhigh].
Qed.

Lemma store_changes_four_bytes_witness :
  exists i s',
    decode 0xE5800000 = Ok i /\ valid_state (with_r0 18) /\
    execute_instruction i (with_r0 18) = Ok (s', None) /\
    memory s' !! 18%nat <> memory (with_r0 18) !! 18%nat /\
    (instruction_type i = Some "STR"%string /\
     exists address,
       effective_address i (with_r0 18) = Some address /\
       fits (with_r0 18) address /\
       (Z.to_nat address <= 18 < Z.to_nat address + 4)%nat).
Proof.
  eexists. eexists. split; [vm_compute; reflexivity|].
  split; [eval_valid|]. split; [vm_compute; reflexivity|].
  split; [vm_compute; discriminate|].
  eapply (store_changes_four_bytes 0xE5800000 _ (with_r0 18) _ None 18%nat);
    [ vm_compute; reflexivity | eval_valid | vm_compute; reflexivity
    | vm_compute; discriminate ].
Defined.

Lemma execute_conditionally_cpsr i s s' :
  cpsr s' = cpsr s -> execute_conditionally i s' = execute_conditionally i s.
Proof. unfold execute_conditionally. intros ->. reflexivity. Qed.

Lemma effective_address_registers i s s' :
  registers s' = registers s -> effective_address i s' = effective_address i s.
Proof. unfold effective_address. intros ->. reflexivity. Qed.

(** X11: store then load.  After a decoded [STR] has stored [Rd] at an
    address where four bytes fit, a decoded [LDR] from the same address
    loads the value that [Rd] held: the little-endian packing of the store
    and the unpacking of the load cancel.  Both records must pass the
    condition gate. *)
Theorem store_then_load w1 w2 i1 i2 s address rd1 rd2 value :
  decode w1 = Ok i1 -> decode w2 = Ok i2 -> valid_state s ->
  instruction_type i1 = Some "STR"%string ->
  instruction_type i2 = Some "LDR"%string ->
  execute_conditionally i1 s = true -> execute_conditionally i2 s = true ->
  effective_address i1 s = Some address ->
  effective_address i2 s = Some address ->
  0 <= address <= Z.of_nat (length (memory s)) - 4 ->
  operands i1 !! "rd"%string = Some rd1 ->
  operands i2 !! "rd"%string = Some rd2 ->
  registers s !! Z.to_nat rd1 = Some value ->
  exists s1 s2,
    execute_instruction i1 s = Ok (s1, None) /\
    execute_instruction i2 s1 = Ok (s2, None) /\
    registers s2 !! Z.to_nat rd2 = Some value.
Proof.
  intros Hi1 Hi2 Hs Hk1 Hk2 Hc1 Hc2 Ha1 Ha2 Hfit Hrd1 Hrd2 Hval.
  pose proof (decode_wf w1 i1 Hi1) as Hwf1.
  pose proof (decode_wf w2 i2 Hi2) as Hwf2.
  destruct (load_store_outcome i1 s Hwf1 Hs Hc1 (or_intror Hk1))
    as (a1 & Ha1' & [[_ (s1 & He1 & Hacc)] | [Hno _]]).
  2: { rewrite Ha1 in Ha1'. injection Ha1' as <-. contradiction. }
  rewrite Ha1 in Ha1'. injection Ha1' as <-.
  destruct Hacc as [[Hl _] | [_ (rd & v & bs & Hrd & Hv & Hp & Hs1)]];
    [congruence|].
  assert (rd = rd1) as -> by congruence.
  assert (v = value) as -> by congruence.
  assert (valid_state s1) as Hvs1 by (subst s1; destruct Hs; split; assumption).
  assert (fits s1 address) as Hfit1.
  { subst s1. unfold fits. cbn [memory with_memory].
    rewrite slice_set_length;
      [exact Hfit | exact Hfit | exact (pack_le_u32_length _ _ Hp)]. }
  assert (execute_conditionally i2 s1 = true) as Hc2'
    by (rewrite (execute_conditionally_cpsr i2 s s1); [exact Hc2|by subst s1]).
  assert (effective_address i2 s1 = Some address) as Ha2'
    by (rewrite (effective_address_registers i2 s s1); [exact Ha2|by subst s1]).
  destruct (load_store_outcome i2 s1 Hwf2 Hvs1 Hc2' (or_introl Hk2))
    as (a2 & Ha2'' & [[_ (s2 & He2 & Hacc)] | [Hno _]]).
  2: { rewrite Ha2' in Ha2''. injection Ha2'' as <-. contradiction. }
  rewrite Ha2' in Ha2''. injection Ha2'' as <-.
  destruct Hacc as [[_ (rd & v & Hrd' & Hv' & Hs2)] | [Hl _]]; [|congruence].
  assert (rd = rd2) as -> by congruence.
  exists s1, s2. split; [exact He1|]. split; [exact He2|].
  rewrite Hs2. cbn [registers with_registers].
  assert (v = value) as ->.
  { rewrite Hs1 in Hv'. cbn [memory with_memory] in Hv'.
    rewrite slice_get_set in Hv'
      by (exact Hfit || exact (pack_le_u32_length _ _ Hp)).
    rewrite (unpack_pack_le_u32 _ _ Hp) in Hv'. apply Ok_inj in Hv'.
    symmetry; exact Hv'. }
  apply list_lookup_insert_eq.
  pose proof (wf_regs i2 Hwf2 "rd"%string rd2 ltac:(solve_in) Hrd2).
  rewrite Hs1. cbn [registers with_memory]. rewrite (vs_length s Hs). lia.
Qed.

Lemma store_then_load_witness :
  exists i1 i2 s1 s2,
    decode 0xE5800000 = Ok i1 /\ decode 0xE5902000 = Ok i2 /\
    execute_instruction i1 (with_r0 18) = Ok (s1, None) /\
    execute_instruction i2 s1 = Ok (s2, None) /\
    registers s2 !! Z.to_nat 2 = Some 18.
Proof.
  assert (exists i1 i2,
            decode 0xE5800000 = Ok i1 /\ decode 0xE5902000 = Ok i2 /\
            exists s1 s2,
              execute_instruction i1 (with_r0 18) = Ok (s1, None) /\
              execute_instruction i2 s1 = Ok (s2, None) /\
              registers s2 !! Z.to_nat 2 = Some 18) as (i1 & i2 & H1 & H2 & s1 & s2 & H).
  { eexists. eexists. split; [vm_compute; reflexivity|].
    split; [vm_compute; reflexivity|].
    eapply (store_then_load 0xE5800000 0xE5902000 _ _ (with_r0 18) 18 0 2 18);
      [ vm_compute; reflexivity | vm_compute; reflexivity | eval_valid
      | reflexivity | reflexivity | reflexivity | reflexivity
      | reflexivity | reflexivity | vm_compute; split; discriminate
      | reflexivity | reflexivity | reflexivity ]. }
  exists i1, i2, s1, s2. tauto.
Defined.

(* ================================================================= *)
(** ** Flags *)

Lemma flag_of_bool_1 b : flag_of_bool b = 1 <-> b = true.
Proof. destruct b; simpl; split; (reflexivity || discriminate). Qed.

Lemma flag_of_bool_bit b : flag_of_bool b = 0 \/ flag_of_bool b = 1.
Proof. destruct b; simpl; auto. Qed.

Lemma update_flags_bits f res c v :
  flags_are_bits f -> flags_are_bits (update_flags f res c v).
Proof.
  intros (HN & HZ & HC & HV). unfold flags_are_bits, update_flags.
  cbn [N Z_ C V].
  split; [apply flag_of_bool_bit|]. split; [apply flag_of_bool_bit|].
  split; [destruct c; [apply flag_of_bool_bit | exact HC]|].
  destruct v; [apply flag_of_bool_bit | exact HV].
Qed.

(** Bit 31 of a value, as the source extracts it. *)
Lemma sign_bit_div v : sign_bit v = (v / 2 ^ 31) mod 2.
Proof.
  unfold sign_bit. change 1 with (Z.ones 1).
  rewrite Z.land_ones, Z.shiftr_div_pow2 by lia. reflexivity.
Qed.

Lemma sign_bit_range32 v :
  in_range32 v -> sign_bit v = if v <? 2 ^ 31 then 0 else 1.
Proof.
  unfold in_range32. intros Hv. rewrite sign_bit_div.
  change (2 ^ 31) with 2147483648. change (2 ^ 32) with 4294967296 in Hv.
  destruct (Z.ltb_spec v 2147483648); Z.div_mod_to_equations; lia.
Qed.

(** N and Z as [_update_flags] computes them. *)
Lemma update_flags_Z f res c v :
  Z_ (update_flags f res c v) = 1 <-> res mod 2 ^ 32 = 0.
Proof.
  unfold update_flags. cbn [Z_]. rewrite flag_of_bool_1, Z.eqb_eq.
  change 0xFFFFFFFF with (Z.ones 32). rewrite Z.land_ones by lia.
  reflexivity.
Qed.

Lemma update_flags_N f res c v :
  N (update_flags f res c v) = 1 <-> 2 ^ 31 <= res mod 2 ^ 32.
Proof.
  unfold update_flags, Py.truthy. cbn [N].
  rewrite flag_of_bool_1, negb_true_iff, Z.eqb_neq.
  change 0xFFFFFFFF with (Z.ones 32). rewrite Z.land_ones by lia.
  fold (sign_bit (res mod 2 ^ 32)).
  rewrite sign_bit_range32 by (apply Z.mod_pos_bound; lia).
  destruct (Z.ltb_spec (res mod 2 ^ 32) (2 ^ 31)); lia.
Qed.

Lemma update_flags_not_N_and_Z f res c v :
  ~ (N (update_flags f res c v) = 1 /\ Z_ (update_flags f res c v) = 1).
Proof.
  rewrite update_flags_N, update_flags_Z. lia.
Qed.

(** The carry and overflow of an addition of two 32-bit values. *)
Lemma add_overflow_signed a b :
  in_range32 a -> in_range32 b ->
  (sign_bit a =? sign_bit b) && negb (sign_bit a =? sign_bit (a + b)) = true
  <-> ~ (- 2 ^ 31 <= signed32 a + signed32 b < 2 ^ 31).
Proof.
  intros Ha Hb. rewrite (sign_bit_range32 a Ha), (sign_bit_range32 b Hb).
  rewrite (sign_bit_div (a + b)). unfold signed32, in_range32 in *.
  change (2 ^ 31) with 2147483648 in *. change (2 ^ 32) with 4294967296 in *.
  rewrite andb_true_iff, negb_true_iff, Z.eqb_eq, Z.eqb_neq.
  destruct (Z.ltb_spec a 2147483648), (Z.ltb_spec b 2147483648);
    Z.div_mod_to_equations; lia.
Qed.

(** The overflow of a subtraction of two 32-bit values. *)
Lemma sub_overflow_signed a b :
  in_range32 a -> in_range32 b ->
  negb (sign_bit a =? sign_bit b) && negb (sign_bit a =? sign_bit (a - b))
    = true
  <-> ~ (- 2 ^ 31 <= signed32 a - signed32 b < 2 ^ 31).
Proof.
  intros Ha Hb. rewrite (sign_bit_range32 a Ha), (sign_bit_range32 b Hb).
  rewrite (sign_bit_div (a - b)). unfold signed32, in_range32 in *.
  change (2 ^ 31) with 2147483648 in *. change (2 ^ 32) with 4294967296 in *.
  rewrite andb_true_iff, !negb_true_iff, !Z.eqb_neq.
  destruct (Z.ltb_spec a 2147483648), (Z.ltb_spec b 2147483648);
    Z.div_mod_to_equations; lia.
Qed.

Ltac run_kind Hc Hk :=
  unfold execute_instruction;
  rewrite Hc, !(is_type_Some _ _ _ Hk); eval_eqb; reflexivity.

Ltac flags_nz :=
  match goal with
  | |- context [set_flags ?i] => destruct (set_flags i)
  end;
  [right; eexists; reflexivity | left; reflexivity].

(** The flag update of the moves, shifts, logical operations and [MUL]:
    none, or one that gives neither a carry nor an overflow. *)
Lemma exec_move_nz i s s' :
  exec_move i s = Ok s' ->
  cpsr s' = cpsr s \/ exists res, cpsr s' = update_flags (cpsr s) res None None.
Proof. unfold exec_move. intros H. inv_exec H. flags_nz. Qed.

Lemma exec_mul_nz i s s' :
  exec_mul i s = Ok s' ->
  cpsr s' = cpsr s \/ exists res, cpsr s' = update_flags (cpsr s) res None None.
Proof. unfold exec_mul. intros H. inv_exec H. flags_nz. Qed.

Lemma exec_logic_nz op i s s' :
  exec_logic op i s = Ok s' ->
  cpsr s' = cpsr s \/ exists res, cpsr s' = update_flags (cpsr s) res None None.
Proof. unfold exec_logic. intros H. inv_exec H. flags_nz. Qed.

Lemma nz_flag_step f f' :
  f' = f \/ (exists res, f' = update_flags f res None None) -> flag_step f f'.
Proof. intros [-> | [res ->]]; [left | right; eauto]; reflexivity. Qed.

Lemma exec_add_flag_step i s s' :
  exec_add i s = Ok s' -> flag_step (cpsr s) (cpsr s').
Proof.
  unfold exec_add. intros H. inv_exec H.
  destruct (set_flags i); [right; do 3 eexists; reflexivity | left; reflexivity].
Qed.

Lemma exec_sub_flag_step i s s' :
  exec_sub i s = Ok s' -> flag_step (cpsr s) (cpsr s').
Proof.
  unfold exec_sub. intros H. inv_exec H.
  destruct (set_flags i); [right; do 3 eexists; reflexivity | left; reflexivity].
Qed.

Lemma exec_cmp_flag_step i s s' :
  exec_cmp i s = Ok s' -> flag_step (cpsr s) (cpsr s').
Proof.
  unfold exec_cmp. intros H. inv_exec H. right. do 3 eexists. reflexivity.
Qed.

Lemma execute_flag_step i s s' r :
  execute_instruction i s = Ok (s', r) -> flag_step (cpsr s) (cpsr s').
Proof.
  unfold execute_instruction.
  destruct (negb (execute_conditionally i s)).
  { intros [<- _]%Ok_pair_inj. left; reflexivity. }
  repeat match goal with
  | |- (if is_type i ?n then _ else _) = _ -> _ =>
      destruct (is_type i n)
  end.
  all: try (intros [H ->]%silent_Ok).
  all: try (first [ apply nz_flag_step, (exec_move_nz i); exact H
                  | apply nz_flag_step, (exec_mul_nz i); exact H
                  | eapply nz_flag_step, (exec_logic_nz _ i); exact H
                  | apply (exec_add_flag_step i); exact H
                  | apply (exec_sub_flag_step i); exact H
                  | apply (exec_cmp_flag_step i); exact H ]).
  - intros [-> | [_ ->]]%exec_ldr_effect; left; reflexivity.
  - intros [_ ->]%exec_str_effect. left; reflexivity.
  - destruct (_ || _).
    + intros H. inv_bind H. apply Ok_pair_inj in H as [<- _].
      left; reflexivity.
    + intros [<- _]%Ok_pair_inj. left; reflexivity.
Qed.

(** X12: the flags stay well formed.  If N, Z, C and V are single bits
    and N and Z are not both set, the same holds after any instruction
    that returns, whatever the record: [_update_flags] stores only 0 or 1,
    and a result cannot be zero and have bit 31 set.  The flags of
    [ARMCpu()] satisfy it. *)
Theorem flags_stay_consistent i s s' r :
  execute_instruction i s = Ok (s', r) ->
  flags_consistent (cpsr s) -> flags_consistent (cpsr s').
Proof.
  intros He [Hbits Hnz].
  destruct (execute_flag_step i s s' r He) as [-> | (res & c & v & ->)].
  - split; assumption.
  - split; [apply update_flags_bits; exact Hbits
           | apply update_flags_not_N_and_Z].
Qed.

Lemma flags_stay_consistent_witness :
  exists i s',
    decode 0xE1500005 = Ok i /\
    execute_instruction i new_cpu = Ok (s', None) /\
    flags_consistent (cpsr new_cpu) /\ flags_consistent (cpsr s').
Proof.
  assert (flags_consistent (cpsr new_cpu)) as Hinit.
  { split; [|intros [Hn _]; discriminate Hn].
    repeat split; left; reflexivity. }
  eexists. eexists. split; [vm_compute; reflexivity|].
  assert (forall i s', execute_instruction i new_cpu = Ok (s', None) ->
            execute_instruction i new_cpu = Ok (s', None) /\
            flags_consistent (cpsr new_cpu) /\ flags_consistent (cpsr s'))
    as Hw.
  { intros i s' He. split; [exact He|]. split; [exact Hinit|].
    exact (flags_stay_consistent i new_cpu s' None He Hinit). }
  apply Hw. vm_compute; reflexivity.
Defined.

(** X13: moves, shifts, logical operations and [MUL] never touch C and
    V.  For a record of kind MOV, MUL, AND, ORR, LSL, LSR, ASR or ROR,
    with or without [set_flags], the carry and overflow flags after the
    execution are those before it. *)
Theorem logical_kinds_keep_carry_and_overflow i s s' r k :
  instruction_type i = Some k -> In k logical_kinds ->
  execute_instruction i s = Ok (s', r) ->
  C (cpsr s') = C (cpsr s) /\ V (cpsr s') = V (cpsr s).
Proof.
  intros Hk Hin He.
  assert (cpsr s' = cpsr s \/
          exists res, cpsr s' = update_flags (cpsr s) res None None)
    as [-> | [res ->]]; [|split; reflexivity ..].
  destruct (execute_conditionally i s) eqn:Hc.
  2: { rewrite (execute_skipped i s Hc) in He.
       apply Ok_pair_inj in He as [<- _]. left; reflexivity. }
  unfold logical_kinds in Hin. split_in.
  all: match type of He with
       | execute_instruction ?i ?s = _ =>
           let E := fresh "E" in
           eassert (execute_instruction i s = silent _) as E
             by (run_kind Hc Hk);
           rewrite E in He; apply silent_Ok in He as [He _]
       end.
  all: first [ exact (exec_move_nz _ _ _ He)
             | exact (exec_mul_nz _ _ _ He)
             | exact (exec_logic_nz _ _ _ _ He) ].
Qed.

Lemma logical_kinds_keep_carry_and_overflow_witness :
  exists i s',
    decode 0xE1B01200 = Ok i /\
    instruction_type i = Some "LSL"%string /\ In "LSL"%string logical_kinds /\
    execute_instruction i (with_r0 0xFFFFFFFF) = Ok (s', None) /\
    C (cpsr s') = C (cpsr (with_r0 0xFFFFFFFF)) /\
    V (cpsr s') = V (cpsr (with_r0 0xFFFFFFFF)).
Proof.
  eexists. eexists. split; [vm_compute; reflexivity|].
  split; [reflexivity|]. split; [solve_in|].
  assert (forall i s',
            instruction_type i = Some "LSL"%string ->
            execute_instruction i (with_r0 0xFFFFFFFF) = Ok (s', None) ->
            execute_instruction i (with_r0 0xFFFFFFFF) = Ok (s', None) /\
            C (cpsr s') = C (cpsr (with_r0 0xFFFFFFFF)) /\
            V (cpsr s') = V (cpsr (with_r0 0xFFFFFFFF))) as Hw.
  { intros i s' Hk He. split; [exact He|].
    apply (logical_kinds_keep_carry_and_overflow i _ s' None "LSL"%string Hk);
      [solve_in | exact He]. }
  apply Hw; [reflexivity | vm_compute; reflexivity].
Defined.

Lemma add_flags_correct f a b :
  in_range32 a -> in_range32 b ->
  add_flags_spec
    (update_flags f (a + b) (Some (0xFFFFFFFF <? a + b))
       (Some ((sign_bit a =? sign_bit b)
              && negb (sign_bit a =? sign_bit (a + b))))) a b.
Proof.
  intros Ha Hb. unfold add_flags_spec.
  split; [|split; [|split]].
  - cbn [update_flags C]. rewrite flag_of_bool_1, Z.ltb_lt. lia.
  - cbn [update_flags V]. rewrite flag_of_bool_1.
    apply add_overflow_signed; assumption.
  - apply update_flags_Z.
  - apply update_flags_N.
Qed.

Lemma sub_flags_correct f a b :
  in_range32 a -> in_range32 b ->
  sub_flags_spec (sub_flags f a b (a - b)) a b.
Proof.
  intros Ha Hb. unfold sub_flags_spec, sub_flags.
  split; [|split; [|split]].
  - cbn [update_flags C]. rewrite flag_of_bool_1, Z.leb_le. reflexivity.
  - cbn [update_flags V]. rewrite flag_of_bool_1.
    apply sub_overflow_signed; assumption.
  - rewrite update_flags_Z. unfold in_range32 in *.
    change (2 ^ 32) with 4294967296 in *. split.
    + intros Hz. Z.div_mod_to_equations. lia.
    + intros ->. rewrite Z.sub_diag. reflexivity.
  - apply update_flags_N.
Qed.

Lemma land_mask_mod v : Z.land v 0xFFFFFFFF = v mod 2 ^ 32.
Proof. change 0xFFFFFFFF with (Z.ones 32). apply Z.land_ones. lia. Qed.

Lemma lookup_in_range32 (s : ARMCpu) n a :
  valid_state s -> registers s !! n = Some a -> in_range32 a.
Proof.
  intros Hs Ha. eapply Forall_forall; [exact (vs_range s Hs)|].
  eapply list_elem_of_lookup_2; exact Ha.
Qed.

Lemma index_of_lookup (s : ARMCpu) r a :
  valid_state s -> 0 <= r < 16 -> registers s !! Z.to_nat r = Some a ->
  Py.index (registers s) r = Ok a.
Proof.
  intros Hs Hr Ha.
  destruct (index_in_range (registers s) r) as (x & Hx & Hl);
    [rewrite (vs_length s Hs); lia|].
  rewrite Hx. congruence.
Qed.

(** X14: [ADD] and [ADDEQ].  A decoded record of either kind that passes
    the condition gate writes [(Rn + operand2) mod 2^32] into [Rd] and
    changes no other register and no memory, whatever the width of
    operand2.  Without [set_flags] the flags are untouched; with it, and
    for a 32-bit operand2, C is the carry out of bit 31, V is the signed
    overflow, Z says that the 32-bit result is zero and N is its bit 31. *)
Theorem add_semantics w i s k rd rn a b :
  decode w = Ok i -> valid_state s ->
  instruction_type i = Some k -> In k ["ADD"; "ADDEQ"]%string ->
  execute_conditionally i s = true ->
  operands i !! "rd"%string = Some rd ->
  operands i !! "rn"%string = Some rn ->
  registers s !! Z.to_nat rn = Some a ->
  get_operand2 i (registers s) = Ok b ->
  exists s',
    execute_instruction i s = Ok (s', None) /\
    registers s' = <[Z.to_nat rd := (a + b) mod 2 ^ 32]> (registers s) /\
    memory s' = memory s /\
    (set_flags i = false -> cpsr s' = cpsr s) /\
    (set_flags i = true -> in_range32 b -> add_flags_spec (cpsr s') a b).
Proof.
  intros Hi Hs Hk Hin Hc Hrd Hrn Ha Hb.
  pose proof (decode_wf w i Hi) as Hwf.
  pose proof (wf_regs i Hwf "rd"%string rd ltac:(solve_in) Hrd) as Hrdr.
  pose proof (wf_regs i Hwf "rn"%string rn ltac:(solve_in) Hrn) as Hrnr.
  pose proof (lookup_in_range32 s _ a Hs Ha) as Har.
  assert (execute_instruction i s = silent (exec_add i s)) as ->
    by (split_in; run_kind Hc Hk).
  unfold exec_add.
  rewrite (proj2 (getitem_Ok _ _ _) Hrd), (proj2 (getitem_Ok _ _ _) Hrn).
  cbn [Py.bind]. rewrite Hb. cbn [Py.bind].
  rewrite (index_of_lookup s rn a Hs Hrnr Ha). cbn [Py.bind].
  rewrite setitem_in_range by (rewrite (vs_length s Hs); lia).
  cbn [Py.bind]. unfold silent. cbn [Py.bind].
  eexists. split; [reflexivity|]. rewrite land_mask_mod.
  destruct (set_flags i);
    cbn [registers memory cpsr with_cpsr with_registers];
    (split; [reflexivity|]; split; [reflexivity|]; split; intros Hsf;
     try discriminate Hsf; try reflexivity).
  intros Hbr. apply add_flags_correct; assumption.
Qed.

Lemma add_semantics_witness :
  exists i s',
    decode 0xE0812200 = Ok i /\
    execute_instruction i (with_r0 0x10000000) = Ok (s', None) /\
    registers s'
      = <[Z.to_nat 2 := (0 + 0x100000000) mod 2 ^ 32]>
          (registers (with_r0 0x10000000)) /\
    memory s' = memory (with_r0 0x10000000) /\
    (set_flags i = false -> cpsr s' = cpsr (with_r0 0x10000000)) /\
    (set_flags i = true -> in_range32 0x100000000 ->
     add_flags_spec (cpsr s') 0 0x100000000).
Proof.
  assert (exists i, decode 0xE0812200 = Ok i /\
            exists s',
              execute_instruction i (with_r0 0x10000000) = Ok (s', None) /\
              registers s'
                = <[Z.to_nat 2 := (0 + 0x100000000) mod 2 ^ 32]>
                    (registers (with_r0 0x10000000)) /\
              memory s' = memory (with_r0 0x10000000) /\
              (set_flags i = false -> cpsr s' = cpsr (with_r0 0x10000000)) /\
              (set_flags i = true -> in_range32 0x100000000 ->
               add_flags_spec (cpsr s') 0 0x100000000))
    as (i & Hi & s' & H).
  { eexists. split; [vm_compute; reflexivity|].
    apply (add_semantics 0xE0812200 _ (with_r0 0x10000000) "ADD"%string 2 1);
      [ vm_compute; reflexivity | eval_valid | reflexivity | solve_in
      | reflexivity | reflexivity | reflexivity | reflexivity
      | reflexivity ]. }
  exists i, s'. split; [exact Hi | exact H].
Defined.

(** X15: [SUB] and [SUBNE].  A decoded record of either kind that passes
    the condition gate writes [(Rn - operand2) mod 2^32] into [Rd] and
    changes no other register and no memory, whatever the width of
    operand2.  Without [set_flags] the flags are untouched; with it, and
    for a 32-bit operand2, C says that there was no borrow
    ([Rn >= operand2]), V is the signed overflow, Z says that the operands
    are equal and N is bit 31 of the result. *)
Theorem sub_semantics w i s k rd rn a b :
  decode w = Ok i -> valid_state s ->
  instruction_type i = Some k -> In k ["SUB"; "SUBNE"]%string ->
  execute_conditionally i s = true ->
  operands i !! "rd"%string = Some rd ->
  operands i !! "rn"%string = Some rn ->
  registers s !! Z.to_nat rn = Some a ->
  get_operand2 i (registers s) = Ok b ->
  exists s',
    execute_instruction i s = Ok (s', None) /\
    registers s' = <[Z.to_nat rd := (a - b) mod 2 ^ 32]> (registers s) /\
    memory s' = memory s /\
    (set_flags i = false -> cpsr s' = cpsr s) /\
    (set_flags i = true -> in_range32 b -> sub_flags_spec (cpsr s') a b).
Proof.
  intros Hi Hs Hk Hin Hc Hrd Hrn Ha Hb.
  pose proof (decode_wf w i Hi) as Hwf.
  pose proof (wf_regs i Hwf "rd"%string rd ltac:(solve_in) Hrd) as Hrdr.
  pose proof (wf_regs i Hwf "rn"%string rn ltac:(solve_in) Hrn) as Hrnr.
  pose proof (lookup_in_range32 s _ a Hs Ha) as Har.
  assert (execute_instruction i s = silent (exec_sub i s)) as ->
    by (split_in; run_kind Hc Hk).
  unfold exec_sub.
  rewrite (proj2 (getitem_Ok _ _ _) Hrd), (proj2 (getitem_Ok _ _ _) Hrn).
  cbn [Py.bind]. rewrite Hb. cbn [Py.bind].
  rewrite (index_of_lookup s rn a Hs Hrnr Ha). cbn [Py.bind].
  rewrite setitem_in_range by (rewrite (vs_length s Hs); lia).
  cbn [Py.bind]. unfold silent. cbn [Py.bind].
  eexists. split; [reflexivity|]. rewrite land_mask_mod.
  destruct (set_flags i);
    cbn [registers memory cpsr with_cpsr with_registers];
    (split; [reflexivity|]; split; [reflexivity|]; split; intros Hsf;
     try discriminate Hsf; try reflexivity).
  intros Hbr. apply sub_flags_correct; assumption.
Qed.

Lemma sub_semantics_witness :
  exists i s',
    decode 0xE0412200 = Ok i /\
    execute_instruction i (with_r0 0x10000000) = Ok (s', None) /\
    registers s'
      = <[Z.to_nat 2 := (0 - 0x100000000) mod 2 ^ 32]>
          (registers (with_r0 0x10000000)) /\
    memory s' = memory (with_r0 0x10000000) /\
    (set_flags i = false -> cpsr s' = cpsr (with_r0 0x10000000)) /\
    (set_flags i = true -> in_range32 0x100000000 ->
     sub_flags_spec (cpsr s') 0 0x100000000).
Proof.
  assert (exists i, decode 0xE0412200 = Ok i /\
            exists s',
              execute_instruction i (with_r0 0x10000000) = Ok (s', None) /\
              registers s'
                = <[Z.to_nat 2 := (0 - 0x100000000) mod 2 ^ 32]>
                    (registers (with_r0 0x10000000)) /\
              memory s' = memory (with_r0 0x10000000) /\
              (set_flags i = false -> cpsr s' = cpsr (with_r0 0x10000000)) /\
              (set_flags i = true -> in_range32 0x100000000 ->
               sub_flags_spec (cpsr s') 0 0x100000000))
    as (i & Hi & s' & H).
  { eexists. split; [vm_compute; reflexivity|].
    apply (sub_semantics 0xE0412200 _ (with_r0 0x10000000) "SUB"%string 2 1);
      [ vm_compute; reflexivity | eval_valid | reflexivity | solve_in
      | reflexivity | reflexivity | reflexivity | reflexivity
      | reflexivity ]. }
  exists i, s'. split; [exact Hi | exact H].
Defined.

(** X16: [CMP].  A decoded [CMP] record that passes the condition gate
    changes no register and no memory, whatever the width of operand2, and
    always sets the flags: they are those of the subtraction
    [Rn - operand2], which for a 32-bit operand2 means that C says
    [Rn >= operand2], Z that the two are equal, V is the signed overflow
    and N is bit 31 of the difference. *)
Theorem cmp_semantics w i s rn a b :
  decode w = Ok i -> valid_state s ->
  instruction_type i = Some "CMP"%string ->
  execute_conditionally i s = true ->
  operands i !! "rn"%string = Some rn ->
  registers s !! Z.to_nat rn = Some a ->
  get_operand2 i (registers s) = Ok b ->
  exists s',
    execute_instruction i s = Ok (s', None) /\
    registers s' = registers s /\ memory s' = memory s /\
    cpsr s' = sub_flags (cpsr s) a b (a - b) /\
    (in_range32 b -> sub_flags_spec (cpsr s') a b).
Proof.
  intros Hi Hs Hk Hc Hrn Ha Hb.
  pose proof (decode_wf w i Hi) as Hwf.
  pose proof (wf_regs i Hwf "rn"%string rn ltac:(solve_in) Hrn) as Hrnr.
  pose proof (lookup_in_range32 s _ a Hs Ha) as Har.
  assert (execute_instruction i s = silent (exec_cmp i s)) as ->
    by (run_kind Hc Hk).
  unfold exec_cmp.
  rewrite (proj2 (getitem_Ok _ _ _) Hrn).
  cbn [Py.bind]. rewrite Hb. cbn [Py.bind].
  rewrite (index_of_lookup s rn a Hs Hrnr Ha). cbn [Py.bind].
  unfold silent. cbn [Py.bind].
  eexists. split; [reflexivity|].
  cbn [registers memory cpsr with_cpsr].
  split; [reflexivity|]. split; [reflexivity|]. split; [reflexivity|].
  intros Hbr. apply sub_flags_correct; assumption.
Qed.

Lemma cmp_semantics_witness :
  exists i s',
    decode 0xE1510200 = Ok i /\
    execute_instruction i (with_r0 0x10000000) = Ok (s', None) /\
    registers s' = registers (with_r0 0x10000000) /\
    memory s' = memory (with_r0 0x10000000) /\
    cpsr s' = sub_flags (cpsr (with_r0 0x10000000)) 0 0x100000000
                (0 - 0x100000000) /\
    (in_range32 0x100000000 -> sub_flags_spec (cpsr s') 0 0x100000000).
Proof.
  assert (exists i, decode 0xE1510200 = Ok i /\
            exists s',
              execute_instruction i (with_r0 0x10000000) = Ok (s', None) /\
              registers s' = registers (with_r0 0x10000000) /\
              memory s' = memory (with_r0 0x10000000) /\
              cpsr s' = sub_flags (cpsr (with_r0 0x10000000)) 0 0x100000000
                          (0 - 0x100000000) /\
              (in_range32 0x100000000 ->
               sub_flags_spec (cpsr s') 0 0x100000000))
    as (i & Hi & s' & H).
  { eexists. split; [vm_compute; reflexivity|].
    apply (cmp_semantics 0xE1510200 _ (with_r0 0x10000000) 1);
      [ vm_compute; reflexivity | eval_valid | reflexivity
      | reflexivity | reflexivity | reflexivity | reflexivity ]. }
  exists i, s'. split; [exact Hi | exact H].
Defined.

(* ================================================================= *)
(** ** The barrel shifter *)

Lemma land_bit31 v :
  Z.land v 0x80000000 = if Z.testbit v 31 then 0x80000000 else 0.
Proof.
  change 0x80000000 with (2 ^ 31). apply Z.bits_inj'. intros n Hn.
  rewrite Z.land_spec, Z.pow2_bits_eqb by lia.
  destruct (Z.eqb_spec 31 n) as [<- | Hne].
  - rewrite andb_true_r. destruct (Z.testbit v 31) eqn:E.
    + symmetry. apply Z.pow2_bits_true. lia.
    + symmetry. apply Z.bits_0.
  - rewrite andb_false_r. destruct (Z.testbit v 31).
    + symmetry. apply Z.pow2_bits_false. lia.
    + symmetry. apply Z.bits_0.
Qed.

Lemma testbit31_range32 v :
  in_range32 v -> Z.testbit v 31 = negb (v <? 2 ^ 31).
Proof.
  unfold in_range32. intros Hv.
  destruct (Z.ltb_spec v (2 ^ 31)) as [Hlt | Hge]; cbn [negb].
  - apply (testbit_high v 31 31); lia.
  - apply Z.testbit_true; [lia|].
    change (2 ^ 31) with 2147483648 in *.
    change (2 ^ 32) with 4294967296 in *. Z.div_mod_to_equations. lia.
Qed.

(** The signed detour of the [ASR] branch: [struct.pack('<I', ...)] then
    [struct.unpack('<i', ...)]. *)
Lemma signed_detour v :
  in_range32 v -> 2 ^ 31 <= v ->
  (bs <- Struct.pack_le_u32 (Z.land v 0xFFFFFFFF) ;; Struct.unpack_le_i32 bs)
  = Ok (signed32 v).
Proof.
  intros Hv Hhigh. rewrite (land_mask_id v Hv).
  destruct (pack_le_u32_Ok v Hv) as (b0 & b1 & b2 & b3 & Hp).
  rewrite Hp. cbn [Py.bind]. unfold Struct.unpack_le_i32.
  rewrite (unpack_pack_le_u32 v _ Hp). cbn [Py.bind]. reflexivity.
Qed.

(** The four shifts of the resolver on a 32-bit value, for an amount in
    0..31. *)
Lemma apply_shift_meaning v n :
  in_range32 v -> 0 <= n < 32 ->
  apply_shift 0 v n = Ok (v * 2 ^ n) /\
  apply_shift 1 v n = Ok (v / 2 ^ n) /\
  apply_shift 2 v n = Ok ((signed32 v / 2 ^ n) mod 2 ^ 32) /\
  apply_shift 3 v n = Ok (ror32 v n).
Proof.
  intros Hv Hn.
  assert (0 < 2 ^ n) as Hpow by (apply Z.pow_pos_nonneg; lia).
  split; [|split; [|split]].
  - unfold apply_shift, Py.lshift. change (0 =? 0) with true. cbv iota.
    destruct (Z.ltb_spec n 0); [lia|]. rewrite Z.shiftl_mul_pow2 by lia.
    reflexivity.
  - unfold apply_shift, Py.rshift. change (1 =? 0) with false.
    change (1 =? 1) with true. cbv iota.
    destruct (Z.ltb_spec n 0); [lia|]. rewrite Z.shiftr_div_pow2 by lia.
    reflexivity.
  - unfold apply_shift. change (2 =? 0) with false.
    change (2 =? 1) with false. change (2 =? 2) with true. cbv iota.
    unfold Py.truthy. rewrite land_bit31, (testbit31_range32 v Hv).
    unfold signed32.
    destruct (Z.ltb_spec v (2 ^ 31)) as [Hlt | Hge]; cbn [negb]; cbv iota.
    + change (0 =? 0) with true. cbn [negb]. unfold Py.rshift.
      destruct (Z.ltb_spec n 0); [lia|].
      rewrite Z.shiftr_div_pow2 by lia. f_equal. symmetry.
      apply Z.mod_small. unfold in_range32 in Hv. split.
      * apply Z.div_pos; lia.
      * apply Z.div_lt_upper_bound; nia.
    + change (2147483648 =? 0) with false. cbn [negb].
      pose proof (signed_detour v Hv Hge) as Hd.
      destruct (Struct.pack_le_u32 (Z.land v 4294967295)) as [bs|e];
        [|discriminate Hd].
      cbn [Py.bind] in Hd |- *. rewrite Hd. cbn [Py.bind]. unfold Py.rshift.
      destruct (Z.ltb_spec n 0); [lia|]. cbn [Py.bind].
      rewrite land_mask_mod, Z.shiftr_div_pow2 by lia.
      unfold signed32. destruct (Z.ltb_spec v (2 ^ 31)); [lia|]. reflexivity.
  - apply apply_shift_ror; assumption.
Qed.

(** X17: what the four shifts compute.  For a 32-bit register value [v]
    and an amount [n] in 0..31 the resolver's shift never raises, and
    [LSL] gives [v * 2^n] (not reduced modulo 2^32), [LSR] gives
    [v / 2^n], [ASR] gives the floor of the signed value of [v] divided by
    [2^n], as a 32-bit pattern, and [ROR] gives the rotation of [v]. *)
Theorem shifts_meaning v n :
  in_range32 v -> 0 <= n < 32 ->
  apply_shift 0 v n = Ok (v * 2 ^ n) /\
  apply_shift 1 v n = Ok (v / 2 ^ n) /\
  apply_shift 2 v n = Ok ((signed32 v / 2 ^ n) mod 2 ^ 32) /\
  apply_shift 3 v n = Ok (ror32 v n).
Proof. exact (apply_shift_meaning v n). Qed.

Lemma shifts_meaning_witness :
  apply_shift 0 0x80000000 4 = Ok (0x80000000 * 2 ^ 4) /\
  apply_shift 1 0x80000000 4 = Ok (0x80000000 / 2 ^ 4) /\
  apply_shift 2 0x80000000 4 = Ok ((signed32 0x80000000 / 2 ^ 4) mod 2 ^ 32) /\
  apply_shift 3 0x80000000 4 = Ok (ror32 0x80000000 4).
Proof.
  apply (shifts_meaning 0x80000000 4); [unfold in_range32; lia | lia].
Defined.

(* ================================================================= *)
(** ** The range of the second operand *)

Lemma apply_shift_range shift_type v n b :
  in_range32 v -> 0 <= n < 32 -> apply_shift shift_type v n = Ok b ->
  0 <= b < 2 ^ 63 /\ (shift_type <> 0 -> in_range32 b).
Proof.
  intros Hv Hn Hb.
  destruct (apply_shift_meaning v n Hv Hn) as (H0 & H1 & H2 & H3).
  assert (0 < 2 ^ n) as Hpow by (apply Z.pow_pos_nonneg; lia).
  assert (2 ^ n <= 2 ^ 31) as Hle by (apply Z.pow_le_mono_r; lia).
  assert (forall x, in_range32 x -> 0 <= x < 2 ^ 63) as Hwide
    by (unfold in_range32; lia).
  unfold in_range32 in Hv.
  destruct (Z.eq_dec shift_type 0) as [-> | N0].
  { rewrite H0 in Hb. apply Ok_inj in Hb. subst b.
    split; [nia | intros Hne; contradiction]. }
  assert (in_range32 b) as Hr; [|split; [apply Hwide; exact Hr | auto]].
  destruct (Z.eq_dec shift_type 1) as [-> | N1].
  { rewrite H1 in Hb. apply Ok_inj in Hb. subst b. unfold in_range32.
    split; [apply Z.div_pos; lia | apply Z.div_lt_upper_bound; nia]. }
  destruct (Z.eq_dec shift_type 2) as [-> | N2].
  { rewrite H2 in Hb. apply Ok_inj in Hb. subst b. unfold in_range32.
    apply Z.mod_pos_bound. lia. }
  destruct (Z.eq_dec shift_type 3) as [-> | N3].
  { rewrite H3 in Hb. apply Ok_inj in Hb. subst b.
    apply ror32_range; lia. }
  unfold apply_shift in Hb.
  apply Z.eqb_neq in N0, N1, N2, N3. rewrite N0, N1, N2, N3 in Hb.
  apply Ok_inj in Hb. subst b. exact Hv.
Qed.

Lemma get_operand2_range i s b :
  register_operands i -> fields_in_range i -> valid_state s ->
  get_operand2 i (registers s) = Ok b ->
  0 <= b < 2 ^ 63 /\
  (operands i !! "shift_type"%string <> Some 0 -> in_range32 b).
Proof.
  intros Hregs (_ & _ & _ & _ & Himm) Hs Hb.
  assert (forall x, in_range32 x -> 0 <= x < 2 ^ 63) as Hwide
    by (unfold in_range32; lia).
  unfold get_operand2 in Hb.
  destruct (operands i !! "operand2"%string) as [v|] eqn:Hop.
  { apply Ok_inj in Hb. subst b. specialize (Himm v eq_refl). auto. }
  destruct (operands i !! "rm"%string) as [rm|] eqn:Hrm.
  2: { apply Ok_inj in Hb. subst b.
       split; [lia | intros _; unfold in_range32; lia]. }
  inv_bind Hb.
  assert (in_range32 a) as Ha.
  { eapply Forall_forall; [exact (vs_range s Hs)|].
    eapply index_Ok; exact E. }
  destruct (operands i !! "shift_type"%string) as [shift_type|] eqn:Hst.
  2: { apply Ok_inj in Hb. subst b. auto. }
  inv_bind Hb.
  pose proof (actual_shift_amount_range _ _ _ E0) as Hn.
  destruct (apply_shift_range shift_type a a0 b Ha Hn Hb) as [Hw Hr].
  split; [exact Hw|]. intros Hne. apply Hr. congruence.
Qed.

(** X18: the second operand is never negative and has fewer than 64 bits.
    For a decoded record and a register file of sixteen 32-bit values,
    [_get_operand2] returns, without raising, a value in [0, 2^63); the
    value is a 32-bit one unless the record asks for a left shift
    ([shift_type] 0). *)
Theorem operand2_range w i s :
  decode w = Ok i -> valid_state s ->
  exists b,
    get_operand2 i (registers s) = Ok b /\
    0 <= b < 2 ^ 63 /\
    (operands i !! "shift_type"%string <> Some 0 -> in_range32 b).
Proof.
  intros Hi Hs.
  pose proof (decode_wf w i Hi) as Hwf.
  pose proof (holds_elim _ _ _ (decode_holds_ranges w) Hi) as Hfr.
  destruct (get_operand2_total i (registers s) (wf_regs i Hwf)
              (vs_length s Hs)) as [b Hb].
  exists b. split; [exact Hb|].
  exact (get_operand2_range i s b (wf_regs i Hwf) Hfr Hs Hb).
Qed.

Lemma operand2_range_witness :
  exists i b,
    decode 0xE1A01160 = Ok i /\
    get_operand2 i (registers (with_r0 0x80000000)) = Ok b /\
    0 <= b < 2 ^ 63 /\
    (operands i !! "shift_type"%string <> Some 0 -> in_range32 b).
Proof.
  assert (exists i, decode 0xE1A01160 = Ok i /\
            exists b,
              get_operand2 i (registers (with_r0 0x80000000)) = Ok b /\
              0 <= b < 2 ^ 63 /\
              (operands i !! "shift_type"%string <> Some 0 -> in_range32 b))
    as (i & Hi & b & H).
  { eexists. split; [vm_compute; reflexivity|].
    apply (operand2_range 0xE1A01160 _ (with_r0 0x80000000));
      [vm_compute; reflexivity | eval_valid]. }
  exists i, b. split; [exact Hi | exact H].
Defined.

(* ================================================================= *)
(** ** Branches and unknown kinds *)

(** X19: branches do not branch.  Executing a decoded record of kind B,
    BL or one of the UNKNOWN kinds never raises and returns the very state
    it was given, whatever that state is: no register (the program counter
    included), flag or memory byte changes, and a line is printed. *)
Theorem inert_kinds_change_nothing w i s k :
  decode w = Ok i -> instruction_type i = Some k -> In k inert_kinds ->
  exists rep, execute_instruction i s = Ok (s, Some rep).
Proof.
  intros Hi Hk Hin. pose proof (decode_wf w i Hi) as Hwf.
  destruct (execute_conditionally i s) eqn:Hc.
  2: { eexists. exact (execute_skipped i s Hc). }
  pose proof (wf_keys i Hwf k Hk) as Hkeys.
  unfold inert_kinds in Hin. split_in.
  1, 2: apply Forall_cons_1 in Hkeys as [[offset Hoff] _];
        exists (Branch (instruction_type i) offset);
        unfold execute_instruction;
        rewrite Hc, !(is_type_Some _ _ _ Hk); eval_eqb;
        rewrite (proj2 (getitem_Ok _ _ _) Hoff); reflexivity.
  all: exists (UnknownType (instruction_type i)); run_kind Hc Hk.
Qed.

Lemma inert_kinds_change_nothing_witness :
  exists i rep,
    decode 0xEA000010 = Ok i /\
    instruction_type i = Some "B"%string /\ In "B"%string inert_kinds /\
    execute_instruction i (with_r0 7) = Ok (with_r0 7, Some rep).
Proof.
  assert (exists i, decode 0xEA000010 = Ok i /\
            instruction_type i = Some "B"%string /\
            exists rep,
              execute_instruction i (with_r0 7) = Ok (with_r0 7, Some rep))
    as (i & Hi & Hk & rep & H).
  { eexists. split; [vm_compute; reflexivity|]. split; [reflexivity|].
    apply (inert_kinds_change_nothing 0xEA000010 _ (with_r0 7) "B"%string);
      [vm_compute; reflexivity | reflexivity | solve_in]. }
  exists i, rep. split; [exact Hi|]. split; [exact Hk|].
  split; [solve_in | exact H].
Defined.

(* ================================================================= *)
(** ** The register frame *)

(** X20: an instruction changes at most one register.  Whenever a decoded
    record is executed, the register file keeps its length and every
    register other than the record's [rd] keeps its value, in any state;
    a record without [rd] (CMP, B, BL, the UNKNOWN kinds) changes none. *)
Theorem at_most_one_register_changes w i s s' r :
  decode w = Ok i -> execute_instruction i s = Ok (s', r) ->
  length (registers s') = length (registers s) /\
  forall j : nat,
    operands i !! "rd"%string <> Some (Z.of_nat j) ->
    registers s' !! j = registers s !! j.
Proof.
  intros Hi He. pose proof (decode_wf w i Hi) as Hwf.
  destruct (execute_effect i s s' r He)
    as [-> | k Hk Hw (rd & v & Hrd & _ & Hset & _) | _ -> _ | _ -> _];
    try (split; [reflexivity | intros; reflexivity]).
  pose proof (wf_regs i Hwf "rd"%string rd ltac:(solve_in) Hrd) as Hrange.
  apply setitem_Ok in Hset as (n & -> & Hn).
  destruct (Z.ltb_spec rd 0); [lia|].
  split; [apply length_insert|].
  intros j Hj. apply list_lookup_insert_ne.
  intros ->. apply Hj. rewrite Hrd, Hn. reflexivity.
Qed.

Lemma at_most_one_register_changes_witness :
  exists i s',
    decode 0xE3A01007 = Ok i /\
    execute_instruction i (with_r0 9) = Ok (s', None) /\
    length (registers s') = length (registers (with_r0 9)) /\
    forall j : nat,
      operands i !! "rd"%string <> Some (Z.of_nat j) ->
      registers s' !! j = registers (with_r0 9) !! j.
Proof.
  eexists. eexists. split; [vm_compute; reflexivity|].
  assert (forall i s',
            decode 0xE3A01007 = Ok i ->
            execute_instruction i (with_r0 9) = Ok (s', None) ->
            execute_instruction i (with_r0 9) = Ok (s', None) /\
            length (registers s') = length (registers (with_r0 9)) /\
            forall j : nat,
              operands i !! "rd"%string <> Some (Z.of_nat j) ->
              registers s' !! j = registers (with_r0 9) !! j) as Hw.
  { intros i s' Hi He. split; [exact He|].
    exact (at_most_one_register_changes 0xE3A01007 i (with_r0 9) s' None
             Hi He). }
  apply Hw; vm_compute; reflexivity.
Defined.

(* ================================================================= *)
(** ** Moves, logical operations and multiplication *)

Lemma update_flags_logic f res :
  logic_flags_spec f (update_flags f res None None) res.
Proof.
  split; [apply update_flags_Z|]. split; [apply update_flags_N|].
  split; reflexivity.
Qed.

(** X21: [MOV] and the four shift kinds.  A decoded record of kind MOV,
    LSL, LSR, ASR or ROR that passes the condition gate writes
    [operand2 mod 2^32] into [Rd] and changes no other register and no
    memory.  Without [set_flags] the flags are untouched; with it Z says
    that the 32-bit result is zero, N is its bit 31, and C and V keep
    their values. *)
Theorem move_semantics w i s k rd b :
  decode w = Ok i -> valid_state s ->
  instruction_type i = Some k ->
  In k ["MOV"; "LSL"; "LSR"; "ASR"; "ROR"]%string ->
  execute_conditionally i s = true ->
  operands i !! "rd"%string = Some rd ->
  get_operand2 i (registers s) = Ok b ->
  exists s',
    execute_instruction i s = Ok (s', None) /\
    registers s' = <[Z.to_nat rd := b mod 2 ^ 32]> (registers s) /\
    memory s' = memory s /\
    (set_flags i = false -> cpsr s' = cpsr s) /\
    (set_flags i = true -> logic_flags_spec (cpsr s) (cpsr s') b).
Proof.
  intros Hi Hs Hk Hin Hc Hrd Hb.
  pose proof (decode_wf w i Hi) as Hwf.
  pose proof (wf_regs i Hwf "rd"%string rd ltac:(solve_in) Hrd) as Hrdr.
  assert (execute_instruction i s = silent (exec_move i s)) as ->
    by (split_in; run_kind Hc Hk).
  unfold exec_move.
  rewrite (proj2 (getitem_Ok _ _ _) Hrd). cbn [Py.bind].
  rewrite Hb. cbn [Py.bind].
  rewrite setitem_in_range by (rewrite (vs_length s Hs); lia).
  cbn [Py.bind]. unfold silent. cbn [Py.bind].
  eexists. split; [reflexivity|]. rewrite land_mask_mod.
  destruct (set_flags i);
    cbn [registers memory cpsr with_cpsr with_registers];
    (split; [reflexivity|]; split; [reflexivity|]; split; intros Hsf;
     try discriminate Hsf; try reflexivity).
  apply update_flags_logic.
Qed.

Lemma move_semantics_witness :
  exists i s',
    decode 0xE1B01F80 = Ok i /\
    execute_instruction i (with_r0 3) = Ok (s', None) /\
    registers s' = <[Z.to_nat 1 := 0x180000000 mod 2 ^ 32]>
                     (registers (with_r0 3)) /\
    memory s' = memory (with_r0 3) /\
    (set_flags i = false -> cpsr s' = cpsr (with_r0 3)) /\
    (set_flags i = true ->
     logic_flags_spec (cpsr (with_r0 3)) (cpsr s') 0x180000000).
Proof.
  assert (exists i, decode 0xE1B01F80 = Ok i /\
            exists s',
              execute_instruction i (with_r0 3) = Ok (s', None) /\
              registers s' = <[Z.to_nat 1 := 0x180000000 mod 2 ^ 32]>
                               (registers (with_r0 3)) /\
              memory s' = memory (with_r0 3) /\
              (set_flags i = false -> cpsr s' = cpsr (with_r0 3)) /\
              (set_flags i = true ->
               logic_flags_spec (cpsr (with_r0 3)) (cpsr s') 0x180000000))
    as (i & Hi & s' & H).
  { eexists. split; [vm_compute; reflexivity|].
    apply (move_semantics 0xE1B01F80 _ (with_r0 3) "LSL"%string 1
             0x180000000);
      [ vm_compute; reflexivity | eval_valid | reflexivity | solve_in
      | reflexivity | reflexivity | reflexivity ]. }
  exists i, s'. split; [exact Hi | exact H].
Defined.

(** X22: [AND] and [ORR].  A decoded record of either kind that passes
    the condition gate writes [(Rn & operand2) mod 2^32], respectively
    [(Rn | operand2) mod 2^32], into [Rd] and changes no other register
    and no memory.  Without [set_flags] the flags are untouched; with it
    Z and N describe the result, and C and V keep their values. *)
Theorem logic_semantics w i s k rd rn a b :
  decode w = Ok i -> valid_state s ->
  instruction_type i = Some k -> In k ["AND"; "ORR"]%string ->
  execute_conditionally i s = true ->
  operands i !! "rd"%string = Some rd ->
  operands i !! "rn"%string = Some rn ->
  registers s !! Z.to_nat rn = Some a ->
  get_operand2 i (registers s) = Ok b ->
  exists s',
    execute_instruction i s = Ok (s', None) /\
    registers s'
      = <[Z.to_nat rd := logic_op k a b mod 2 ^ 32]> (registers s) /\
    memory s' = memory s /\
    (set_flags i = false -> cpsr s' = cpsr s) /\
    (set_flags i = true ->
     logic_flags_spec (cpsr s) (cpsr s') (logic_op k a b)).
Proof.
  intros Hi Hs Hk Hin Hc Hrd Hrn Ha Hb.
  pose proof (decode_wf w i Hi) as Hwf.
  pose proof (wf_regs i Hwf "rd"%string rd ltac:(solve_in) Hrd) as Hrdr.
  pose proof (wf_regs i Hwf "rn"%string rn ltac:(solve_in) Hrn) as Hrnr.
  assert (execute_instruction i s = silent (exec_logic (logic_op k) i s))
    as -> by (split_in; run_kind Hc Hk).
  unfold exec_logic.
  rewrite (proj2 (getitem_Ok _ _ _) Hrd), (proj2 (getitem_Ok _ _ _) Hrn).
  cbn [Py.bind]. rewrite Hb. cbn [Py.bind].
  rewrite (index_of_lookup s rn a Hs Hrnr Ha). cbn [Py.bind].
  rewrite setitem_in_range by (rewrite (vs_length s Hs); lia).
  cbn [Py.bind]. unfold silent. cbn [Py.bind].
  eexists. split; [reflexivity|]. rewrite land_mask_mod.
  destruct (set_flags i);
    cbn [registers memory cpsr with_cpsr with_registers];
    (split; [reflexivity|]; split; [reflexivity|]; split; intros Hsf;
     try discriminate Hsf; try reflexivity).
  apply update_flags_logic.
Qed.

Lemma logic_semantics_witness :
  exists i s',
    decode 0xE3801CFF = Ok i /\
    execute_instruction i (with_r0 0xF0) = Ok (s', None) /\
    registers s'
      = <[Z.to_nat 1 := logic_op "ORR" 0xF0 0xFF00 mod 2 ^ 32]>
          (registers (with_r0 0xF0)).
Proof.
  assert (exists i, decode 0xE3801CFF = Ok i /\
            exists s',
              execute_instruction i (with_r0 0xF0) = Ok (s', None) /\
              registers s'
                = <[Z.to_nat 1 := logic_op "ORR" 0xF0 0xFF00 mod 2 ^ 32]>
                    (registers (with_r0 0xF0)) /\
              memory s' = memory (with_r0 0xF0) /\
              (set_flags i = false -> cpsr s' = cpsr (with_r0 0xF0)) /\
              (set_flags i = true ->
               logic_flags_spec (cpsr (with_r0 0xF0)) (cpsr s')
                 (logic_op "ORR" 0xF0 0xFF00)))
    as (i & Hi & s' & He & Hr & _).
  { eexists. split; [vm_compute; reflexivity|].
    apply (logic_semantics 0xE3801CFF _ (with_r0 0xF0) "ORR"%string 1 0
             0xF0 0xFF00);
      [ vm_compute; reflexivity | eval_valid | reflexivity | solve_in
      | reflexivity | reflexivity | reflexivity | reflexivity
      | reflexivity ]. }
  exists i, s'. split; [exact Hi|]. split; [exact He | exact Hr].
Defined.

(** X23: [MUL].  A decoded [MUL] record that passes the condition gate
    writes [(Rm * Rs) mod 2^32] into [Rd] and changes no other register
    and no memory.  Without [set_flags] the flags are untouched; with it
    Z and N describe the 32-bit product, and C and V keep their values. *)
Theorem mul_semantics w i s rd rm rs a b :
  decode w = Ok i -> valid_state s ->
  instruction_type i = Some "MUL"%string ->
  execute_conditionally i s = true ->
  operands i !! "rd"%string = Some rd ->
  operands i !! "rm"%string = Some rm ->
  operands i !! "rs"%string = Some rs ->
  registers s !! Z.to_nat rm = Some a ->
  registers s !! Z.to_nat rs = Some b ->
  exists s',
    execute_instruction i s = Ok (s', None) /\
    registers s' = <[Z.to_nat rd := (a * b) mod 2 ^ 32]> (registers s) /\
    memory s' = memory s /\
    (set_flags i = false -> cpsr s' = cpsr s) /\
    (set_flags i = true -> logic_flags_spec (cpsr s) (cpsr s') (a * b)).
Proof.
  intros Hi Hs Hk Hc Hrd Hrm Hrs Ha Hb.
  pose proof (decode_wf w i Hi) as Hwf.
  pose proof (wf_regs i Hwf "rd"%string rd ltac:(solve_in) Hrd) as Hrdr.
  pose proof (wf_regs i Hwf "rm"%string rm ltac:(solve_in) Hrm) as Hrmr.
  pose proof (wf_regs i Hwf "rs"%string rs ltac:(solve_in) Hrs) as Hrsr.
  assert (execute_instruction i s = silent (exec_mul i s)) as ->
    by (run_kind Hc Hk).
  unfold exec_mul.
  rewrite (proj2 (getitem_Ok _ _ _) Hrd), (proj2 (getitem_Ok _ _ _) Hrm),
    (proj2 (getitem_Ok _ _ _) Hrs).
  cbn [Py.bind].
  rewrite (index_of_lookup s rm a Hs Hrmr Ha). cbn [Py.bind].
  rewrite (index_of_lookup s rs b Hs Hrsr Hb). cbn [Py.bind].
  rewrite setitem_in_range by (rewrite (vs_length s Hs); lia).
  cbn [Py.bind]. unfold silent. cbn [Py.bind].
  eexists. split; [reflexivity|]. rewrite land_mask_mod.
  destruct (set_flags i);
    cbn [registers memory cpsr with_cpsr with_registers];
    (split; [reflexivity|]; split; [reflexivity|]; split; intros Hsf;
     try discriminate Hsf; try reflexivity).
  apply update_flags_logic.
Qed.

Lemma mul_semantics_witness :
  exists i s',
    decode 0xE0010090 = Ok i /\
    execute_instruction i (with_r0 0x10001) = Ok (s', None) /\
    registers s' = <[Z.to_nat 1 := (0x10001 * 0x10001) mod 2 ^ 32]>
                     (registers (with_r0 0x10001)).
Proof.
  assert (exists i, decode 0xE0010090 = Ok i /\
            exists s',
              execute_instruction i (with_r0 0x10001) = Ok (s', None) /\
              registers s' = <[Z.to_nat 1 := (0x10001 * 0x10001) mod 2 ^ 32]>
                               (registers (with_r0 0x10001)) /\
              memory s' = memory (with_r0 0x10001) /\
              (set_flags i = false -> cpsr s' = cpsr (with_r0 0x10001)) /\
              (set_flags i = true ->
               logic_flags_spec (cpsr (with_r0 0x10001)) (cpsr s')
                 (0x10001 * 0x10001)))
    as (i & Hi & s' & He & Hr & _).
  { eexists. split; [vm_compute; reflexivity|].
    apply (mul_semantics 0xE0010090 _ (with_r0 0x10001) 1 0 0
             0x10001 0x10001);
      [ vm_compute; reflexivity | eval_valid | reflexivity
      | reflexivity | reflexivity | reflexivity | reflexivity
      | reflexivity | reflexivity ]. }
  exists i, s'. split; [exact Hi|]. split; [exact He | exact Hr].
Defined.

(* ================================================================= *)
(** ** Which flags are read *)

Lemma same_outcome_bind {A B} (R : A -> A -> Prop) (Q : B -> B -> Prop)
    (r1 r2 : result A) (k1 k2 : A -> result B) :
  same_outcome R r1 r2 ->
  (forall a1 a2, R a1 a2 -> same_outcome Q (k1 a1) (k2 a2)) ->
  same_outcome Q (Py.bind r1 k1) (Py.bind r2 k2).
Proof.
  destruct r1 as [a1|e1], r2 as [a2|e2]; cbn [same_outcome Py.bind];
    intros H Hk; try contradiction; auto.
Qed.

Lemma same_outcome_refl {A} (r : result A) : same_outcome eq r r.
Proof. destruct r; reflexivity. Qed.

(** A register write keeps two states in agreement, with or without a flag
    update of the same result on both sides. *)
Lemma agree_write s1 s2 (regs : list Z) (sf : bool) res c v :
  agree_up_to_ncv s1 s2 ->
  agree_up_to_ncv
    (if sf
     then with_cpsr (with_registers s1 regs)
            (update_flags (cpsr (with_registers s1 regs)) res c v)
     else with_registers s1 regs)
    (if sf
     then with_cpsr (with_registers s2 regs)
            (update_flags (cpsr (with_registers s2 regs)) res c v)
     else with_registers s2 regs).
Proof.
  intros (Hr & Hm & Hz). destruct sf; unfold agree_up_to_ncv;
    cbn [registers memory cpsr with_cpsr with_registers update_flags Z_];
    auto.
Qed.

Ltac same_step :=
  apply (same_outcome_bind eq); [apply same_outcome_refl | intros ? ? <-].

Lemma exec_move_agree i s1 s2 :
  agree_up_to_ncv s1 s2 ->
  same_outcome agree_up_to_ncv (exec_move i s1) (exec_move i s2).
Proof.
  intros H. pose proof H as (Hr & _). unfold exec_move. rewrite <- Hr.
  do 3 same_step. cbn [same_outcome]. apply agree_write. exact H.
Qed.

Lemma exec_add_agree i s1 s2 :
  agree_up_to_ncv s1 s2 ->
  same_outcome agree_up_to_ncv (exec_add i s1) (exec_add i s2).
Proof.
  intros H. pose proof H as (Hr & _). unfold exec_add. rewrite <- Hr.
  do 5 same_step. cbn [same_outcome]. cbv zeta. apply agree_write. exact H.
Qed.

Lemma exec_sub_agree i s1 s2 :
  agree_up_to_ncv s1 s2 ->
  same_outcome agree_up_to_ncv (exec_sub i s1) (exec_sub i s2).
Proof.
  intros H. pose proof H as (Hr & _). unfold exec_sub, sub_flags.
  rewrite <- Hr.
  do 5 same_step. cbn [same_outcome]. cbv zeta. apply agree_write. exact H.
Qed.

Lemma exec_mul_agree i s1 s2 :
  agree_up_to_ncv s1 s2 ->
  same_outcome agree_up_to_ncv (exec_mul i s1) (exec_mul i s2).
Proof.
  intros H. pose proof H as (Hr & _). unfold exec_mul. rewrite <- Hr.
  do 6 same_step. cbn [same_outcome]. apply agree_write. exact H.
Qed.

Lemma exec_logic_agree op i s1 s2 :
  agree_up_to_ncv s1 s2 ->
  same_outcome agree_up_to_ncv (exec_logic op i s1) (exec_logic op i s2).
Proof.
  intros H. pose proof H as (Hr & _). unfold exec_logic. rewrite <- Hr.
  do 5 same_step. cbn [same_outcome]. apply agree_write. exact H.
Qed.

Lemma exec_cmp_agree i s1 s2 :
  agree_up_to_ncv s1 s2 ->
  same_outcome agree_up_to_ncv (exec_cmp i s1) (exec_cmp i s2).
Proof.
  intros H. pose proof H as (Hr & Hm & Hz). unfold exec_cmp, sub_flags.
  rewrite <- Hr.
  do 3 same_step. cbn [same_outcome]. unfold agree_up_to_ncv.
  cbn [registers memory cpsr with_cpsr update_flags Z_]. auto.
Qed.

Lemma silent_agree r1 r2 :
  same_outcome agree_up_to_ncv r1 r2 ->
  same_outcome agree_results (silent r1) (silent r2).
Proof.
  intros H. unfold silent.
  apply (same_outcome_bind agree_up_to_ncv); [exact H|].
  intros a1 a2 Ha. split; [exact Ha | reflexivity].
Qed.

Lemma exec_ldr_agree i s1 s2 :
  agree_up_to_ncv s1 s2 ->
  same_outcome agree_results (exec_ldr i s1) (exec_ldr i s2).
Proof.
  intros H. pose proof H as (Hr & Hm & Hz). unfold exec_ldr, in_bounds.
  rewrite <- Hr, <- Hm.
  do 4 same_step.
  match goal with |- context [if ?b then _ else _] => destruct b end.
  - do 2 same_step. split; [|reflexivity].
    unfold agree_up_to_ncv. cbn [fst registers memory cpsr with_registers].
    auto.
  - split; [exact H | reflexivity].
Qed.

Lemma exec_str_agree i s1 s2 :
  agree_up_to_ncv s1 s2 ->
  same_outcome agree_results (exec_str i s1) (exec_str i s2).
Proof.
  intros H. pose proof H as (Hr & Hm & Hz). unfold exec_str, in_bounds.
  rewrite <- Hr, <- Hm.
  do 5 same_step.
  match goal with |- context [if ?b then _ else _] => destruct b end.
  - same_step. split; [|reflexivity].
    unfold agree_up_to_ncv. cbn [fst registers memory cpsr with_memory].
    auto.
  - split; [exact H | reflexivity].
Qed.

Lemma execute_conditionally_agree i s1 s2 :
  agree_up_to_ncv s1 s2 ->
  execute_conditionally i s1 = execute_conditionally i s2.
Proof.
  intros (_ & _ & Hz). unfold execute_conditionally. rewrite Hz. reflexivity.
Qed.

Lemma execute_agree i s1 s2 :
  agree_up_to_ncv s1 s2 ->
  same_outcome agree_results
    (execute_instruction i s1) (execute_instruction i s2).
Proof.
  intros H. unfold execute_instruction.
  rewrite <- (execute_conditionally_agree i s1 s2 H).
  destruct (negb (execute_conditionally i s1)).
  { split; [exact H | reflexivity]. }
  repeat match goal with
  | |- same_outcome _ (if is_type i ?n then _ else _) _ =>
      destruct (is_type i n)
  end;
  try (apply silent_agree;
       first [ apply exec_move_agree | apply exec_add_agree
             | apply exec_sub_agree | apply exec_mul_agree
             | apply exec_logic_agree | apply exec_cmp_agree ]; exact H);
  try (apply exec_ldr_agree; exact H);
  try (apply exec_str_agree; exact H).
  destruct (is_type i "B" || is_type i "BL").
  - same_step. split; [exact H | reflexivity].
  - split; [exact H | reflexivity].
Qed.

(** X24: only the Z flag is ever read.  Two states with the same
    registers, the same memory and the same Z flag, whatever their N, C
    and V flags, behave alike under any instruction record: either both
    executions raise the same exception, or both return, print the same
    line, and leave states that again have the same registers, memory and
    Z flag. *)
Theorem only_zero_flag_is_read i s1 s2 :
  agree_up_to_ncv s1 s2 ->
  same_outcome agree_results
    (execute_instruction i s1) (execute_instruction i s2).
Proof. exact (execute_agree i s1 s2). Qed.

Lemma only_zero_flag_is_read_witness :
  exists i,
    decode 0x00876008 = Ok i /\
    agree_up_to_ncv new_cpu
      (with_cpsr new_cpu {| N := 1; Z_ := 0; C := 1; V := 1 |}) /\
    same_outcome agree_results
      (execute_instruction i new_cpu)
      (execute_instruction i
         (with_cpsr new_cpu {| N := 1; Z_ := 0; C := 1; V := 1 |})).
Proof.
  eexists. split; [vm_compute; reflexivity|].
  assert (agree_up_to_ncv new_cpu
            (with_cpsr new_cpu {| N := 1; Z_ := 0; C := 1; V := 1 |}))
    as Hagree by (repeat split).
  split; [exact Hagree|].
  apply (only_zero_flag_is_read _ new_cpu _ Hagree).
Defined.

(* ================================================================= *)
(** ** Thumb records *)

(** X25: a Thumb record is inert.  After [ThumbInstruction(w).decode()]
    the record's operand set is exactly [{'binary_word': w & 0xFFFF}], its
    kind is ['UNKNOWN_THUMB'], none of the decoder's twenty kinds, its
    condition code is [None], and [execute_instruction] neither skips it
    nor changes anything: for every state it returns that state and prints
    the "unknown instruction type" line. *)
Theorem thumb_record_is_inert w s :
  let i := thumb_decode (new_thumb_instruction w) in
  operands i = {[ "binary_word"%string := w mod 2 ^ 16 ]} /\
  instruction_type i = Some "UNKNOWN_THUMB"%string /\
  ~ In "UNKNOWN_THUMB"%string kinds /\
  condition_code i = None /\
  execute_instruction i s
  = Ok (s, Some (UnknownType (Some "UNKNOWN_THUMB"%string))).
Proof.
  cbv zeta. split; [|split; [|split; [|split]]].
  - unfold thumb_decode, new_thumb_instruction. cbn [operands binary_word].
    f_equal. change 0xFFFF with (Z.ones 16). apply Z.land_ones. lia.
  - reflexivity.
  - unfold kinds. cbn [In].
    intros H. repeat (destruct H as [H | H]; [discriminate H|]). exact H.
  - reflexivity.
  - reflexivity.
Qed.

(* ================================================================= *)
(** ** The simulation loop *)

Lemma execute_all_memory_length instructions s s' :
  execute_all instructions s = Ok s' ->
  length (memory s') = length (memory s).
Proof.
  revert s. induction instructions as [|i rest IH]; intros s H;
    cbn [execute_all] in H.
  - apply Ok_inj in H. subst s'. reflexivity.
  - inv_bind H. destruct a as [s1 r]. cbn [fst] in H.
    rewrite (IH s1 H). exact (execute_memory_length i s s1 r E).
Qed.

Lemma initial_cpu_valid :
  exists s, initial_cpu = Ok s /\ valid_state s /\
            length (memory s) = 1024%nat.
Proof.
  eexists. split; [reflexivity|]. split; [eval_valid | reflexivity].
Qed.

(** X26: the simulation never aborts.  For any file contents,
    [run_simulation] decodes the whole stream and executes every record
    without an exception; at the end the register file still has sixteen
    32-bit values and the memory its 1024 bytes.  A missing file makes it
    return before the loop. *)
Theorem run_simulation_never_aborts file :
  exists outcome,
    run_simulation file = Ok outcome /\
    (file = None -> outcome = None) /\
    (forall binary_data, file = Some binary_data ->
       exists s, outcome = Some s /\ valid_state s /\
                 length (memory s) = 1024%nat).
Proof.
  unfold run_simulation.
  destruct initial_cpu_valid as (s0 & -> & Hs0 & Hm0). cbn [Py.bind].
  destruct file as [binary_data|].
  2: { exists None. split; [reflexivity|]. split; [reflexivity|].
       intros d Hd. discriminate Hd. }
  destruct (decode_instructions_wf binary_data) as (instructions & -> & Hall).
  cbn [Py.bind].
  destruct (execute_all_valid instructions s0 Hall Hs0) as (s' & He & Hs').
  rewrite He. cbn [Py.bind].
  exists (Some s'). split; [reflexivity|]. split; [intros H; discriminate H|].
  intros d _. exists s'. split; [reflexivity|]. split; [exact Hs'|].
  rewrite (execute_all_memory_length instructions s0 s' He). exact Hm0.
Qed.

(** X27: decoding distributes over concatenation at word boundaries.  If
    the first of two streams consists of whole words, the records of the
    concatenated stream are the records of the first followed by those of
    the second: the decoder keeps no state between words. *)
Theorem decode_instructions_app (data1 data2 : list byte) l1 l2 :
  (length data1 mod 4 = 0)%nat ->
  decode_instructions data1 = Ok l1 ->
  decode_instructions data2 = Ok l2 ->
  decode_instructions (data1 ++ data2) = Ok (l1 ++ l2).
Proof.
  intros Hmod H1 H2. revert l1 Hmod H1.
  induction data1 as [data1 IH] using (induction_ltof1 _ length).
  unfold ltof in IH. intros l1 Hmod H1.
  destruct data1 as [|b0 rest0].
  { cbn [decode_instructions] in H1. apply Ok_inj in H1. subst l1.
    exact H2. }
  destruct rest0 as [|b1 [|b2 [|b3 rest]]];
    try (simpl in Hmod; discriminate Hmod).
  cbn [app]. rewrite decode_instructions_cons in H1 |- *.
  inv_bind H1. inv_bind H1. apply Ok_inj in H1. subst l1.
  rewrite E. cbn [Py.bind].
  rewrite (IH rest ltac:(simpl; lia) a0); [reflexivity | | exact E0].
  cbn [length] in Hmod.
  replace (S (S (S (S (length rest))))) with (length rest + 1 * 4)%nat in Hmod
    by lia.
  rewrite Nat.Div0.mod_add in Hmod. exact Hmod.
Qed.

Lemma decode_instructions_app_witness :
  exists l1 l2,
    decode_instructions [xe3; xa0; x00; x10] = Ok l1 /\
    decode_instructions [xe1; x50; x00; x05; xff] = Ok l2 /\
    decode_instructions ([xe3; xa0; x00; x10] ++ [xe1; x50; x00; x05; xff])
    = Ok (l1 ++ l2).
Proof.
  eexists. eexists. split; [vm_compute; reflexivity|].
  split; [vm_compute; reflexivity|].
  apply (decode_instructions_app [xe3; xa0; x00; x10]
           [xe1; x50; x00; x05; xff]);
    [reflexivity | vm_compute; reflexivity | vm_compute; reflexivity].
Defined.
